(** * X-Engage: discovery-to-decision pipeline

    A shallow embedding of the core of the engagement agent
    (modules/filter.py, modules/database.py, modules/generator.py,
    modules/scraper.py, modules/telegram_bot.py and main.py) together
    with the properties stated about it in the specification.

    Conventions of the embedding:
    - Python integers are [Z]; a [datetime] is the number of microseconds
      since the epoch in UTC (naive datetimes are read as UTC, as the code
      does with [replace(tzinfo=timezone.utc)]); a [timedelta] is a
      number of microseconds.
    - a Python float is the rational number it denotes ([Q]); each
      operation that rounds ([int / int], [float / float], [float(int)])
      is followed by [Float.round], the rounding of binary64 to the
      nearest value, ties to even.  [score_post] computes
      [delta.total_seconds() / 3600] and [views / hours_old] this way.
      The exponent range is not bounded: no overflow to infinity, no
      subnormal numbers.  A float is compared with an integer exactly,
      as Python does.
    - the age limit of the filter loop ([hours_old > max_age_h]) is
      compared on the exact quotient ([hours_between]); for a limit of
      0 to 10^6 hours the double decides the same
      ([too_old_as_computed]).
    - the score is a sum of integer terms, held exactly by a Python float,
      and is an integer here.
    - a [str] is the string of the bytes of its UTF-8 encoding; [len]
      counts its characters ([Str.len]), and [str.lower()] is modelled
      on ASCII letters, other characters being left unchanged.
    - a dictionary key read with [post.get(k, default)] is a record field
      holding the default when the key is absent. *)

From Stdlib Require Import ZArith QArith Qround Qpower String Ascii List Lia Lqa
  DecimalString Sorted.
From stdpp Require Import gmap strings list fin_maps.
Import ListNotations.

Open Scope string_scope.
Open Scope list_scope.
Open Scope Z_scope.

(** ** Strings *)

Module Str.

(** [c.lower()] for one ASCII character. *)
Definition lower_ascii (c : ascii) : ascii :=
  let n := nat_of_ascii c in
  if ((65 <=? n) && (n <=? 90))%nat then ascii_of_nat (n + 32) else c.

(** [s.lower()] *)
Fixpoint lower (s : string) : string :=
  match s with
  | EmptyString => EmptyString
  | String c s' => String (lower_ascii c) (lower s')
  end.

(** A string holds the UTF-8 encoding of a Python [str].  A byte
    [10xxxxxx] continues a character; every other byte starts one. *)
Definition is_continuation (c : ascii) : bool :=
  let n := nat_of_ascii c in ((128 <=? n) && (n <? 192))%nat.

(** [len(s)]: the number of characters (code points), not of bytes. *)
Fixpoint len (s : string) : nat :=
  match s with
  | EmptyString => O
  | String c s' => if is_continuation c then len s' else S (len s')
  end.

(** [sub in s] *)
Fixpoint contains (sub s : string) : bool :=
  String.prefix sub s ||
  match s with
  | EmptyString => false
  | String _ s' => contains sub s'
  end.

(** [any(p in s for p in phrases)] *)
Definition any_in (phrases : list string) (s : string) : bool :=
  existsb (fun p => contains p s) phrases.

(** [s.startswith(p)] *)
Definition startswith (s p : string) : bool := String.prefix p s.

(** [s.replace(old, new)] for a non-empty [old]: every non-overlapping
    occurrence of [old], scanning from the left, becomes [new].  [skip]
    is the number of characters of the current occurrence still to
    drop. *)
Fixpoint replace_from (old new : string) (skip : nat) (s : string) : string :=
  match s with
  | EmptyString => EmptyString
  | String c s' =>
      match skip with
      | S k => replace_from old new k s'
      | O =>
          if String.prefix old s
          then new +:+ replace_from old new (String.length old - 1) s'
          else String c (replace_from old new O s')
      end
  end.

Definition replace (old new s : string) : string :=
  replace_from old new O s.

(** The ASCII white space removed by [s.strip()]. *)
Definition is_space (c : ascii) : bool :=
  let n := nat_of_ascii c in
  ((n =? 32) || ((9 <=? n) && (n <=? 13)))%nat.

Fixpoint lstrip (s : string) : string :=
  match s with
  | EmptyString => EmptyString
  | String c s' => if is_space c then lstrip s' else s
  end.

Fixpoint rstrip (s : string) : string :=
  match s with
  | EmptyString => EmptyString
  | String c s' =>
      match rstrip s' with
      | EmptyString => if is_space c then EmptyString else String c EmptyString
      | r => String c r
      end
  end.

(** [s.strip()] *)
Definition strip (s : string) : string := rstrip (lstrip s).

(** [s.split(sep, 1)] at a one-character separator: the text before the
    first separator and the text after it; [None] when [sep not in s]. *)
Fixpoint split_once (sep : ascii) (s : string) : option (string * string) :=
  match s with
  | EmptyString => None
  | String c s' =>
      if Ascii.eqb c sep then Some (EmptyString, s')
      else match split_once sep s' with
           | Some (a, b) => Some (String c a, b)
           | None => None
           end
  end.

End Str.

(** ** Rational comparisons used on ages and velocities *)

Definition Qltb (a b : Q) : bool :=
  match Qcompare a b with Lt => true | _ => false end.

Definition Qgtb (a b : Q) : bool := Qltb b a.

(** ** Binary floating point *)

Module Float.

(** The binade of a positive rational: the [e] with
    [2^e <= x < 2^(e+1)]. *)
Definition mag (x : Q) : Z :=
  let e := Z.log2 (Qnum x) - Z.log2 (Zpos (Qden x)) in
  if Qle_bool (2 ^ e) x then e else e - 1.

(** Rounding to the nearest integer, ties to the even one. *)
Definition rne (q : Q) : Z :=
  let f := Qfloor q in
  match (q - inject_Z f ?= 1 # 2)%Q with
  | Lt => f
  | Gt => f + 1
  | Eq => if Z.even f then f else f + 1
  end.

(** The nearest number with 53 significant bits, for [x > 0]. *)
Definition round_pos (x : Q) : Q :=
  let e := mag x in
  (inject_Z (rne (x * 2 ^ (52 - e))) * 2 ^ (e - 52))%Q.

(** The binary64 number nearest to [x]. *)
Definition round (x : Q) : Q :=
  match (x ?= 0)%Q with
  | Gt => round_pos x
  | Lt => (- round_pos (- x))%Q
  | Eq => 0%Q
  end.

(** [float(n)] *)
Definition of_Z (n : Z) : Q := round (inject_Z n).

(** [x / y] on two floats. *)
Definition div (x y : Q) : Q := round (x / y).

End Float.

(** ** Time *)

(** A [datetime], in microseconds since the epoch (UTC). *)
Definition datetime := Z.

(** [delta.total_seconds()]: the microseconds of [delta] divided by
    [10**6], an [int / int] division. *)
Definition total_seconds (delta : Z) : Q :=
  Float.round (inject_Z delta / inject_Z 1000000).

(** [(now - t).total_seconds() / 3600] as Python computes it. *)
Definition hours_old (now t : datetime) : Q :=
  Float.div (total_seconds (now - t)) (Float.of_Z 3600).

(** [timedelta(hours=h)] in microseconds. *)
Definition timedelta_hours (h : Z) : Z := h * 3600000000.

(** [(now - t).total_seconds() / 3600], the exact quotient. *)
Definition hours_between (now t : datetime) : Q :=
  (inject_Z (now - t) / inject_Z 1000000 / inject_Z 3600)%Q.

(** ** Posts *)

(** The post dictionary built by the scraper and passed along the
    pipeline.  [id] is [None] when the key is missing or holds [None];
    [created_at] likewise; [source] is [None] until a stage tags it. *)
Record Post := mkPost {
  id : option string;
  url : string;
  author_handle : string;
  author_name : string;
  author_followers : Z;
  author_verified : bool;
  text : string;
  views : Z;
  likes : Z;
  replies : Z;
  retweets : Z;
  created_at : option datetime;
  priority_boost : Z;
  source : option string;
  score : Z
}.

(** [post["score"] = v] *)
Definition set_score (v : Z) (p : Post) : Post :=
  mkPost (id p) (url p) (author_handle p) (author_name p) (author_followers p)
         (author_verified p) (text p) (views p) (likes p) (replies p)
         (retweets p) (created_at p) (priority_boost p) (source p) v.

(** [post["source"] = v] *)
Definition set_source (v : string) (p : Post) : Post :=
  mkPost (id p) (url p) (author_handle p) (author_name p) (author_followers p)
         (author_verified p) (text p) (views p) (likes p) (replies p)
         (retweets p) (created_at p) (priority_boost p) (Some v) (score p).

(** [post["priority_boost"] = v] *)
Definition set_priority_boost (v : Z) (p : Post) : Post :=
  mkPost (id p) (url p) (author_handle p) (author_name p) (author_followers p)
         (author_verified p) (text p) (views p) (likes p) (replies p)
         (retweets p) (created_at p) v (source p) (score p).

(** [post["views"] = v] and [post["author_followers"] = v], used to state
    how the score varies with one field. *)
Definition set_views (v : Z) (p : Post) : Post :=
  mkPost (id p) (url p) (author_handle p) (author_name p) (author_followers p)
         (author_verified p) (text p) v (likes p) (replies p)
         (retweets p) (created_at p) (priority_boost p) (source p) (score p).

Definition set_author_followers (v : Z) (p : Post) : Post :=
  mkPost (id p) (url p) (author_handle p) (author_name p) v
         (author_verified p) (text p) (views p) (likes p) (replies p)
         (retweets p) (created_at p) (priority_boost p) (source p) (score p).

(** ** modules/filter.py *)

Module Filter.

Definition debatable : list string :=
  [ "vs "; " vs"; "dying"; "dead"; "overhyped"; "wrong"; "actually";
    "controversial"; "unpopular opinion"; "hot take"; "disagree";
    "overrated"; "underrated"; "nobody talks about"; "stop using";
    "replace"; "killed"; "extinct"; "broken" ].

Definition comparison : list string :=
  [ "better than"; "worse than"; "compared to"; "difference between" ].

(** [score_post(post)], with the clock reading [now] made explicit. *)
Definition score_post (now : datetime) (post : Post) : Z :=
  let score := 0 in
  (* Author credibility *)
  let followers := author_followers post in
  let score :=
    if followers >? 50000 then score + 5
    else if followers >? 10000 then score + 3
    else if followers >? 1000 then score + 1
    else score in
  (* Current engagement *)
  let views := views post in
  let score :=
    if views >? 10000 then score + 5
    else if views >? 5000 then score + 3
    else if views >? 1000 then score + 2
    else score in
  (* Engagement velocity (views per hour since posted) *)
  let hours_old : option Q :=
    match created_at post with
    | Some created_at => Some (hours_old now created_at)
    | None => None
    end in
  let score :=
    match hours_old with
    | Some hours_old =>
        if Qgtb hours_old (inject_Z 0) then
          let velocity := Float.div (Float.of_Z views) hours_old in
          if Qgtb velocity (inject_Z 1000) then score + 4
          else if Qgtb velocity (inject_Z 500) then score + 2
          else score
        else score
    | None => score
    end in
  (* Verified account *)
  let score := if author_verified post then score + 2 else score in
  (* Reply / like activity *)
  let score := if likes post >? 50 then score + 2 else score in
  let score := if replies post >? 10 then score + 2 else score in
  (* Recency bonus *)
  let score :=
    match hours_old with
    | Some hours_old =>
        if Qltb hours_old (inject_Z 3) then score + 3
        else if Qltb hours_old (inject_Z 12) then score + 1
        else score
    | None => score
    end in
  (* Priority boost from monitored accounts *)
  let score := score + priority_boost post in
  (* Viral potential signals *)
  let post_text := Str.lower (text post) in
  let score :=
    if (views >? 5000) && (replies post <? 20) then score + 3 else score in
  let score := if Str.any_in debatable post_text then score + 2 else score in
  let score := if Str.any_in comparison post_text then score + 1 else score in
  score.


(** The values [filter_and_rank_posts] reads from the configuration,
    each with the default the code gives it. *)
Record Config := mkConfig {
  min_score : Z;              (* filtering.min_score, default 8 *)
  min_views : Z;              (* filtering.min_views, default 1000 *)
  min_author_followers : Z;   (* filtering.min_author_followers, default 1000 *)
  top_n_posts : Z;            (* filtering.top_n_posts, default 10 *)
  max_post_age_hours : Z      (* scraping.max_post_age_hours, default 24 *)
}.

Definition default_config : Config := mkConfig 8 1000 1000 10 24.

(** The clock as the function reads it: [clock 0] is the reading taken
    before the loop, [clock (S k)] the reading taken by the [k]-th call
    of [score_post]. *)
Definition Clock := nat -> datetime.

(** The loop state: [seen_this_run], [candidates] and the number of
    calls of [score_post] made so far. *)
Record LoopState := mkLoop {
  seen_this_run : gset string;
  candidates : list Post;
  scored : nat
}.

(** [hours_old > max_age_h], only when [created_at] is set; the quotient
    is the exact one. *)
Definition too_old (cfg : Config) (now : datetime) (post : Post) : bool :=
  match created_at post with
  | Some created_at =>
      Qgtb (hours_between now created_at) (inject_Z (max_post_age_hours cfg))
  | None => false
  end.

(** [post.get("views", 0) > 0 and post["views"] < min_views] *)
Definition below_min_views (cfg : Config) (post : Post) : bool :=
  (views post >? 0) && (views post <? min_views cfg).

(** [post.get("author_followers", 0) > 0 and post["author_followers"] < min_followers] *)
Definition below_min_followers (cfg : Config) (post : Post) : bool :=
  (author_followers post >? 0) && (author_followers post <? min_author_followers cfg).

(** [post.get("source", "topic_search")] *)
Definition source_or_default (post : Post) : string :=
  match source post with
  | Some s => s
  | None => "topic_search"
  end.

(** One iteration of [for post in posts]. *)
Definition loop_body (cfg : Config) (seen_db_ids : gset string) (clock : Clock)
           (st : LoopState) (post : Post) : LoopState :=
  match id post with
  | None => st                                    (* if not pid: continue *)
  | Some pid =>
      if String.eqb pid EmptyString then st       (* if not pid: continue *)
      else if bool_decide (pid ∈ seen_this_run st) then st
      else
        let seen := {[ pid ]} ∪ seen_this_run st in
        if bool_decide (pid ∈ seen_db_ids) then mkLoop seen (candidates st) (scored st)
        else if too_old cfg (clock O) post then mkLoop seen (candidates st) (scored st)
        else if below_min_views cfg post then mkLoop seen (candidates st) (scored st)
        else if below_min_followers cfg post then mkLoop seen (candidates st) (scored st)
        else
          let post_score := score_post (clock (S (scored st))) post in
          let post := set_score post_score post in
          let post := set_source (source_or_default post) post in
          if post_score >=? min_score cfg
          then mkLoop seen (candidates st ++ [post]) (S (scored st))
          else mkLoop seen (candidates st) (S (scored st))
  end.

(** [candidates.sort(key=lambda p: p["score"], reverse=True)]: Python's
    sort is stable, also with [reverse=True], so a post is placed before
    the later posts of equal score. *)
Fixpoint insert_desc (p : Post) (l : list Post) : list Post :=
  match l with
  | [] => [p]
  | q :: l' => if score q >? score p then q :: insert_desc p l' else p :: q :: l'
  end.

Definition sort_desc (l : list Post) : list Post := foldr insert_desc [] l.

(** [l[:n]], where a negative [n] counts from the end. *)
Definition slice_to {A} (n : Z) (l : list A) : list A :=
  if n <? 0 then take (Z.to_nat (Z.of_nat (length l) + n)) l
  else take (Z.to_nat n) l.

(** The candidates collected by the loop, before sorting. *)
Definition collect (posts : list Post) (seen_db_ids : gset string)
           (cfg : Config) (clock : Clock) : list Post :=
  candidates (fold_left (loop_body cfg seen_db_ids clock) posts (mkLoop ∅ [] O)).

(** [filter_and_rank_posts(posts, db, config)], where [seen_db_ids] is
    [db.get_already_seen_ids()]. *)
Definition filter_and_rank_posts (posts : list Post) (seen_db_ids : gset string)
           (cfg : Config) (clock : Clock) : list Post :=
  let candidates := collect posts seen_db_ids cfg clock in
  let candidates := sort_desc candidates in
  slice_to (top_n_posts cfg) candidates.

End Filter.

(** ** modules/database.py *)

Module Database.

(** The values of the [status] column. *)
Inductive Status := pending | approved | skipped | posted.

(** A row of [posts]. *)
Record PostRow := mkPostRow {
  p_id : string;
  p_url : string;
  p_author_handle : string;
  p_author_name : string;
  p_author_followers : Z;
  p_author_verified : bool;
  p_text : string;
  p_views : Z;
  p_likes : Z;
  p_replies : Z;
  p_retweets : Z;
  p_created_at : option datetime;
  p_discovered_at : datetime;
  p_source : option string;
  p_score : Z;
  status : Status
}.

(** A row of [comments]. *)
Record CommentRow := mkCommentRow {
  c_id : Z;
  c_post_id : string;
  comment_type : string;
  c_text : string;
  generated_at : datetime;
  issues : list string
}.

(** A row of [approvals]. *)
Record ApprovalRow := mkApprovalRow {
  a_id : Z;
  a_post_id : string;
  comment_id : Z;
  option_chosen : string;
  custom_text : option string;
  approved_at : datetime;
  posted_at : option datetime
}.

(** The store: [posts] keyed by its primary key, [comments] and
    [approvals] in insertion order (their key is the autoincrement
    [id]; no row is ever deleted), [account_checks] keyed by handle with
    a nullable [last_checked_at]. *)
Record DB := mkDB {
  posts : gmap string PostRow;
  comments : list CommentRow;
  approvals : list ApprovalRow;
  account_checks : gmap string (option datetime)
}.

Definition empty : DB := mkDB ∅ [] [] ∅.

(** [post_exists(post_id)] *)
Definition post_exists (db : DB) (post_id : string) : bool :=
  bool_decide (is_Some (posts db !! post_id)).

(** [url_exists(url)] *)
Definition url_exists (db : DB) (u : string) : bool :=
  bool_decide (map_Exists (fun _ r => p_url r = u) (posts db)).

Definition set_status (s : Status) (r : PostRow) : PostRow :=
  mkPostRow (p_id r) (p_url r) (p_author_handle r) (p_author_name r)
            (p_author_followers r) (p_author_verified r) (p_text r) (p_views r)
            (p_likes r) (p_replies r) (p_retweets r) (p_created_at r)
            (p_discovered_at r) (p_source r) (p_score r) s.

(** [insert_post(post)]: INSERT OR IGNORE, the row is dropped when its
    [id] or its [url] is already in the table; a new row is [pending].
    [ts] is CURRENT_TIMESTAMP.  A post without an id never reaches this
    function (the ranking drops it); nothing is stored for it here. *)
Definition insert_post (ts : datetime) (post : Post) (db : DB) : DB :=
  match id post with
  | None => db
  | Some pid =>
      if post_exists db pid || url_exists db (url post) then db
      else
        let row :=
          mkPostRow pid (url post) (author_handle post) (author_name post)
                    (author_followers post) (author_verified post) (text post)
                    (views post) (likes post) (replies post) (retweets post)
                    (created_at post) ts (source post) (score post) pending in
        mkDB (<[ pid := row ]> (posts db)) (comments db) (approvals db)
             (account_checks db)
  end.

(** [update_post_status(post_id, status)] *)
Definition update_post_status (post_id : string) (s : Status) (db : DB) : DB :=
  mkDB (alter (set_status s) post_id (posts db)) (comments db) (approvals db)
       (account_checks db).

(** [get_post(post_id)] *)
Definition get_post (db : DB) (post_id : string) : option PostRow :=
  posts db !! post_id.

(** [get_already_seen_ids()] *)
Definition get_already_seen_ids (db : DB) : gset string := dom (posts db).

(** [insert_comment(post_id, comment_type, text, issues)], returning
    [lastrowid]. *)
Definition insert_comment (ts : datetime) (post_id comment_type text : string)
           (issues : list string) (db : DB) : DB * Z :=
  let cid := Z.of_nat (length (comments db)) + 1 in
  (mkDB (posts db)
        (comments db ++ [mkCommentRow cid post_id comment_type text ts issues])
        (approvals db) (account_checks db),
   cid).

(** [get_comment(comment_id)] *)
Definition get_comment (db : DB) (cid : Z) : option CommentRow :=
  List.find (fun r => c_id r =? cid) (comments db).

(** [get_comments_for_post(post_id)], ordered by id. *)
Definition get_comments_for_post (db : DB) (post_id : string) : list CommentRow :=
  List.filter (fun r => String.eqb (c_post_id r) post_id) (comments db).

(** [insert_approval(post_id, comment_id, option, custom_text)],
    returning [lastrowid]. *)
Definition insert_approval (ts : datetime) (post_id : string) (cid : Z)
           (chosen : string) (custom : option string) (db : DB) : DB * Z :=
  let aid := Z.of_nat (length (approvals db)) + 1 in
  (mkDB (posts db) (comments db)
        (approvals db ++ [mkApprovalRow aid post_id cid chosen custom ts None])
        (account_checks db),
   aid).

Definition set_posted_at (ts : datetime) (r : ApprovalRow) : ApprovalRow :=
  mkApprovalRow (a_id r) (a_post_id r) (comment_id r) (option_chosen r)
                (custom_text r) (approved_at r) (Some ts).

(** [mark_posted(approval_id)] *)
Definition mark_posted (ts : datetime) (approval_id : Z) (db : DB) : DB :=
  mkDB (posts db) (comments db)
       (List.map (fun r => if a_id r =? approval_id then set_posted_at ts r else r)
                 (approvals db))
       (account_checks db).

(** [get_last_check_time(handle)] *)
Definition get_last_check_time (db : DB) (handle : string) : option datetime :=
  match account_checks db !! handle with
  | Some (Some t) => Some t
  | _ => None
  end.

(** [update_last_check_time(handle)] *)
Definition update_last_check_time (ts : datetime) (handle : string) (db : DB) : DB :=
  mkDB (posts db) (comments db) (approvals db)
       (<[ handle := Some ts ]> (account_checks db)).

(** [add_to_watchlist(handle)] *)
Definition add_to_watchlist (handle : string) (db : DB) : DB * bool :=
  match account_checks db !! handle with
  | Some _ => (db, false)
  | None =>
      (mkDB (posts db) (comments db) (approvals db)
            (<[ handle := None ]> (account_checks db)),
       true)
  end.

End Database.

(** ** Outcomes of calls that may raise *)

(** A call returns a value or raises an exception, kept as its message. *)
Inductive result (A : Type) : Type :=
| Ok (a : A)
| Raise (e : string).
Arguments Ok {A} a.
Arguments Raise {A} e.

(** A line break. *)
Definition nl : string := String (ascii_of_nat 10) EmptyString.

(** [str(n)] for a natural number. *)
Definition str_of_nat (n : nat) : string :=
  NilEmpty.string_of_uint (Nat.to_uint n).

(** ** modules/generator.py *)

Module Generator.

(** The keys of [PROMPTS], in the order of the dictionary. *)
Inductive Tone := challenge | expand | nuanced | question.

Definition TONES : list Tone := [challenge; expand; nuanced; question].

Definition tone_name (t : Tone) : string :=
  match t with
  | challenge => "challenge"
  | expand => "expand"
  | nuanced => "nuanced"
  | question => "question"
  end.

#[global] Instance Tone_eq_dec : EqDecision Tone.
Proof. solve_decision. Defined.

Definition DOMAIN_TERMS : list string :=
  [ "RLHF"; "DPO"; "PPO"; "distillation"; "agent"; "reasoning"; "post-training";
    "alignment"; "tool use"; "orchestration"; "memory"; "RAG"; "embeddings";
    "context"; "inference"; "fine-tuning"; "transformer"; "attention"; "token";
    "model"; "training"; "dataset"; "benchmark"; "evaluation"; "prompt";
    "dashboard"; "SQL"; "analytics"; "pipeline"; "vector"; "retrieval";
    "markdown"; "parsing"; "chunking"; "LLM"; "API"; "latency"; "throughput";
    "accuracy"; "precision"; "recall"; "loss"; "gradient"; "weight" ].

Definition GENERIC_OPENERS : list string :=
  [ "great post"; "thanks for sharing"; "interesting perspective";
    "i agree with"; "this is important"; "well said"; "totally agree";
    "love this"; "so true"; "100%" ].

(** [validate_comment(comment)] *)
Definition validate_comment (comment : string) : bool * list string :=
  let issues : list string := [] in
  let len := Str.len comment in
  let issues :=
    if (len <? 150)%nat
    then issues ++ ["Too short (" +:+ str_of_nat len +:+ " chars — target 200–280)"]
    else issues in
  let issues :=
    if (280 <? len)%nat
    then issues ++ ["Over Twitter limit (" +:+ str_of_nat len +:+ "/280 chars)"]
    else issues in
  let issues :=
    match List.find (fun phrase => Str.contains phrase (Str.lower comment))
                    GENERIC_OPENERS with
    | Some phrase => issues ++ ["Generic opener: '" +:+ phrase +:+ "'"]
    | None => issues
    end in
  let issues :=
    if Str.contains "afterburn" (Str.lower comment) then
      let low := Str.lower comment in
      if Str.contains "check out afterburn" low || Str.contains "try afterburn" low
      then issues ++ ["Forced library mention"]
      else issues
    else issues in
  let has_depth :=
    existsb (fun t => Str.contains (Str.lower t) (Str.lower comment)) DOMAIN_TERMS in
  let issues :=
    if negb has_depth then issues ++ ["No technical depth (no domain terms)"]
    else issues in
  ((length issues =? 0)%nat, issues).

(** The two generation providers. *)
Inductive Provider := Groq | Gemini.

(** One request to a provider: what [_call_groq] and [_call_gemini]
    receive. *)
Record Call := mkCall {
  provider : Provider;
  call_prompt : string;
  call_model : string;
  call_temperature : Q;
  call_max_tokens : Z
}.

(** The [comments] section of the configuration, with the defaults of
    [_call_llm]. *)
Record Config := mkConfig {
  llm_provider : string;      (* default "groq" *)
  temperature : Q;            (* default 0.8 *)
  max_tokens : Z;             (* default 200 *)
  groq_model : string;        (* default "llama-3.3-70b-versatile" *)
  gemini_model : string       (* default "gemini-2.0-flash" *)
}.

Definition default_config : Config :=
  mkConfig "groq" (8 # 10) 200 "llama-3.3-70b-versatile" "gemini-2.0-flash".

(** Code that calls the providers: it returns or raises, and extends
    the log of the requests sent so far. *)
Definition M (A : Type) : Type := list Call -> result A * list Call.

Definition ret {A} (a : A) : M A := fun log => (Ok a, log).

Definition bind {A B} (m : M A) (k : A -> M B) : M B :=
  fun log =>
    match m log with
    | (Ok a, log') => k a log'
    | (Raise e, log') => (Raise e, log')
    end.

(** [try: m  except Exception as e: h e] *)
Definition try_except {A} (m : M A) (h : string -> M A) : M A :=
  fun log =>
    match m log with
    | (Ok a, log') => (Ok a, log')
    | (Raise e, log') => h e log'
    end.

Notation "'let*' x ':=' m 'in' k" := (bind m (fun x => k))
  (at level 10, x name, m at level 100, k at level 200).

Section WithBackend.

(** What the providers answer to each request. *)
Variable backend : Call -> result string.

(** The prompt sent for a tone of a post: the template [PROMPTS[tone]]
    filled with the context of [_build_context(post)]. *)
Variable format_prompt : Tone -> Post -> string.

Definition send (c : Call) : M string := fun log => (backend c, log ++ [c]).

(** [_call_groq(prompt, model, temperature, max_tokens)] *)
Definition _call_groq (prompt model : string) (temperature : Q) (max_tokens : Z)
  : M string :=
  send (mkCall Groq prompt model temperature max_tokens).

(** [_call_gemini(prompt, model, temperature, max_tokens)] *)
Definition _call_gemini (prompt model : string) (temperature : Q) (max_tokens : Z)
  : M string :=
  send (mkCall Gemini prompt model temperature max_tokens).

(** [_call_llm(prompt, config)] *)
Definition _call_llm (prompt : string) (cfg : Config) : M string :=
  let provider := llm_provider cfg in
  let temperature := temperature cfg in
  let max_tokens := max_tokens cfg in
  if String.eqb provider "groq" then
    let model := groq_model cfg in
    try_except (_call_groq prompt model temperature max_tokens)
               (fun e => _call_gemini prompt (gemini_model cfg) temperature max_tokens)
  else
    let model := gemini_model cfg in
    try_except (_call_gemini prompt model temperature max_tokens)
               (fun e => _call_groq prompt (groq_model cfg) temperature max_tokens).

(** The body of [for tone, prompt_tpl in PROMPTS.items()]: the entry
    stored in [results[tone]]. *)
Definition generate_one (post : Post) (cfg : Config) (tone : Tone)
  : M (string * list string) :=
  let prompt := format_prompt tone post in
  try_except
    (let* text := _call_llm prompt cfg in
     let '(valid, issues) := validate_comment text in
     ret (text, issues))
    (fun e => ret (EmptyString, ["Generation failed: " +:+ e])).

(** The loop over the tones, building [results]. *)
Fixpoint generate_loop (post : Post) (cfg : Config) (tones : list Tone)
  : M (list (Tone * (string * list string))) :=
  match tones with
  | [] => ret []
  | tone :: rest =>
      let* r := generate_one post cfg tone in
      let* rs := generate_loop post cfg rest in
      ret ((tone, r) :: rs)
  end.

(** [generate_comments(post, config)]: the dictionary [results], as
    the list of its items, and the log of the requests it sent. *)
Definition generate_comments (post : Post) (cfg : Config)
  : list (Tone * (string * list string)) * list Call :=
  match generate_loop post cfg TONES [] with
  | (Ok results, log) => (results, log)
  | (Raise _, log) => ([], log)
  end.

(** [results[tone]] *)
Definition lookup_tone (results : list (Tone * (string * list string)))
           (tone : Tone) : option (string * list string) :=
  match List.find (fun kv => bool_decide (fst kv = tone)) results with
  | Some kv => Some (snd kv)
  | None => None
  end.

End WithBackend.

End Generator.

(** ** modules/scraper.py: discovery *)

Module Scraper.

Import Database.

(** An entry of config/accounts.json; [check_every_hours] and
    [priority] hold the defaults [6] and ["medium"] when absent. *)
Record Account := mkAccount {
  handle : string;
  check_every_hours : Z;
  priority : string
}.

(** What happened to one watched account, as the function logs it. *)
Inductive Outcome :=
| Skipped
| Polled (new_posts : nat)
| Failed (e : string).

(** [p["id"] not in seen_ids] *)
Definition not_seen (seen_ids : gset string) (p : Post) : bool :=
  match id p with
  | Some pid => negb (bool_decide (pid ∈ seen_ids))
  | None => true
  end.

(** [3 if priority == "high" else (1 if priority == "medium" else 0)] *)
Definition boost_of (priority : string) : Z :=
  if String.eqb priority "high" then 3
  else if String.eqb priority "medium" then 1
  else 0.

(** The test that skips an account:
    [last_check] is set and [(now - last_check) < timedelta(hours=interval_hours)]. *)
Definition skips (now : datetime) (db : DB) (acct : Account) : bool :=
  match get_last_check_time db (handle acct) with
  | Some last_check => now - last_check <? timedelta_hours (check_every_hours acct)
  | None => false
  end.

Section WithSource.

(** [scraper.scrape_keyword(kw)] for the [k]-th keyword of the run. *)
Variable scrape_keyword : nat -> string -> result (list Post).

(** [scraper.scrape_profile(handle, max_tweets=5)] for the [k]-th
    account of the run. *)
Variable scrape_profile : nat -> string -> result (list Post).

(** CURRENT_TIMESTAMP of the store when the [k]-th account is
    recorded as checked. *)
Variable current_timestamp : nat -> datetime.

(** The loop of [discover_posts_by_topic], from the [k]-th keyword on. *)
Fixpoint discover_loop (k : nat) (keywords : list string)
         (seen_ids : gset string) (all_posts : list Post) : list Post :=
  match keywords with
  | [] => all_posts
  | kw :: rest =>
      match scrape_keyword k kw with
      | Ok posts =>
          let new := List.filter (not_seen seen_ids) posts in
          discover_loop (S k) rest seen_ids (all_posts ++ new)
      | Raise e => discover_loop (S k) rest seen_ids all_posts
      end
  end.

(** [discover_posts_by_topic(scraper, keywords, seen_ids)] *)
Definition discover_posts_by_topic (keywords : list string)
           (seen_ids : gset string) : list Post :=
  discover_loop O keywords seen_ids [].

(** The state of the loop of [check_monitored_accounts]: [all_posts],
    the store, and what was logged for the accounts seen so far. *)
Record Watch := mkWatch {
  all_posts : list Post;
  store : DB;
  outcomes : list Outcome
}.

(** One iteration of [for acct in accounts], for the [k]-th account. *)
Definition check_account (now : datetime) (seen_ids : gset string)
           (k : nat) (acct : Account) (w : Watch) : Watch :=
  let handle := handle acct in
  let priority := priority acct in
  if skips now (store w) acct
  then mkWatch (all_posts w) (store w) (outcomes w ++ [Skipped])
  else
    match scrape_profile k handle with
    | Ok posts =>
        let new := List.filter (not_seen seen_ids) posts in
        let priority_boost := boost_of priority in
        let new :=
          List.map (fun p => set_source "account_monitor"
                               (set_priority_boost priority_boost p)) new in
        mkWatch (all_posts w ++ new)
                (update_last_check_time (current_timestamp k) handle (store w))
                (outcomes w ++ [Polled (length new)])
    | Raise e =>
        mkWatch (all_posts w) (store w) (outcomes w ++ [Failed e])
    end.

Fixpoint check_loop (now : datetime) (seen_ids : gset string) (k : nat)
         (accounts : list Account) (w : Watch) : Watch :=
  match accounts with
  | [] => w
  | acct :: rest =>
      check_loop now seen_ids (S k) rest (check_account now seen_ids k acct w)
  end.

(** [check_monitored_accounts(scraper, accounts, db, seen_ids)], where
    [now] is the clock reading taken before the loop. *)
Definition check_monitored_accounts (now : datetime) (accounts : list Account)
           (db : DB) (seen_ids : gset string) : Watch :=
  check_loop now seen_ids O accounts (mkWatch [] db []).

End WithSource.

End Scraper.

(** ** modules/telegram_bot.py: the control channel *)

Module TelegramBot.

Import Database.

(** [TONE_LABEL[tone]]; [None] is the KeyError of an unknown tone. *)
Definition TONE_LABEL (tone : string) : option string :=
  if String.eqb tone "challenge" then Some "Challenge"
  else if String.eqb tone "expand" then Some "Expand"
  else if String.eqb tone "nuanced" then Some "Nuanced"
  else if String.eqb tone "question" then Some "Question"
  else None.

(** [TONE_LETTER[tone]] *)
Definition TONE_LETTER (tone : string) : option string :=
  if String.eqb tone "challenge" then Some "A"
  else if String.eqb tone "expand" then Some "B"
  else if String.eqb tone "nuanced" then Some "C"
  else if String.eqb tone "question" then Some "D"
  else None.

(** [_h(text)] *)
Definition _h (text : string) : string :=
  Str.replace ">" "&gt;" (Str.replace "<" "&lt;" (Str.replace "&" "&amp;" text)).

(** [str(n)] for an integer. *)
Definition str_of_Z (n : Z) : string :=
  if n <? 0 then "-" +:+ str_of_nat (Z.to_nat (- n)) else str_of_nat (Z.to_nat n).

(** What a handler does besides writing to the store. *)
Inductive Effect :=
| Answer (alert : option string)            (* query.answer(...) *)
| EditMessage (text : string)               (* query.edit_message_text(...) *)
| Reply (text : string)                     (* update.message.reply_text(...) *)
| SendMessage (text : string)               (* bot.send_message(...) *)
| StartAutoPost (tweet_url comment post_id : string) (approval_id : Z) (tone : string)
| StartSearch (topic : string) (count : Z)
| KeyError (key : string).                  (* the handler stops on this exception *)

(** The state the handlers work on: the store, [context.user_data] and
    config/accounts.json. *)
Record Bot := mkBot {
  db : DB;
  editing_post_id : option string;
  pending_search_topic : option string;
  accounts_json : list Scraper.Account
}.

Definition with_db (d : DB) (b : Bot) : Bot :=
  mkBot d (editing_post_id b) (pending_search_topic b) (accounts_json b).

(** [_add_to_accounts_json(handle)] *)
Definition _add_to_accounts_json (handle : string) (accounts : list Scraper.Account)
  : list Scraper.Account * bool :=
  if existsb (fun a => String.eqb (Str.lower (Scraper.handle a)) (Str.lower handle))
             accounts
  then (accounts, false)
  else (accounts ++ [Scraper.mkAccount handle 6 "medium"], true).

(** [{r["comment_type"]: r for r in comments_rows}.get(tone)]: the last
    row of that type. *)
Definition comment_map_get (comments_rows : list CommentRow) (tone : string)
  : option CommentRow :=
  List.find (fun r => String.eqb (comment_type r) tone) (rev comments_rows).

(** [_run_auto_post(tweet_url, comment, post_id, approval_id, tone)],
    where [success] is what [auto_post_reply] returns and [ts] is
    CURRENT_TIMESTAMP. *)
Definition _run_auto_post (success : bool) (ts : datetime)
           (tweet_url comment post_id : string) (approval_id : Z) (tone : string)
           (db : DB) : DB * list Effect :=
  if success then
    let db := mark_posted ts approval_id db in
    let db := update_post_status post_id posted db in
    match TONE_LABEL tone with
    | Some label =>
        let msg :=
          "✅ <b>Auto-posted! (" +:+ label +:+ ")</b>" +:+ nl +:+ nl +:+
          "🔗 " +:+ tweet_url +:+ nl +:+ "💬 `" +:+ comment +:+ "`" in
        (db, [SendMessage msg])
    | None => (db, [KeyError tone])
    end
  else
    let msg :=
      "❌ <b>Auto-post failed — post manually:</b>" +:+ nl +:+ nl +:+
      "🔗 " +:+ tweet_url +:+ nl +:+ nl +:+ "💬 Copy & paste:" +:+ nl +:+
      "`" +:+ comment +:+ "`" in
    (db, [SendMessage msg]).

Section WithInt.

(** [int(s)]; [None] is its ValueError. *)
Variable int_of_string : string -> option Z.

(** [button_callback(update, context)] for [query.data = data], where
    [message_text] is [query.message.text] and [ts] is
    CURRENT_TIMESTAMP. *)
Definition button_callback (ts : datetime) (data message_text : string) (b : Bot)
  : Bot * list Effect :=
  match Str.split_once "|" data with
  | None => (b, [Answer None])
  | Some (action, post_id) =>
      if String.eqb action "scount" then
        match int_of_string post_id with
        | None => (b, [Answer None])
        | Some count =>
            let topic := pending_search_topic b in
            let b := mkBot (db b) (editing_post_id b) None (accounts_json b) in
            match topic with
            | None =>
                (b, [Answer None; Answer (Some "Search expired — type the topic again.")])
            | Some topic =>
                if String.eqb topic EmptyString then
                  (b, [Answer None; Answer (Some "Search expired — type the topic again.")])
                else
                  (b, [Answer None;
                       EditMessage ("🔍 Searching <b>" +:+ _h topic +:+ "</b> — top " +:+
                                    str_of_Z count +:+ " posts by views..." +:+ nl +:+ nl +:+
                                    "Opening browser...");
                       StartSearch topic count])
            end
        end
      else
        match get_post (db b) post_id with
        | None =>
            (b, [Answer None;
                 EditMessage ("❌ Post <code>" +:+ post_id +:+ "</code> not found.")])
        | Some post =>
            let comments_rows := get_comments_for_post (db b) post_id in
            if Str.startswith action "manual_" then
              let tone := Str.replace "manual_" EmptyString action in
              match comment_map_get comments_rows tone with
              | None =>
                  (b, [Answer None; Answer (Some ("No " +:+ tone +:+ " comment found."))])
              | Some row =>
                  let '(d, _) :=
                    insert_approval ts post_id (c_id row) ("manual_" +:+ tone) None (db b) in
                  let d := update_post_status post_id approved d in
                  match TONE_LETTER tone, TONE_LABEL tone with
                  | Some letter, Some label =>
                      (with_db d b,
                       [Answer None;
                        EditMessage ("✅ <b>📋 " +:+ letter +:+ " — " +:+ label +:+ "</b>" +:+
                                     nl +:+ nl +:+ "🔗 " +:+ p_url post +:+ nl +:+ nl +:+
                                     "💬 <b>Tap to copy:</b>" +:+ nl +:+ "<code>" +:+
                                     _h (c_text row) +:+ "</code>" +:+ nl +:+ nl +:+
                                     "📋 Open link → Reply → Paste → Post")])
                  | _, _ => (with_db d b, [Answer None; KeyError tone])
                  end
              end
            else if Str.startswith action "auto_" then
              let tone := Str.replace "auto_" EmptyString action in
              match comment_map_get comments_rows tone with
              | None =>
                  (b, [Answer None; Answer (Some ("No " +:+ tone +:+ " comment found."))])
              | Some row =>
                  let '(d, approval_id) :=
                    insert_approval ts post_id (c_id row) ("auto_" +:+ tone) None (db b) in
                  let d := update_post_status post_id approved d in
                  match TONE_LABEL tone with
                  | Some label =>
                      (with_db d b,
                       [Answer None;
                        EditMessage ("🚀 <b>Auto-posting " +:+ label +:+ "...</b>" +:+
                                     nl +:+ nl +:+ "🔗 " +:+ p_url post +:+ nl +:+
                                     "💬 `" +:+ c_text row +:+ "`" +:+ nl +:+ nl +:+
                                     "_You'll get a confirmation when done._");
                        StartAutoPost (p_url post) (c_text row) post_id approval_id tone])
                  | None => (with_db d b, [Answer None; KeyError tone])
                  end
              end
            else if String.eqb action "edit" then
              (mkBot (db b) (Some post_id) (pending_search_topic b) (accounts_json b),
               [Answer None;
                EditMessage ("✏️ <b>Edit mode</b>" +:+ nl +:+ nl +:+
                             "Reply with your comment for:" +:+ nl +:+ p_url post +:+
                             nl +:+ nl +:+ "Or /cancel")])
            else if String.eqb action "skip" then
              (with_db (update_post_status post_id skipped (db b)) b,
               [Answer None; EditMessage ("🔴 Skipped — _" +:+ p_url post +:+ "_")])
            else if String.eqb action "watch" then
              let handle := p_author_handle post in
              if String.eqb handle EmptyString then
                (b, [Answer None; Answer (Some "No handle found.")])
              else
                let '(accounts, json_added) :=
                  _add_to_accounts_json handle (accounts_json b) in
                let '(d, _) := add_to_watchlist handle (db b) in
                let note := "➕ _Watching @" +:+ handle +:+ "_" in
                let status :=
                  if json_added then "added to watchlist" else "already on watchlist" in
                (mkBot d (editing_post_id b) (pending_search_topic b) accounts,
                 [Answer None;
                  EditMessage (message_text +:+ nl +:+ nl +:+ note);
                  SendMessage ((if json_added then "➕" else "👀") +:+ " <b>@" +:+
                               handle +:+ " " +:+ status +:+ "</b>")])
            else (b, [Answer None])
        end
  end.

(** [handle_custom_comment(update, context)] for the message text
    [message_text]. *)
Definition handle_custom_comment (ts : datetime) (message_text : string) (b : Bot)
  : Bot * list Effect :=
  let ask_search :=
    let topic := Str.strip message_text in
    if String.eqb topic EmptyString then (b, [])
    else
      (mkBot (db b) (editing_post_id b) (Some topic) (accounts_json b),
       [Reply ("🔍 <b>" +:+ _h topic +:+ "</b>" +:+ nl +:+ nl +:+
               "How many posts? (sorted by highest views)")]) in
  match editing_post_id b with
  | None => ask_search
  | Some post_id =>
      if String.eqb post_id EmptyString then ask_search
      else
        let text := Str.strip message_text in
        match get_post (db b) post_id with
        | None => (b, [Reply "❌ Post not found."])
        | Some post =>
            let '(d, cid) := insert_comment ts post_id "custom" text [] (db b) in
            let '(d, _) := insert_approval ts post_id cid "custom" (Some text) d in
            let d := update_post_status post_id approved d in
            (mkBot d None (pending_search_topic b) (accounts_json b),
             [Reply ("✅ <b>Custom comment saved</b>" +:+ nl +:+ nl +:+ "🔗 " +:+
                     p_url post +:+ nl +:+ nl +:+ "💬 <code>" +:+ _h text +:+
                     "</code>" +:+ nl +:+ nl +:+ "📋 Open → Reply → Paste → Post")])
        end
  end.

(** [cmd_cancel(update, context)] *)
Definition cmd_cancel (b : Bot) : Bot * list Effect :=
  (mkBot (db b) None (pending_search_topic b) (accounts_json b),
   [Reply "Cancelled."]).

End WithInt.

End TelegramBot.

(** ** main.py: one run of the pipeline *)

Module Main.

Import Database.

(** config/keywords.json *)
Record Keywords := mkKeywords {
  primary : list string;
  viral_potential : list string
}.

(** What a run reads from outside the program. *)
Record World := mkWorld {
  scrape_keyword : nat -> string -> result (list Post);
  scrape_profile : nat -> string -> result (list Post);
  check_timestamp : nat -> datetime;   (* CURRENT_TIMESTAMP at the k-th account check *)
  accounts_now : datetime;             (* the clock of check_monitored_accounts *)
  filter_clock : Filter.Clock;         (* the clock of filter_and_rank_posts *)
  insert_timestamp : nat -> datetime;  (* CURRENT_TIMESTAMP while the k-th post is stored *)
  backend : Generator.Call -> result string;
  format_prompt : Generator.Tone -> Post -> string
}.

(** An element of [posts_with_comments]. *)
Record Item := mkItem {
  item_post : Post;
  item_comments : list (Generator.Tone * (string * list string))
}.

(** What a run leaves behind: the store, the ranked list of STEP 2 and
    the items of STEP 4. *)
Record Run := mkRun {
  db_after : DB;
  ranked : list Post;
  posts_with_comments : list Item
}.

(** [for tone, (text, issues) in comments.items():
       if text: db.insert_comment(post["id"], tone, text, issues)] *)
Fixpoint store_comments (ts : datetime) (post_id : string)
         (comments : list (Generator.Tone * (string * list string))) (db : DB) : DB :=
  match comments with
  | [] => db
  | (tone, (text, issues)) :: rest =>
      if String.eqb text EmptyString then store_comments ts post_id rest db
      else
        store_comments ts post_id rest
          (fst (insert_comment ts post_id (Generator.tone_name tone) text issues db))
  end.

(** STEP 4, one iteration of [for post in ranked[:10]] for the [k]-th
    post. *)
Definition store_one (w : World) (cfg : Generator.Config) (k : nat) (post : Post)
           (st : DB * list Item) : DB * list Item :=
  let '(db, items) := st in
  let db := insert_post (insert_timestamp w k) post db in
  let '(comments, _) :=
    Generator.generate_comments (backend w) (format_prompt w) post cfg in
  let db :=
    match id post with
    | Some pid => store_comments (insert_timestamp w k) pid comments db
    | None => db
    end in
  (db, items ++ [mkItem post comments]).

Fixpoint store_loop (w : World) (cfg : Generator.Config) (k : nat)
         (posts : list Post) (st : DB * list Item) : DB * list Item :=
  match posts with
  | [] => st
  | post :: rest => store_loop w cfg (S k) rest (store_one w cfg k post st)
  end.

(** [run_once(config, test_mode)] on the store [db]. *)
Definition run_once (w : World) (fcfg : Filter.Config) (gcfg : Generator.Config)
           (keywords : Keywords) (accounts : list Scraper.Account)
           (test_mode : bool) (db : DB) : Run :=
  let primary_kws := primary keywords ++ viral_potential keywords in
  let primary_kws := if test_mode then take 3 primary_kws else primary_kws in
  let seen_ids := get_already_seen_ids db in
  (* STEP 1: discover posts *)
  let topic_posts :=
    Scraper.discover_posts_by_topic (scrape_keyword w) primary_kws seen_ids in
  let '(account_posts, db) :=
    if test_mode then ([], db)
    else
      let watch :=
        Scraper.check_monitored_accounts (scrape_profile w) (check_timestamp w)
          (accounts_now w) accounts db seen_ids in
      (Scraper.all_posts watch, Scraper.store watch) in
  let all_posts := topic_posts ++ account_posts in
  match all_posts with
  | [] => mkRun db [] []
  | _ =>
      (* STEP 2: filter and rank *)
      let ranked :=
        Filter.filter_and_rank_posts all_posts (get_already_seen_ids db) fcfg
          (filter_clock w) in
      match ranked with
      | [] => mkRun db [] []
      | _ =>
          let ranked := if test_mode then take 1 ranked else ranked in
          (* STEP 4: store each post and its comments *)
          let '(db, items) := store_loop w gcfg O (take 10 ranked) (db, []) in
          mkRun db ranked items
      end
  end.

End Main.

(** ** The approval state machine *)

Module Approval.

Import Database TelegramBot.

(** What can happen to the store while the bot runs. *)
Inductive Action :=
| Press (ts : datetime) (data message_text : string)    (* a button is pressed *)
| Message (ts : datetime) (message_text : string)       (* a text message arrives *)
| Cancel                                                (* /cancel *)
| Dispatched (success : bool) (ts : datetime) (tweet_url comment post_id : string)
             (approval_id : Z) (tone : string)          (* an auto-post attempt ends *)
| Discovered (ts : datetime) (post : Post)              (* a run stores a post *)
| Generated (ts : datetime) (post_id tone text : string) (issues : list string)
| Checked (ts : datetime) (handle : string).            (* an account was polled *)

Section WithInt.

Variable int_of_string : string -> option Z.

Definition step (a : Action) (b : Bot) : Bot :=
  match a with
  | Press ts data message_text =>
      fst (button_callback int_of_string ts data message_text b)
  | Message ts message_text => fst (handle_custom_comment ts message_text b)
  | Cancel => fst (cmd_cancel b)
  | Dispatched success ts tweet_url comment post_id approval_id tone =>
      with_db (fst (_run_auto_post success ts tweet_url comment post_id
                                   approval_id tone (db b))) b
  | Discovered ts post => with_db (insert_post ts post (db b)) b
  | Generated ts post_id tone text issues =>
      with_db (fst (insert_comment ts post_id tone text issues (db b))) b
  | Checked ts handle => with_db (update_last_check_time ts handle (db b)) b
  end.

Definition run (actions : list Action) (b : Bot) : Bot :=
  fold_left (fun b a => step a b) actions b.

End WithInt.

(** The status of a post in the store. *)
Definition status_of (b : Bot) (post_id : string) : option Status :=
  match get_post (db b) post_id with
  | Some r => Some (status r)
  | None => None
  end.

End Approval.

(** ** The scoring formula of the specification *)

Module Spec.

(** One hour, in microseconds. *)
Definition hour : Z := 3600000000.

(** The age of a post at the time of scoring, when its creation time is
    known. *)
Definition age (now : datetime) (p : Post) : option Z :=
  match created_at p with
  | Some t => Some (now - t)
  | None => None
  end.

(** Author followers: +5 (>50k), +3 (>10k), +1 (>1k), else 0. *)
Definition follower_term (p : Post) : Z :=
  if 50000 <? author_followers p then 5
  else if 10000 <? author_followers p then 3
  else if 1000 <? author_followers p then 1
  else 0.

(** Current views: +5 (>10k), +3 (>5k), +2 (>1k). *)
Definition view_term (p : Post) : Z :=
  if 10000 <? views p then 5
  else if 5000 <? views p then 3
  else if 1000 <? views p then 2
  else 0.

(** Velocity = views per hour since creation, only if the creation time
    is known and the age positive: +4 (>1000/h), +2 (>500/h).
    [views / (a / hour) > k] is stated as [k * a < views * hour]. *)
Definition velocity_term (now : datetime) (p : Post) : Z :=
  match age now p with
  | Some a =>
      if 0 <? a then
        if 1000 * a <? views p * hour then 4
        else if 500 * a <? views p * hour then 2
        else 0
      else 0
  | None => 0
  end.

(** The tier of a velocity: +4 (>1000/h), +2 (>500/h). *)
Definition velocity_tier (velocity : Q) : Z :=
  if Qgtb velocity (inject_Z 1000) then 4
  else if Qgtb velocity (inject_Z 500) then 2
  else 0.

(** The velocity in double precision: the views, as a double, divided by
    the age in hours, which is the double nearest to the quotient of the
    age in seconds (a double) by 3600. *)
Definition float_velocity (now t : datetime) (views : Z) : Q :=
  Float.div (Float.of_Z views) (hours_old now t).

(** The velocity term decided on the double: only if the creation time
    is known and the age positive. *)
Definition float_velocity_term (now : datetime) (p : Post) : Z :=
  match created_at p with
  | Some t =>
      if 0 <? now - t then velocity_tier (float_velocity now t (views p)) else 0
  | None => 0
  end.

(** The exact velocity of the post is at a distance of more than one
    part in [2^50] from [k] views per hour (or the post has no velocity
    term: creation time unknown, or age not positive). *)
Definition clear_of (k : Z) (now : datetime) (p : Post) : bool :=
  match age now p with
  | Some a =>
      (a <=? 0)
      || (k * a * (2 ^ 50 + 1) <? views p * hour * 2 ^ 50)
      || (views p * hour * (2 ^ 50 + 1) <=? k * a * 2 ^ 50)
  | None => true
  end.

(** Verified author: +2. *)
Definition verified_term (p : Post) : Z := if author_verified p then 2 else 0.

(** Likes > 50: +2. *)
Definition likes_term (p : Post) : Z := if 50 <? likes p then 2 else 0.

(** Replies > 10: +2. *)
Definition replies_term (p : Post) : Z := if 10 <? replies p then 2 else 0.

(** Recency: +3 (<3h old), +1 (<12h old), only if the age is known. *)
Definition recency_term (now : datetime) (p : Post) : Z :=
  match age now p with
  | Some a => if a <? 3 * hour then 3 else if a <? 12 * hour then 1 else 0
  | None => 0
  end.

(** First mover: views > 5000 and replies < 20: +3. *)
Definition first_mover_term (p : Post) : Z :=
  if (5000 <? views p) && (replies p <? 20) then 3 else 0.

(** Debatable phrase: +2, once. *)
Definition debatable_term (p : Post) : Z :=
  if existsb (fun phrase => Str.contains phrase (Str.lower (text p))) Filter.debatable
  then 2 else 0.

(** Comparison phrase: +1, once. *)
Definition comparison_term (p : Post) : Z :=
  if existsb (fun phrase => Str.contains phrase (Str.lower (text p))) Filter.comparison
  then 1 else 0.

(** The additive score. *)
Definition spec_score (now : datetime) (p : Post) : Z :=
  follower_term p + view_term p + velocity_term now p + verified_term p
  + likes_term p + replies_term p + recency_term now p + priority_boost p
  + first_mover_term p + debatable_term p + comparison_term p.

(** The additive score with the velocity tier decided on the double. *)
Definition float_score (now : datetime) (p : Post) : Z :=
  follower_term p + view_term p + float_velocity_term now p + verified_term p
  + likes_term p + replies_term p + recency_term now p + priority_boost p
  + first_mover_term p + debatable_term p + comparison_term p.

End Spec.

(** ** What the ranking guarantees of each post it returns *)

Module Ranked.

(** The post as the loop stores it in [candidates]: scored and tagged
    with its source. *)
Definition tagged (now : datetime) (p : Post) : Post :=
  let post := set_score (Filter.score_post now p) p in
  set_source (Filter.source_or_default post) post.

(** A post that passed every test of the loop of
    [filter_and_rank_posts]. *)
Record admitted (cfg : Filter.Config) (seen_db_ids : gset string) (q : Post) : Prop :=
  mkAdmitted {
    admitted_id : exists pid, id q = Some pid /\ pid <> EmptyString /\ pid ∉ seen_db_ids;
    admitted_views : Filter.below_min_views cfg q = false;
    admitted_followers : Filter.below_min_followers cfg q = false;
    admitted_score : Filter.min_score cfg <= score q
  }.

End Ranked.

(** ** Primary and secondary provider *)

Module Fallback.

Import Generator.

(** The provider [_call_llm] tries first, and the one it falls back on. *)
Definition primary (cfg : Config) : Provider :=
  if String.eqb (llm_provider cfg) "groq" then Groq else Gemini.

Definition secondary (cfg : Config) : Provider :=
  match primary cfg with
  | Groq => Gemini
  | Gemini => Groq
  end.

(** The request sent to a provider for a prompt. *)
Definition request (cfg : Config) (p : Provider) (prompt : string) : Call :=
  match p with
  | Groq => mkCall Groq prompt (groq_model cfg) (temperature cfg) (max_tokens cfg)
  | Gemini => mkCall Gemini prompt (gemini_model cfg) (temperature cfg) (max_tokens cfg)
  end.

(** The result of a tone as the specification describes it: the text of
    the primary provider, else the text of the secondary provider, each
    with its validation issues, else the empty text with a
    generation-failure issue. *)
Definition tone_result (backend : Call -> result string) (cfg : Config)
           (prompt : string) : string * list string :=
  match backend (request cfg (primary cfg) prompt) with
  | Ok text => (text, snd (validate_comment text))
  | Raise _ =>
      match backend (request cfg (secondary cfg) prompt) with
      | Ok text => (text, snd (validate_comment text))
      | Raise e => (EmptyString, ["Generation failed: " +:+ e])
      end
  end.

(** The requests sent for a tone: one to the primary provider and, when
    it fails, one to the secondary provider. *)
Definition tone_calls (backend : Call -> result string) (cfg : Config)
           (prompt : string) : list Call :=
  match backend (request cfg (primary cfg) prompt) with
  | Ok _ => [request cfg (primary cfg) prompt]
  | Raise _ => [request cfg (primary cfg) prompt; request cfg (secondary cfg) prompt]
  end.

(** A backend where Groq is down and Gemini answers only the prompts in
    [answered]. *)
Definition gemini_only (answered : list string) (c : Call) : result string :=
  match provider c with
  | Groq => Raise "groq down"
  | Gemini =>
      if existsb (String.eqb (call_prompt c)) answered
      then Ok "Distillation keeps the reasoning of the model"
      else Raise "gemini down"
  end.

(** A prompt that names its tone. *)
Definition sample_prompt (t : Tone) (p : Post) : string :=
  tone_name t +:+ ": " +:+ text p.

End Fallback.

(** ** Posts that have left [pending] *)

(** The post is in the store and its status is not [pending]. *)
Definition settled (d : Database.DB) (post_id : string) : Prop :=
  exists r, Database.posts d !! post_id = Some r /\ Database.status r <> Database.pending.

(** A write of the control channel to the [posts] table: nothing, or one
    status set to a value other than [pending]. *)
Definition status_write (d d' : Database.DB) : Prop :=
  Database.posts d' = Database.posts d \/
  exists k s, s <> Database.pending /\
              Database.posts d' = alter (Database.set_status s) k (Database.posts d).

(** ** Sample inputs *)

(** A post viewed 12000 times, by a verified author with 60000 followers,
    created one hour before it is scored. *)
Definition example_post (now : datetime) : Post :=
  mkPost (Some "1") "https://x.com/a/status/1" "a" "A" 60000 true "hello"
         12000 0 0 0 (Some (now - 3600000000)) 0 None 0.

(** A post viewed 1400 times, created 84 minutes before it is scored:
    exactly 1000 views per hour. *)
Definition tie_post (now : datetime) : Post :=
  mkPost (Some "1") "https://x.com/a/status/1" "a" "A" 0 false "hello"
         1400 0 0 0 (Some (now - 5040000000)) 0 None 0.

(** A post without follower data, created one hour before [now]. *)
Definition sample_post (pid : string) (v : Z) (now : datetime) : Post :=
  mkPost (Some pid) ("https://x.com/a/status/" +:+ pid) "a" "A" 0 true
         "RLHF is dead" v 60 12 0 (Some (now - 3600000000)) 0 None 0.

(** A record whose id is missing. *)
Definition sample_no_id (now : datetime) : Post :=
  mkPost None "https://x.com/a/status/0" "a" "A" 60000 true
         "RLHF is dead" 12000 60 12 0 (Some (now - 3600000000)) 0 None 0.

(** A clock that stands still. *)
Definition still (now : datetime) : Filter.Clock := fun _ => now.

(** [True] for the records that carry a non-empty id. *)
Definition has_id (p : Post) : bool :=
  match id p with
  | Some pid => negb (String.eqb pid EmptyString)
  | None => false
  end.

(** An [int] that accepts nothing. *)
Definition no_int : string -> option Z := fun _ => None.

(** A store holding one pending post, ["1"], and a challenge comment for
    it. *)
Definition sample_db : Database.DB :=
  fst (Database.insert_comment 7200000000 "1" "challenge"
         "Distillation keeps the reasoning of the model" []
         (Database.insert_post 7200000000 (sample_post "1" 6000 7200000000)
            Database.empty)).

Definition sample_bot : TelegramBot.Bot := TelegramBot.mkBot sample_db None None [].

(** The same store after the reviewer chose to auto-post the challenge
    comment. *)
Definition approved_bot : TelegramBot.Bot :=
  fst (TelegramBot.button_callback no_int 7200000001 "auto_challenge|1" EmptyString
         sample_bot).

(** A watched account polled every six hours, its last check recorded
    at [last], and a profile that shows nothing new. *)
Definition sample_account : Scraper.Account := Scraper.mkAccount "karpathy" 6 "high".

Definition checked_at (last : datetime) : Database.DB :=
  Database.update_last_check_time last "karpathy" Database.empty.

Definition nothing_new : nat -> string -> result (list Post) := fun _ _ => Ok [].

(** A profile page that cannot be loaded. *)
Definition flaky_profile : nat -> string -> result (list Post) :=
  fun _ _ => Raise "timeout".

(** The sample store after the reviewer pressed Skip on post ["1"]. *)
Definition skipped_bot : TelegramBot.Bot :=
  Approval.run no_int [Approval.Press 7200000001 "skip|1" EmptyString] sample_bot.

(** A world in which the search for a keyword shows the posts ["1"] and
    ["2"], nobody is watched, and both providers are down. *)
Definition two_posts (now : datetime) : Main.World :=
  Main.mkWorld
    (fun _ _ => Ok [sample_post "1" 6000 now; sample_post "2" 7000 now])
    (fun _ _ => Ok [])
    (fun _ => now) now (still now) (fun _ => now)
    (Fallback.gemini_only []) Fallback.sample_prompt.

(** The default configuration with [top_n_posts] set to one. *)
Definition top_one : Filter.Config := Filter.mkConfig 8 1000 1000 1 24.

Definition one_keyword : Main.Keywords := Main.mkKeywords ["ai"] [].

(** The first run over [two_posts] on the empty store, and the second
    run over the same discovery output on the store the first one left. *)
Definition first_run : Main.Run :=
  Main.run_once (two_posts 7200000000) top_one Generator.default_config one_keyword []
    false Database.empty.

Definition second_run : Main.Run :=
  Main.run_once (two_posts 7200000000) top_one Generator.default_config one_keyword []
    false (Main.db_after first_run).

(** The store holds the post: a row has its id, or a row has its url (the
    two cases in which INSERT OR IGNORE leaves the table as it is, and the
    state after a row was inserted). *)
Definition kept (d : Database.DB) (p : Post) : Prop :=
  (exists pid, id p = Some pid /\ pid ∈ Database.get_already_seen_ids d) \/
  map_Exists (fun _ r => Database.p_url r = url p) (Database.posts d).

(** ** Order of the ranked list *)

(** [a] may stand before [b] in a list sorted by score, highest first. *)
Definition by_score_desc (a b : Post) : Prop := score b <= score a.

(** The posts of a list that have the score [s], in the order of the
    list. *)
Definition with_score (s : Z) (l : list Post) : list Post :=
  List.filter (fun q => score q =? s) l.

(** A post that collects every term of the score: 29 points over its
    priority boost. *)
Definition best_post (now : datetime) : Post :=
  mkPost (Some "9") "https://x.com/a/status/9" "a" "A" 60000 true
         "Hot take: RLHF is better than DPO" 12000 60 12 0
         (Some (now - 3600000000)) 3 None 0.

(** ** Invariants of the store *)

(** Every row of [posts] is filed under its own id, and no two rows have
    the same url (the PRIMARY KEY and UNIQUE constraints of the table). *)
Definition posts_consistent (d : Database.DB) : Prop :=
  (forall k r, Database.posts d !! k = Some r -> Database.p_id r = k) /\
  (forall k1 k2 r1 r2,
      Database.posts d !! k1 = Some r1 -> Database.posts d !! k2 = Some r2 ->
      Database.p_url r1 = Database.p_url r2 -> k1 = k2).

(** The ids of [comments] are 1, 2, 3, ... in the order of insertion. *)
Definition comments_numbered (d : Database.DB) : Prop :=
  forall i row, Database.comments d !! i = Some row ->
                Database.c_id row = Z.of_nat i + 1.

(** Every approval names a comment that is stored and that belongs to
    the post of the approval. *)
Definition approvals_linked (d : Database.DB) : Prop :=
  forall a, a ∈ Database.approvals d ->
            exists row, row ∈ Database.comments d /\
                        Database.c_id row = Database.comment_id a /\
                        Database.c_post_id row = Database.a_post_id a.

(** The row [insert_post] writes for a post. *)
Definition row_of (ts : datetime) (pid : string) (post : Post) : Database.PostRow :=
  Database.mkPostRow pid (url post) (author_handle post) (author_name post)
    (author_followers post) (author_verified post) (text post) (views post)
    (likes post) (replies post) (retweets post) (created_at post) ts (source post)
    (score post) Database.pending.

(** A post with a new id and the url of the stored sample post. *)
Definition same_url_post (now : datetime) : Post :=
  mkPost (Some "77") "https://x.com/a/status/1" "b" "B" 0 false "other" 0 0 0 0
         (Some now) 0 None 0.

(** ** The checks of [validate_comment] *)

(** A phrase of [GENERIC_OPENERS] occurs in the lower-cased comment. *)
Definition generic_opener (comment : string) : bool :=
  Str.any_in Generator.GENERIC_OPENERS (Str.lower comment).

(** The lower-cased comment tells the reader to check out or to try the
    library. *)
Definition forced_mention (comment : string) : bool :=
  Str.contains "check out afterburn" (Str.lower comment)
  || Str.contains "try afterburn" (Str.lower comment).

(** A term of [DOMAIN_TERMS] occurs in the comment, letter case apart. *)
Definition has_depth (comment : string) : bool :=
  existsb (fun t => Str.contains (Str.lower t) (Str.lower comment))
          Generator.DOMAIN_TERMS.

(** A comment of 199 characters that passes every check. *)
Definition good_comment : string :=
  "Distillation keeps the reasoning of the model only when the teacher " +:+
  "traces are filtered for correctness first; otherwise the student " +:+
  "inherits the failure modes along with the style of the larger one.".

(** The same comment followed by 41 dashes of three bytes each: 240
    characters in 322 bytes. *)
Definition dashed_comment : string :=
  good_comment +:+ "—————————————————————————————————————————".

(** ** What discovery collects *)

(** The posts the [k]-th keyword contributes: the unseen posts of its
    search, none when the search raises. *)
Definition found (scrape_keyword : nat -> string -> result (list Post))
           (seen_ids : gset string) (k : nat) (kw : string) : list Post :=
  match scrape_keyword k kw with
  | Ok posts => List.filter (Scraper.not_seen seen_ids) posts
  | Raise _ => []
  end.

(** [p] is an unseen post of the profile of a watched account, carrying
    the boost of the account's priority and the source of the monitor. *)
Definition from_account (scrape_profile : nat -> string -> result (list Post))
           (seen_ids : gset string) (accounts : list Scraper.Account) (p : Post)
  : Prop :=
  exists k acct posts q,
    accounts !! k = Some acct /\
    scrape_profile k (Scraper.handle acct) = Ok posts /\
    q ∈ posts /\
    Scraper.not_seen seen_ids q = true /\
    p = set_source "account_monitor"
          (set_priority_boost (Scraper.boost_of (Scraper.priority acct)) q).

(** A search that fails for the keyword ["down"] and shows one post for
    every other keyword. *)
Definition flaky_search (now : datetime) : nat -> string -> result (list Post) :=
  fun _ kw =>
    if String.eqb kw "down" then Raise "timeout"
    else Ok [sample_post kw 6000 now].

(** A profile that shows one post. *)
Definition one_new (now : datetime) : nat -> string -> result (list Post) :=
  fun _ _ => Ok [sample_post "5" 6000 now].

(** ** HTML escaping, character by character *)

(** The entity that stands for a character in Telegram's HTML mode. *)
Definition escape_char (c : ascii) : string :=
  if Ascii.eqb c "&" then "&amp;"
  else if Ascii.eqb c "<" then "&lt;"
  else if Ascii.eqb c ">" then "&gt;"
  else String c EmptyString.

(** The text with every character replaced by its entity. *)
Fixpoint escape (s : string) : string :=
  match s with
  | EmptyString => EmptyString
  | String c s' => escape_char c +:+ escape s'
  end.

(** ** modules/telegram_bot.py: the keyboards *)

(** A button: its label and its [callback_data]. *)
Definition Button : Type := string * string.

(** [(author_handle or "?")[:12]], a missing handle being the empty
    one. *)
Definition short_handle (author_handle : string) : string :=
  String.substring 0 12
    (if String.eqb author_handle EmptyString then "?" else author_handle).

(** [build_buttons(post_id, author_handle)]: the rows of the keyboard. *)
Definition build_buttons (post_id author_handle : string) : list (list Button) :=
  let h := short_handle author_handle in
  [ [ ("📋 A", "manual_challenge|" +:+ post_id);
      ("📋 B", "manual_expand|" +:+ post_id);
      ("📋 C", "manual_nuanced|" +:+ post_id);
      ("📋 D", "manual_question|" +:+ post_id) ];
    [ ("🚀 Auto A", "auto_challenge|" +:+ post_id);
      ("🚀 Auto B", "auto_expand|" +:+ post_id);
      ("🚀 Auto C", "auto_nuanced|" +:+ post_id);
      ("🚀 Auto D", "auto_question|" +:+ post_id) ];
    [ ("✏️ Edit", "edit|" +:+ post_id);
      ("🔴 Skip", "skip|" +:+ post_id);
      ("➕ @" +:+ h, "watch|" +:+ post_id) ] ].

(** [build_post_only_buttons(post_id, author_handle)] *)
Definition build_post_only_buttons (post_id author_handle : string)
  : list (list Button) :=
  let h := short_handle author_handle in
  [ [ ("🔴 Skip", "skip|" +:+ post_id);
      ("➕ @" +:+ h, "watch|" +:+ post_id) ] ].

(** What [button_callback] makes of an action: the branch it takes and,
    for the two approval branches, the tone it looks up. *)
Inductive Branch :=
| BManual (tone : string)
| BAuto (tone : string)
| BEdit
| BSkip
| BWatch
| BNone.

(** The chain of tests of [button_callback] on [action], after the
    search-count case. *)
Definition branch_of (action : string) : Branch :=
  if Str.startswith action "manual_"
  then BManual (Str.replace "manual_" EmptyString action)
  else if Str.startswith action "auto_"
  then BAuto (Str.replace "auto_" EmptyString action)
  else if String.eqb action "edit" then BEdit
  else if String.eqb action "skip" then BSkip
  else if String.eqb action "watch" then BWatch
  else BNone.

(** The branches the buttons of a card are meant for, row by row. *)
Definition card_branches : list (list Branch) :=
  [ List.map (fun t => BManual (Generator.tone_name t)) Generator.TONES;
    List.map (fun t => BAuto (Generator.tone_name t)) Generator.TONES;
    [BEdit; BSkip; BWatch] ].

(** ** What STEP 4 stores *)

(** The rows [store_comments] appends to a table of [n] rows: one for
    each entry with a non-empty text, in the order of the entries. *)
Fixpoint new_rows (ts : datetime) (post_id : string) (n : nat)
         (comments : list (Generator.Tone * (string * list string)))
  : list Database.CommentRow :=
  match comments with
  | [] => []
  | (tone, (text, issues)) :: rest =>
      if String.eqb text EmptyString then new_rows ts post_id n rest
      else
        Database.mkCommentRow (Z.of_nat n + 1) post_id (Generator.tone_name tone)
                              text ts issues
        :: new_rows ts post_id (S n) rest
  end.

(** A world in which one search shows the post ["1"], nobody is
    watched, and only Gemini answers, and only for the expand tone. *)
Definition expand_only (now : datetime) : Main.World :=
  Main.mkWorld
    (fun _ _ => Ok [sample_post "1" 6000 now])
    (fun _ _ => Ok [])
    (fun _ => now) now (still now) (fun _ => now)
    (Fallback.gemini_only ["expand: RLHF is dead"]) Fallback.sample_prompt.

(** ** modules/on_demand.py: search on demand *)

Module OnDemand.

Import Database.

(** [post.get("id") in seen_ids] *)
Definition already_seen (seen_ids : gset string) (post : Post) : bool :=
  match id post with
  | Some pid => bool_decide (pid ∈ seen_ids)
  | None => false
  end.

(** [created and created < cutoff] *)
Definition before_cutoff (cutoff : datetime) (post : Post) : bool :=
  match created_at post with
  | Some created => created <? cutoff
  | None => false
  end.

(** The loop [for post in raw_posts] that builds [candidates]. *)
Fixpoint candidates_loop (topic : string) (seen_ids : gset string)
         (cutoff : datetime) (raw_posts : list Post) : list Post :=
  match raw_posts with
  | [] => []
  | post :: rest =>
      if already_seen seen_ids post
      then candidates_loop topic seen_ids cutoff rest
      else if before_cutoff cutoff post
      then candidates_loop topic seen_ids cutoff rest
      else
        set_source ("on_demand:" +:+ topic) post
        :: candidates_loop topic seen_ids cutoff rest
  end.

(** The loop [for p in candidates] that builds [unique]; [seen_this]
    holds the ids met so far, a missing id being one of them. *)
Fixpoint unique_loop (seen_this : gset (option string)) (candidates : list Post)
  : list Post :=
  match candidates with
  | [] => []
  | p :: rest =>
      if bool_decide (id p ∈ seen_this) then unique_loop seen_this rest
      else p :: unique_loop ({[ id p ]} ∪ seen_this) rest
  end.

(** [unique.sort(key=lambda p: (p.get("views") or 0), reverse=True)]: the
    sort is stable, a post is placed before the later posts with as many
    views. *)
Fixpoint insert_by_views (p : Post) (l : list Post) : list Post :=
  match l with
  | [] => [p]
  | q :: l' => if views q >? views p then q :: insert_by_views p l' else p :: q :: l'
  end.

Definition sort_by_views (l : list Post) : list Post := foldr insert_by_views [] l.

(** The loop [for i, post in enumerate(top_posts, 1)]: each post is
    stored, then sent; [current_timestamp k] is CURRENT_TIMESTAMP when
    the [k]-th post is stored. *)
Fixpoint send_loop (current_timestamp : nat -> datetime) (k : nat)
         (top_posts : list Post) (db : DB) : DB :=
  match top_posts with
  | [] => db
  | post :: rest =>
      send_loop current_timestamp (S k) rest (insert_post (current_timestamp k) post db)
  end.

(** [run_search(topic, count, ...)] on the store [db]: the store it
    leaves and the posts it hands to [send_post_only], in that order.
    [scrape_keyword] is [scraper.scrape_keyword(topic, max_tweets=50)] and
    [now] the clock reading taken before the posts are filtered. *)
Definition run_search (scrape_keyword : string -> result (list Post))
           (now : datetime) (current_timestamp : nat -> datetime)
           (topic : string) (count : Z) (db : DB) : DB * list Post :=
  match scrape_keyword topic with
  | Raise e => (db, [])
  | Ok [] => (db, [])
  | Ok raw_posts =>
      let seen_ids := get_already_seen_ids db in
      let cutoff := now - timedelta_hours 48 in
      let candidates := candidates_loop topic seen_ids cutoff raw_posts in
      let unique := unique_loop ∅ candidates in
      let unique := sort_by_views unique in
      let top_posts := Filter.slice_to count unique in
      match top_posts with
      | [] => (db, [])
      | _ => (send_loop current_timestamp O top_posts db, top_posts)
      end
  end.

End OnDemand.

(** [a] may stand before [b] in a list sorted by views, highest first. *)
Definition by_views_desc (a b : Post) : Prop := views b <= views a.

(** A search that shows the posts ["1"] and ["2"], and ["2"] again. *)
Definition three_hits (now : datetime) : string -> result (list Post) :=
  fun _ => Ok [sample_post "1" 6000 now; sample_post "2" 7000 now;
               sample_post "2" 7000 now].

(** * Properties *)

(** ** Rational comparisons as integer comparisons *)

Lemma Qltb_lt a b : Qltb a b = true <-> (a < b)%Q.
Proof. unfold Qltb. rewrite Qlt_alt. destruct (a ?= b)%Q; split; congruence. Qed.

Lemma hours_between_eq now t :
  (hours_between now t == inject_Z (now - t) / inject_Z 3600000000)%Q.
Proof. unfold hours_between. field. Qed.

Lemma Qlt_div_iff a b c : (0 < c)%Q -> (a < b / c)%Q <-> (a * c < b)%Q.
Proof.
  intros Hc. rewrite <- (Qmult_lt_r a (b / c) c Hc).
  assert (E : (b / c * c == b)%Q) by (field; intros E0; rewrite E0 in Hc; discriminate).
  now rewrite E.
Qed.

Lemma hours_gt now t k :
  Qgtb (hours_between now t) (inject_Z k) = (k * 3600000000 <? now - t).
Proof.
  apply eq_true_iff_eq. unfold Qgtb. rewrite Qltb_lt, Z.ltb_lt, hours_between_eq.
  rewrite Qlt_div_iff by reflexivity.
  rewrite <- inject_Z_mult, <- Zlt_Qlt. reflexivity.
Qed.

(** ** Rounding *)

Section Rounding.
Local Open Scope Q_scope.

Lemma pow2_pos k : 0 < 2 ^ k.
Proof. apply Qpower_0_lt. reflexivity. Qed.

Lemma pow2_plus a b : 2 ^ (a + b) == 2 ^ a * 2 ^ b.
Proof. apply Qpower_plus. discriminate. Qed.

Lemma pow2_le a b : (a <= b)%Z -> 2 ^ a <= 2 ^ b.
Proof. intros H. apply Qpower_le_compat_l; [exact H|discriminate]. Qed.

Lemma pow2_lt_inv a b : 2 ^ a < 2 ^ b -> (a < b)%Z.
Proof. intros H. apply (Qpower_lt_compat_l_inv 2); [exact H|reflexivity]. Qed.

Lemma pow2_inject k : (0 <= k)%Z -> inject_Z (2 ^ k) == 2 ^ k.
Proof. intros H. rewrite Zpower_Qpower by exact H. reflexivity. Qed.

Lemma mag_spec x : 0 < x -> 2 ^ Float.mag x <= x /\ x < 2 ^ (Float.mag x + 1).
Proof.
  intros Hx. destruct x as [n d]. unfold Float.mag. cbn [Qnum Qden].
  assert (Hn : (0 < n)%Z).
  { unfold Qlt in Hx. cbn in Hx. lia. }
  set (ln := Z.log2 n). set (ld := Z.log2 (Z.pos d)).
  destruct (Z.log2_spec n Hn) as [Hn1 Hn2]. fold ln in Hn1, Hn2.
  destruct (Z.log2_spec (Z.pos d) eq_refl) as [Hd1 Hd2]. fold ld in Hd1, Hd2.
  assert (Hln : (0 <= ln)%Z) by apply Z.log2_nonneg.
  assert (Hld : (0 <= ld)%Z) by apply Z.log2_nonneg.
  assert (Ex : (n # d) * inject_Z (Z.pos d) == inject_Z n).
  { unfold Qeq, Qmult, inject_Z. cbn. lia. }
  assert (Qn1 : 2 ^ ln <= inject_Z n).
  { rewrite <- pow2_inject by exact Hln. rewrite <- Zle_Qle. exact Hn1. }
  assert (Qn2 : inject_Z n < 2 ^ (ln + 1)).
  { rewrite <- pow2_inject by lia. rewrite <- Zlt_Qlt.
    replace (ln + 1)%Z with (Z.succ ln) by lia. exact Hn2. }
  assert (Qd1 : 2 ^ ld <= inject_Z (Z.pos d)).
  { rewrite <- pow2_inject by exact Hld. rewrite <- Zle_Qle. exact Hd1. }
  assert (Qd2 : inject_Z (Z.pos d) < 2 ^ (ld + 1)).
  { rewrite <- pow2_inject by lia. rewrite <- Zlt_Qlt.
    replace (ld + 1)%Z with (Z.succ ld) by lia. exact Hd2. }
  assert (Up : (n # d) < 2 ^ (ln - ld + 1)).
  { apply (Qmult_lt_r _ _ (2 ^ ld) (pow2_pos ld)).
    rewrite <- pow2_plus. replace (ln - ld + 1 + ld)%Z with (ln + 1)%Z by lia.
    apply Qle_lt_trans with (inject_Z n); [|exact Qn2].
    rewrite <- Ex. apply Qmult_le_l; [exact Hx|exact Qd1]. }
  assert (Lo : 2 ^ (ln - ld - 1) < (n # d)).
  { apply (Qmult_lt_r _ _ (2 ^ (ld + 1)) (pow2_pos (ld + 1))).
    rewrite <- pow2_plus. replace (ln - ld - 1 + (ld + 1))%Z with ln by lia.
    apply Qle_lt_trans with (inject_Z n); [exact Qn1|].
    rewrite <- Ex. apply Qmult_lt_l; [exact Hx|exact Qd2]. }
  destruct (Qle_bool (2 ^ (ln - ld)) (n # d)) eqn:E.
  - apply Qle_bool_iff in E. split; [exact E|exact Up].
  - split; [apply Qlt_le_weak; exact Lo|].
    replace (ln - ld - 1 + 1)%Z with (ln - ld)%Z by lia.
    apply Qnot_le_lt. intros H. apply Qle_bool_iff in H. congruence.
Qed.

Lemma mag_mono x y : 0 < x -> x <= y -> (Float.mag x <= Float.mag y)%Z.
Proof.
  intros Hx Hxy.
  destruct (mag_spec x Hx) as [H1 _].
  destruct (mag_spec y (Qlt_le_trans _ _ _ Hx Hxy)) as [_ H2].
  assert (H : 2 ^ Float.mag x < 2 ^ (Float.mag y + 1)).
  { eapply Qle_lt_trans; [exact H1|]. eapply Qle_lt_trans; [exact Hxy|exact H2]. }
  apply pow2_lt_inv in H. lia.
Qed.

Lemma rne_floor q : (Qfloor q <= Float.rne q <= Qfloor q + 1)%Z.
Proof.
  unfold Float.rne. destruct (q - inject_Z (Qfloor q) ?= 1 # 2);
    [destruct (Z.even (Qfloor q))| |]; lia.
Qed.

Lemma rne_mono q1 q2 : q1 <= q2 -> (Float.rne q1 <= Float.rne q2)%Z.
Proof.
  intros H. pose proof (Qfloor_resp_le _ _ H) as Hf.
  pose proof (rne_floor q1) as B1. pose proof (rne_floor q2) as B2.
  destruct (Z.eq_dec (Qfloor q1) (Qfloor q2)) as [E|NE]; [|lia].
  unfold Float.rne. rewrite <- E.
  assert (Hr : q1 - inject_Z (Qfloor q1) <= q2 - inject_Z (Qfloor q1)) by lra.
  destruct (q1 - inject_Z (Qfloor q1) ?= 1 # 2) eqn:C1;
    destruct (q2 - inject_Z (Qfloor q1) ?= 1 # 2) eqn:C2;
    try (destruct (Z.even (Qfloor q1))); try lia;
    repeat match goal with
           | H : (_ ?= _) = Eq |- _ => apply Qeq_alt in H
           | H : (_ ?= _) = Lt |- _ => apply Qlt_alt in H
           | H : (_ ?= _) = Gt |- _ => apply Qgt_alt in H
           end; exfalso; lra.
Qed.

Lemma rne_inject k : Float.rne (inject_Z k) = k.
Proof.
  unfold Float.rne. rewrite Qfloor_Z.
  destruct (inject_Z k - inject_Z k ?= 1 # 2) eqn:C;
    [apply Qeq_alt in C; exfalso; lra|reflexivity|apply Qgt_alt in C; exfalso; lra].
Qed.

Lemma rne_near q : - (1 # 2) <= inject_Z (Float.rne q) - q <= 1 # 2.
Proof.
  pose proof (Qfloor_le q) as H1. pose proof (Qlt_floor q) as H2.
  rewrite inject_Z_plus in H2. change (inject_Z 1) with 1 in H2.
  unfold Float.rne.
  destruct (q - inject_Z (Qfloor q) ?= 1 # 2) eqn:C;
    [apply Qeq_alt in C; destruct (Z.even (Qfloor q))
    |apply Qlt_alt in C|apply Qgt_alt in C];
    rewrite ?inject_Z_plus; change (inject_Z 1) with 1; lra.
Qed.

Lemma scaled_bounds x :
  0 < x -> 2 ^ 52 <= x * 2 ^ (52 - Float.mag x) /\ x * 2 ^ (52 - Float.mag x) <= 2 ^ 53.
Proof.
  intros Hx. destruct (mag_spec x Hx) as [H1 H2]. set (e := Float.mag x) in *.
  pose proof (pow2_pos (52 - e)) as Hp. split.
  - replace 52%Z with (e + (52 - e))%Z at 1 by lia. rewrite pow2_plus.
    apply Qmult_le_compat_r; [exact H1|apply Qlt_le_weak; exact Hp].
  - replace 53%Z with ((e + 1) + (52 - e))%Z by lia. rewrite pow2_plus.
    apply Qmult_le_compat_r; [apply Qlt_le_weak; exact H2|apply Qlt_le_weak; exact Hp].
Qed.

Lemma round_pos_ge x : 0 < x -> 2 ^ Float.mag x <= Float.round_pos x.
Proof.
  intros Hx. destruct (scaled_bounds x Hx) as [H1 _]. unfold Float.round_pos.
  set (e := Float.mag x) in *.
  replace e with (52 + (e - 52))%Z at 1 by lia. rewrite pow2_plus.
  apply Qmult_le_compat_r; [|apply Qlt_le_weak, pow2_pos].
  assert (E : inject_Z (2 ^ 52) == 2 ^ 52) by (apply pow2_inject; lia).
  rewrite <- E. rewrite <- Zle_Qle.
  rewrite <- (rne_inject (2 ^ 52)). apply rne_mono.
  rewrite E. exact H1.
Qed.

Lemma round_pos_le x : 0 < x -> Float.round_pos x <= 2 ^ (Float.mag x + 1).
Proof.
  intros Hx. destruct (scaled_bounds x Hx) as [_ H1]. unfold Float.round_pos.
  set (e := Float.mag x) in *.
  replace (e + 1)%Z with (53 + (e - 52))%Z by lia. rewrite pow2_plus.
  apply Qmult_le_compat_r; [|apply Qlt_le_weak, pow2_pos].
  assert (E : inject_Z (2 ^ 53) == 2 ^ 53) by (apply pow2_inject; lia).
  rewrite <- E. rewrite <- Zle_Qle.
  rewrite <- (rne_inject (2 ^ 53)). apply rne_mono.
  rewrite E. exact H1.
Qed.

Lemma round_pos_pos x : 0 < x -> 0 < Float.round_pos x.
Proof.
  intros Hx. eapply Qlt_le_trans; [apply (pow2_pos (Float.mag x))|].
  now apply round_pos_ge.
Qed.

Lemma round_pos_mono x y : 0 < x -> x <= y -> Float.round_pos x <= Float.round_pos y.
Proof.
  intros Hx Hxy. assert (Hy : 0 < y) by (eapply Qlt_le_trans; eassumption).
  pose proof (mag_mono x y Hx Hxy) as Hm.
  destruct (Z.eq_dec (Float.mag x) (Float.mag y)) as [E|NE].
  - unfold Float.round_pos. rewrite E.
    apply Qmult_le_compat_r; [|apply Qlt_le_weak, pow2_pos].
    rewrite <- Zle_Qle. apply rne_mono.
    apply Qmult_le_compat_r; [exact Hxy|apply Qlt_le_weak, pow2_pos].
  - eapply Qle_trans; [apply round_pos_le; exact Hx|].
    eapply Qle_trans; [|apply round_pos_ge; exact Hy].
    apply pow2_le. lia.
Qed.

(** Rounding never reorders two numbers. *)
Lemma round_mono x y : x <= y -> Float.round x <= Float.round y.
Proof.
  intros H. unfold Float.round.
  destruct (x ?= 0) eqn:Cx; destruct (y ?= 0) eqn:Cy;
    repeat match goal with
           | H : (_ ?= _) = Eq |- _ => apply Qeq_alt in H
           | H : (_ ?= _) = Lt |- _ => apply Qlt_alt in H
           | H : (_ ?= _) = Gt |- _ => apply Qgt_alt in H
           end;
    try (exfalso; lra).
  - apply Qle_refl.
  - apply Qlt_le_weak, round_pos_pos. exact Cy.
  - assert (Hp : 0 < Float.round_pos (- x)) by (apply round_pos_pos; lra). lra.
  - assert (Hp : Float.round_pos (- y) <= Float.round_pos (- x))
      by (apply round_pos_mono; lra). lra.
  - assert (Hp : 0 < Float.round_pos (- x)) by (apply round_pos_pos; lra).
    assert (Hq : 0 < Float.round_pos y) by (apply round_pos_pos; lra). lra.
  - apply round_pos_mono; [exact Cx|exact H].
Qed.

Lemma round_nonneg x : 0 <= x -> 0 <= Float.round x.
Proof. intros H. apply (round_mono 0 x H). Qed.

Lemma round_nonpos x : x <= 0 -> Float.round x <= 0.
Proof. intros H. apply (round_mono x 0 H). Qed.

(** The relative error of one rounding is at most [2^-53]. *)
Lemma round_error x :
  0 <= x ->
  (1 - 2 ^ (-53)) * x <= Float.round x /\ Float.round x <= (1 + 2 ^ (-53)) * x.
Proof.
  intros H0. unfold Float.round.
  destruct (x ?= 0) eqn:Cx;
    [apply Qeq_alt in Cx|apply Qlt_alt in Cx; exfalso; lra|apply Qgt_alt in Cx].
  - rewrite Cx. split; lra.
  - destruct (mag_spec x Cx) as [H1 _]. unfold Float.round_pos.
    set (e := Float.mag x) in *.
    pose proof (rne_near (x * 2 ^ (52 - e))) as [N1 N2].
    set (r := inject_Z (Float.rne (x * 2 ^ (52 - e)))) in *.
    pose proof (pow2_pos (e - 52)) as Hp.
    assert (E1 : x * 2 ^ (52 - e) * 2 ^ (e - 52) == x).
    { rewrite <- Qmult_assoc, <- pow2_plus.
      replace (52 - e + (e - 52))%Z with 0%Z by lia. change (2 ^ 0) with 1. ring. }
    assert (E2 : (1 # 2) * 2 ^ (e - 52) == 2 ^ (-53) * 2 ^ e).
    { replace (e - 52)%Z with (1 + (-53 + e))%Z by lia. rewrite !pow2_plus.
      change (2 ^ 1) with 2. field. }
    assert (E3 : 2 ^ (-53) * 2 ^ e <= 2 ^ (-53) * x).
    { apply Qmult_le_l; [apply pow2_pos|exact H1]. }
    assert (M1 : (r - x * 2 ^ (52 - e)) * 2 ^ (e - 52) <= (1 # 2) * 2 ^ (e - 52)).
    { apply Qmult_le_compat_r; [exact N2|apply Qlt_le_weak; exact Hp]. }
    assert (M2 : - (1 # 2) * 2 ^ (e - 52) <= (r - x * 2 ^ (52 - e)) * 2 ^ (e - 52)).
    { apply Qmult_le_compat_r; [exact N1|apply Qlt_le_weak; exact Hp]. }
    set (P := 2 ^ (e - 52)) in *. set (S := x * 2 ^ (52 - e)) in *.
    set (U := 2 ^ (-53)) in *. set (T := 2 ^ e) in *.
    assert (D1 : (r - S) * P == r * P - S * P) by ring.
    assert (D2 : - (1 # 2) * P == - ((1 # 2) * P)) by ring.
    split; lra.
Qed.

End Rounding.

Lemma Qltb_ge a b : Qltb a b = false <-> (b <= a)%Q.
Proof.
  rewrite <- Bool.not_true_iff_false, Qltb_lt. split.
  - apply Qnot_lt_le.
  - intros H1 H2. exact (Qlt_not_le _ _ H2 H1).
Qed.

(** ** Ages and velocities in double precision *)

Lemma hours_old_mono now now' t :
  now <= now' -> (hours_old now t <= hours_old now' t)%Q.
Proof.
  intros H. unfold hours_old, Float.div, total_seconds.
  apply round_mono. apply Qmult_le_compat_r; [|vm_compute; discriminate].
  apply round_mono. apply Qmult_le_compat_r; [|vm_compute; discriminate].
  rewrite <- Zle_Qle. lia.
Qed.

(** A test [hours_old < k] is a test on the age in microseconds, once it
    is checked at the two ages around the limit. *)
Lemma hours_old_lt_at k b :
  Qltb (hours_old (b - 1) 0) (inject_Z k) = true ->
  Qltb (hours_old b 0) (inject_Z k) = false ->
  forall now t, Qltb (hours_old now t) (inject_Z k) = (now - t <? b).
Proof.
  intros H1 H2 now t. apply Qltb_lt in H1. apply Qltb_ge in H2.
  assert (E : forall a, hours_old a 0 = hours_old (a + t) t).
  { intros a. unfold hours_old. do 2 f_equal. lia. }
  destruct (Z.ltb_spec (now - t) b) as [Hlt|Hge].
  - apply Qltb_lt. eapply Qle_lt_trans; [|exact H1].
    rewrite (E (b - 1)). apply hours_old_mono. lia.
  - apply Qltb_ge. eapply Qle_trans; [exact H2|].
    rewrite (E b). apply hours_old_mono. lia.
Qed.

Lemma hours_old_lt_3 now t :
  Qltb (hours_old now t) (inject_Z 3) = (now - t <? 3 * 3600000000).
Proof. apply hours_old_lt_at; vm_compute; reflexivity. Qed.

Lemma hours_old_lt_12 now t :
  Qltb (hours_old now t) (inject_Z 12) = (now - t <? 12 * 3600000000).
Proof. apply hours_old_lt_at; vm_compute; reflexivity. Qed.

Lemma hours_old_gt_0 now t :
  Qgtb (hours_old now t) (inject_Z 0) = (0 <? now - t).
Proof.
  assert (E : forall a, hours_old a 0 = hours_old (a + t) t).
  { intros a. unfold hours_old. do 2 f_equal. lia. }
  unfold Qgtb. destruct (Z.ltb_spec 0 (now - t)) as [Hlt|Hge].
  - apply Qltb_lt. eapply Qlt_le_trans with (hours_old 1 0); [vm_compute; reflexivity|].
    rewrite (E 1). apply hours_old_mono. lia.
  - apply Qltb_ge. eapply Qle_trans with (hours_old 0 0); [|vm_compute; discriminate].
    rewrite (E 0). apply hours_old_mono. lia.
Qed.

Lemma velocity_mono v v' h :
  v <= v' -> (0 < h)%Q ->
  (Float.div (Float.of_Z v) h <= Float.div (Float.of_Z v') h)%Q.
Proof.
  intros H Hh. unfold Float.div, Float.of_Z. apply round_mono.
  apply Qmult_le_compat_r; [|apply Qlt_le_weak, Qinv_lt_0_compat; exact Hh].
  apply round_mono. rewrite <- Zle_Qle. exact H.
Qed.

Lemma velocity_anti v h h' :
  0 <= v -> (0 < h)%Q -> (h <= h')%Q ->
  (Float.div (Float.of_Z v) h' <= Float.div (Float.of_Z v) h)%Q.
Proof.
  intros Hv Hh Hhh. unfold Float.div, Float.of_Z. apply round_mono.
  assert (Hf : (0 <= Float.round (inject_Z v))%Q).
  { apply round_nonneg. rewrite <- (Zle_Qle 0). exact Hv. }
  unfold Qdiv. rewrite !(Qmult_comm (Float.round (inject_Z v))).
  apply Qmult_le_compat_r; [|exact Hf].
  assert (Hh' : (0 < h')%Q) by (eapply Qlt_le_trans; eassumption).
  apply Qle_shift_inv_l; [exact Hh|].
  rewrite Qmult_comm. apply Qle_shift_div_r; [exact Hh'|].
  rewrite Qmult_1_l. exact Hhh.
Qed.

Lemma velocity_nonpos v h :
  v <= 0 -> (0 < h)%Q -> (Float.div (Float.of_Z v) h <= 0)%Q.
Proof.
  intros Hv Hh. unfold Float.div, Float.of_Z. apply round_nonpos.
  assert (Hf : (Float.round (inject_Z v) <= 0)%Q).
  { apply round_nonpos. change (inject_Z v <= inject_Z 0)%Q.
    rewrite <- Zle_Qle. exact Hv. }
  apply Qle_shift_div_r; [exact Hh|]. rewrite Qmult_0_l. exact Hf.
Qed.

Section Error.
Local Open Scope Q_scope.

Lemma Qmult_le_nonneg_l x y z : 0 <= z -> x <= y -> z * x <= z * y.
Proof.
  intros Hz H. rewrite !(Qmult_comm z). apply Qmult_le_compat_r; assumption.
Qed.

(** The velocity of [v] views at the age of [a] microseconds, as the
    code computes it, against a threshold [k] per hour: when the exact
    quotient is further than one part in [2^50] from the threshold, the
    rounded quotient is on the same side. *)
Lemma velocity_clear k a v now t :
  (0 <= k -> now - t = a -> 0 < a ->
   (k * a * (2 ^ 50 + 1) < v * 3600000000 * 2 ^ 50 ->
    Qgtb (Float.div (Float.of_Z v) (hours_old now t)) (inject_Z k) = true) /\
   (v * 3600000000 * (2 ^ 50 + 1) <= k * a * 2 ^ 50 ->
    Qgtb (Float.div (Float.of_Z v) (hours_old now t)) (inject_Z k) = false))%Z.
Proof.
  intros Hk Ea Ha.
  set (h := hours_old now t).
  assert (Hh : 0 < h).
  { pose proof (hours_old_gt_0 now t) as G. fold h in G. rewrite Ea in G.
    apply Z.ltb_lt in Ha. rewrite Ha in G. unfold Qgtb in G. apply Qltb_lt in G.
    exact G. }
  set (qa := inject_Z a). set (qk := inject_Z k). set (qv := inject_Z v).
  assert (Qa : 0 < qa) by (unfold qa; rewrite <- (Zlt_Qlt 0); exact Ha).
  assert (Qk : 0 <= qk) by (unfold qk; rewrite <- (Zle_Qle 0); exact Hk).
  set (A := qa / inject_Z 1000000).
  assert (HA : 0 <= A).
  { unfold A. apply Qle_shift_div_l; [reflexivity|]. lra. }
  set (s := Float.round A).
  destruct (round_error A HA) as [S1 S2]. fold s in S1, S2.
  change (2 ^ (-53)) with (1 # 9007199254740992) in S1, S2.
  assert (Ec : Float.of_Z 3600 == 3600) by (vm_compute; reflexivity).
  set (B := s / Float.of_Z 3600).
  assert (Hs : 0 <= s) by (apply round_nonneg; exact HA).
  assert (HB : 0 <= B).
  { unfold B. rewrite Ec. apply Qle_shift_div_l; [reflexivity|]. lra. }
  assert (Eh : h = Float.round B).
  { unfold h, hours_old, Float.div, total_seconds. rewrite Ea. reflexivity. }
  destruct (round_error B HB) as [H1 H2]. rewrite <- Eh in H1, H2.
  change (2 ^ (-53)) with (1 # 9007199254740992) in H1, H2.
  assert (EA : A * 1000000 == qa).
  { unfold A. change (inject_Z 1000000) with 1000000. field. }
  assert (EB : B * 3600 == s).
  { unfold B. rewrite Ec. field. }
  (* products with the threshold *)
  assert (K1 : qk * ((1 - (1 # 9007199254740992)) * B) <= qk * h)
    by (apply Qmult_le_nonneg_l; assumption).
  assert (K2 : qk * h <= qk * ((1 + (1 # 9007199254740992)) * B))
    by (apply Qmult_le_nonneg_l; assumption).
  assert (K3 : qk * ((1 - (1 # 9007199254740992)) * A) <= qk * s)
    by (apply Qmult_le_nonneg_l; assumption).
  assert (K4 : qk * s <= qk * ((1 + (1 # 9007199254740992)) * A))
    by (apply Qmult_le_nonneg_l; assumption).
  set (X := qk * qa).
  assert (X0 : 0 <= X) by (unfold X; apply Qmult_le_0_compat; lra).
  assert (L1 : qk * ((1 - (1 # 9007199254740992)) * B) * 3600
               == (1 - (1 # 9007199254740992)) * (qk * s)).
  { rewrite <- EB. ring. }
  assert (L2 : qk * ((1 + (1 # 9007199254740992)) * B) * 3600
               == (1 + (1 # 9007199254740992)) * (qk * s)).
  { rewrite <- EB. ring. }
  assert (L3 : qk * ((1 - (1 # 9007199254740992)) * A) * 1000000
               == (1 - (1 # 9007199254740992)) * X).
  { unfold X. rewrite <- EA. ring. }
  assert (L4 : qk * ((1 + (1 # 9007199254740992)) * A) * 1000000
               == (1 + (1 # 9007199254740992)) * X).
  { unfold X. rewrite <- EA. ring. }
  set (fv := Float.of_Z v).
  set (W := fv / h).
  assert (EW : W * h == fv).
  { unfold W. field. intros E0. rewrite E0 in Hh. discriminate. }
  split.
  - intros Hyp. unfold Qgtb. apply Qltb_lt.
    assert (Hv : 0 <= qv).
    { unfold qv. rewrite <- (Zle_Qle 0).
      destruct (Z.le_gt_cases 0 v) as [G|G]; [exact G|exfalso; nia]. }
    assert (QH : X * (1125899906842624 + 1) < qv * 3600000000 * 1125899906842624).
    { unfold X, qk, qa, qv.
      change (1125899906842624 + 1) with (inject_Z (2 ^ 50 + 1)).
      change 3600000000 with (inject_Z 3600000000).
      change 1125899906842624 with (inject_Z (2 ^ 50)).
      rewrite <- !inject_Z_mult, <- Zlt_Qlt. exact Hyp. }
    destruct (round_error qv Hv) as [V1 _]. change (Float.round qv) with fv in V1.
    change (2 ^ (-53)) with (1 # 9007199254740992) in V1.
    assert (HW : 0 <= W).
    { unfold W. apply Qle_shift_div_l; [exact Hh|]. rewrite Qmult_0_l.
      unfold fv. apply round_nonneg. exact Hv. }
    destruct (round_error W HW) as [W1 _].
    change (2 ^ (-53)) with (1 # 9007199254740992) in W1.
    change (Float.round W) with (Float.div fv h) in W1.
    eapply Qlt_le_trans; [|exact W1].
    assert (G : qk * h < (1 - (1 # 9007199254740992)) * fv) by lra.
    assert (G' : qk * h < (1 - (1 # 9007199254740992)) * W * h).
    { rewrite <- Qmult_assoc, EW. exact G. }
    apply (Qmult_lt_r _ _ h Hh). exact G'.
  - intros Hyp. unfold Qgtb. apply Qltb_ge.
    destruct (Z.le_gt_cases 0 v) as [G|G].
    + assert (Hv : 0 <= qv) by (unfold qv; rewrite <- (Zle_Qle 0); exact G).
      assert (QH : qv * 3600000000 * (1125899906842624 + 1) <= X * 1125899906842624).
      { unfold X, qk, qa, qv.
        change (1125899906842624 + 1) with (inject_Z (2 ^ 50 + 1)).
        change 3600000000 with (inject_Z 3600000000).
        change 1125899906842624 with (inject_Z (2 ^ 50)).
        rewrite <- !inject_Z_mult, <- Zle_Qle. exact Hyp. }
      destruct (round_error qv Hv) as [_ V2]. change (Float.round qv) with fv in V2.
      change (2 ^ (-53)) with (1 # 9007199254740992) in V2.
      assert (HW : 0 <= W).
      { unfold W. apply Qle_shift_div_l; [exact Hh|]. rewrite Qmult_0_l.
        unfold fv. apply round_nonneg. exact Hv. }
      destruct (round_error W HW) as [_ W2].
      change (2 ^ (-53)) with (1 # 9007199254740992) in W2.
      change (Float.round W) with (Float.div fv h) in W2.
      eapply Qle_trans; [exact W2|].
      assert (G0 : (1 + (1 # 9007199254740992)) * fv <= qk * h) by lra.
      assert (G' : (1 + (1 # 9007199254740992)) * W * h <= qk * h).
      { rewrite <- Qmult_assoc, EW. exact G0. }
      apply (Qmult_le_r _ _ h Hh). exact G'.
    + eapply Qle_trans; [apply velocity_nonpos; [lia|exact Hh]|exact Qk].
Qed.

End Error.

Section Exact.
Local Open Scope Q_scope.

Lemma round_eq x y : x == y -> Float.round x == Float.round y.
Proof.
  intros E. apply Qle_antisym; apply round_mono; rewrite E; apply Qle_refl.
Qed.

Lemma rne_eq q k : q == inject_Z k -> Float.rne q = k.
Proof.
  intros E. rewrite <- (rne_inject k).
  apply Z.le_antisymm; apply rne_mono; rewrite E; apply Qle_refl.
Qed.

(** An integer below [2^53] is a double. *)
Lemma round_exact n : (0 <= n < 2 ^ 53)%Z -> Float.round (inject_Z n) == inject_Z n.
Proof.
  intros [H0 H1]. unfold Float.round.
  destruct (inject_Z n ?= 0) eqn:C;
    [apply Qeq_alt in C; symmetry; exact C
    |apply Qlt_alt in C; change 0 with (inject_Z 0) in C; rewrite <- Zlt_Qlt in C; lia
    |apply Qgt_alt in C].
  destruct (mag_spec (inject_Z n) C) as [M1 M2]. unfold Float.round_pos.
  set (e := Float.mag (inject_Z n)) in *.
  assert (Hn : (1 <= n)%Z).
  { change 0 with (inject_Z 0) in C. rewrite <- Zlt_Qlt in C. lia. }
  assert (He1 : (e < 53)%Z).
  { apply pow2_lt_inv. eapply Qle_lt_trans; [exact M1|].
    assert (E : inject_Z (2 ^ 53) == 2 ^ 53) by (apply pow2_inject; lia).
    rewrite <- E. rewrite <- Zlt_Qlt. exact H1. }
  assert (He0 : (0 <= e)%Z).
  { assert (G : 2 ^ 0 < 2 ^ (e + 1)).
    { eapply Qle_lt_trans; [|exact M2]. change (2 ^ 0) with (inject_Z 1).
      rewrite <- Zle_Qle. exact Hn. }
    apply pow2_lt_inv in G. lia. }
  assert (Es : inject_Z n * 2 ^ (52 - e) == inject_Z (n * 2 ^ (52 - e))).
  { rewrite inject_Z_mult, pow2_inject by lia. reflexivity. }
  rewrite (rne_eq _ _ Es), inject_Z_mult, pow2_inject by lia.
  rewrite <- Qmult_assoc, <- pow2_plus.
  replace (52 - e + (e - 52))%Z with 0%Z by lia. change (2 ^ 0) with 1. ring.
Qed.

End Exact.

(** For a limit of up to a million hours, the double [hours_old] exceeds
    the limit exactly when the exact quotient does. *)
Lemma hours_old_shift now t : hours_old now t = hours_old (now - t) 0.
Proof.
  unfold hours_old. replace (now - t - 0) with (now - t) by lia. reflexivity.
Qed.

Lemma hours_old_gt_limit now t m :
  0 <= m <= 1000000 ->
  Qgtb (hours_old now t) (inject_Z m) = (m * 3600000000 <? now - t).
Proof.
  intros Hm. unfold Qgtb. rewrite hours_old_shift.
  assert (Ec : (Float.of_Z 3600 == 3600)%Q) by (vm_compute; reflexivity).
  destruct (Z.ltb_spec (m * 3600000000) (now - t)) as [Hlt|Hge].
  - apply Qltb_lt.
    apply Qlt_le_trans with (hours_old (m * 3600000000 + 1) 0);
      [|apply hours_old_mono; lia].
    unfold hours_old, Float.div, total_seconds.
    replace (m * 3600000000 + 1 - 0) with (m * 3600000000 + 1) by lia.
    set (A := (inject_Z (m * 3600000000 + 1) / inject_Z 1000000)%Q).
    assert (EA : (A * 1000000 == inject_Z m * 3600000000 + 1)%Q).
    { unfold A. rewrite inject_Z_plus, inject_Z_mult.
      change (inject_Z 1000000) with 1000000%Q.
      change (inject_Z 3600000000) with 3600000000%Q.
      change (inject_Z 1) with 1%Q. field. }
    assert (Qm : (0 <= inject_Z m <= 1000000)%Q).
    { change 0%Q with (inject_Z 0). change 1000000%Q with (inject_Z 1000000).
      rewrite <- !Zle_Qle. exact Hm. }
    assert (HA : (0 <= A)%Q) by lra.
    destruct (round_error A HA) as [S1 _].
    change (2 ^ (-53))%Q with (1 # 9007199254740992)%Q in S1.
    set (s := Float.round A) in *.
    set (B := (s / Float.of_Z 3600)%Q).
    assert (EB : (B * 3600 == s)%Q) by (unfold B; rewrite Ec; field).
    assert (HB : (0 <= B)%Q) by lra.
    destruct (round_error B HB) as [H1 _].
    change (2 ^ (-53))%Q with (1 # 9007199254740992)%Q in H1.
    lra.
  - apply Qltb_ge.
    apply Qle_trans with (hours_old (m * 3600000000) 0);
      [apply hours_old_mono; lia|].
    unfold hours_old, Float.div, total_seconds.
    replace (m * 3600000000 - 0) with (m * 3600000000) by lia.
    assert (E1 : (inject_Z (m * 3600000000) / inject_Z 1000000 == inject_Z (m * 3600))%Q).
    { rewrite !inject_Z_mult. change (inject_Z 1000000) with 1000000%Q.
      change (inject_Z 3600000000) with 3600000000%Q.
      change (inject_Z 3600) with 3600%Q. field. }
    assert (E2 : (Float.round (inject_Z (m * 3600000000) / inject_Z 1000000)
                  == inject_Z (m * 3600))%Q).
    { rewrite (round_eq _ _ E1). apply round_exact. lia. }
    assert (E3 : (Float.round (inject_Z (m * 3600000000) / inject_Z 1000000)
                  / Float.of_Z 3600 == inject_Z m)%Q).
    { rewrite E2, Ec, inject_Z_mult. change (inject_Z 3600) with 3600%Q. field. }
    rewrite (round_eq _ _ E3), round_exact by lia. apply Qle_refl.
Qed.

(** The age limit of the filter loop, on the double the code computes:
    it decides as the exact quotient does. *)
Lemma too_old_as_computed cfg now p :
  0 <= Filter.max_post_age_hours cfg <= 1000000 ->
  match created_at p with
  | Some t => Qgtb (hours_old now t) (inject_Z (Filter.max_post_age_hours cfg))
  | None => false
  end = Filter.too_old cfg now p.
Proof.
  intros H. unfold Filter.too_old. destruct (created_at p) as [t|]; [|reflexivity].
  rewrite hours_old_gt_limit by exact H. rewrite hours_gt. reflexivity.
Qed.

(** ** The score is the sum of its terms *)

(** Moves the outermost [let] of the left-hand side into the context. *)
Ltac float_let x :=
  lazymatch goal with
  | |- (let _ := ?a in _) = _ =>
      pose (x := a);
      lazymatch goal with
      | |- (let y := _ in @?f y) = ?r => change (f x = r); cbv beta
      end
  end.

Ltac split_ifs :=
  repeat match goal with
         | |- context [if ?c then _ else _] => destruct c eqn:?
         end.

Lemma score_post_float_sum now p : Filter.score_post now p = Spec.float_score now p.
Proof.
  cbv beta delta [Filter.score_post Spec.float_score].
  float_let s0. float_let followers. float_let s1. float_let vs. float_let s2.
  float_let hours. float_let s3. float_let s4. float_let s5. float_let s6.
  float_let s7. float_let s8. float_let post_text. float_let s9. float_let s10.
  float_let s11.
  assert (E1 : s1 = s0 + Spec.follower_term p).
  { unfold s1, s0, followers, Spec.follower_term. rewrite !Z.gtb_ltb. split_ifs; lia. }
  assert (E2 : s2 = s1 + Spec.view_term p).
  { unfold s2, vs, Spec.view_term. rewrite !Z.gtb_ltb. split_ifs; lia. }
  assert (E3 : s3 = s2 + Spec.float_velocity_term now p).
  { unfold s3, hours, vs, Spec.float_velocity_term, Spec.velocity_tier,
      Spec.float_velocity.
    destruct (created_at p) as [t|]; [|lia].
    rewrite hours_old_gt_0.
    destruct (0 <? now - t); [|lia].
    split_ifs; lia. }
  assert (E4 : s4 = s3 + Spec.verified_term p).
  { unfold s4, Spec.verified_term. split_ifs; lia. }
  assert (E5 : s5 = s4 + Spec.likes_term p).
  { unfold s5, Spec.likes_term. rewrite !Z.gtb_ltb. split_ifs; lia. }
  assert (E6 : s6 = s5 + Spec.replies_term p).
  { unfold s6, Spec.replies_term. rewrite !Z.gtb_ltb. split_ifs; lia. }
  assert (E7 : s7 = s6 + Spec.recency_term now p).
  { unfold s7, hours, Spec.recency_term, Spec.age, Spec.hour.
    destruct (created_at p) as [t|]; [|lia].
    rewrite hours_old_lt_3, hours_old_lt_12. split_ifs; lia. }
  assert (E8 : s8 = s7 + priority_boost p) by reflexivity.
  assert (E9 : s9 = s8 + Spec.first_mover_term p).
  { unfold s9, vs, Spec.first_mover_term. rewrite !Z.gtb_ltb.
    destruct (5000 <? views p), (replies p <? 20); cbn [andb]; lia. }
  assert (E10 : s10 = s9 + Spec.debatable_term p).
  { unfold s10, post_text, Spec.debatable_term, Str.any_in. split_ifs; lia. }
  assert (E11 : s11 = s10 + Spec.comparison_term p).
  { unfold s11, post_text, Spec.comparison_term, Str.any_in. split_ifs; lia. }
  assert (E0 : s0 = 0) by reflexivity.
  lia.
Qed.

(** Away from the thresholds the double decides as the exact quotient. *)
Lemma float_velocity_term_clear now p :
  Spec.clear_of 1000 now p = true -> Spec.clear_of 500 now p = true ->
  Spec.float_velocity_term now p = Spec.velocity_term now p.
Proof.
  unfold Spec.clear_of, Spec.float_velocity_term, Spec.velocity_term, Spec.age,
    Spec.velocity_tier, Spec.float_velocity, Spec.hour.
  destruct (created_at p) as [t|]; [|reflexivity].
  intros C1 C2. destruct (Z.ltb_spec 0 (now - t)) as [Ha|Ha]; [|reflexivity].
  destruct (velocity_clear 1000 (now - t) (views p) now t ltac:(lia) eq_refl Ha)
    as [U1 L1].
  destruct (velocity_clear 500 (now - t) (views p) now t ltac:(lia) eq_refl Ha)
    as [U2 L2].
  change (2 ^ 50) with 1125899906842624 in *.
  assert (T1 : Qgtb (Float.div (Float.of_Z (views p)) (hours_old now t)) (inject_Z 1000)
               = (1000 * (now - t) <? views p * 3600000000)).
  { apply orb_true_iff in C1 as [C1|C1]; [apply orb_true_iff in C1 as [C1|C1]|].
    - apply Z.leb_le in C1. lia.
    - apply Z.ltb_lt in C1. rewrite (U1 C1). symmetry. apply Z.ltb_lt. lia.
    - apply Z.leb_le in C1. rewrite (L1 C1). symmetry. apply Z.ltb_ge. lia. }
  assert (T2 : Qgtb (Float.div (Float.of_Z (views p)) (hours_old now t)) (inject_Z 500)
               = (500 * (now - t) <? views p * 3600000000)).
  { apply orb_true_iff in C2 as [C2|C2]; [apply orb_true_iff in C2 as [C2|C2]|].
    - apply Z.leb_le in C2. lia.
    - apply Z.ltb_lt in C2. rewrite (U2 C2). symmetry. apply Z.ltb_lt. lia.
    - apply Z.leb_le in C2. rewrite (L2 C2). symmetry. apply Z.ltb_ge. lia. }
  rewrite T1, T2. reflexivity.
Qed.

(** C3 (as the code has it). [score_post] returns the additive score of
    the formula of the specification, every threshold strict, with one
    difference: the velocity is compared with 1000 and 500 after it has
    been rounded to double precision (the views, as a double, divided by
    the rounded age in hours).  The tests on the age itself, positive,
    under 3 hours, under 12 hours, are decided as on the exact age in
    microseconds.  So the score is the exact formula's whenever the exact
    velocity is further than one part in [2^50] from both thresholds, and
    whenever there is no velocity term; and a post with views = 12000,
    author_followers = 60000, a verified author, created one hour before
    scoring, and a priority boost that is not negative, scores at least
    15. *)
Theorem C3_score_post_formula :
  (forall now p, Filter.score_post now p = Spec.float_score now p) /\
  (forall now p,
      Spec.clear_of 1000 now p = true -> Spec.clear_of 500 now p = true ->
      Filter.score_post now p = Spec.spec_score now p) /\
  (forall now p,
      views p = 12000 ->
      author_followers p = 60000 ->
      author_verified p = true ->
      created_at p = Some (now - 3600000000) ->
      0 <= priority_boost p ->
      15 <= Filter.score_post now p).
Proof.
  assert (Hclear : forall now p,
             Spec.clear_of 1000 now p = true -> Spec.clear_of 500 now p = true ->
             Filter.score_post now p = Spec.spec_score now p).
  { intros now p C1 C2. rewrite score_post_float_sum.
    unfold Spec.float_score, Spec.spec_score.
    rewrite (float_velocity_term_clear now p C1 C2). reflexivity. }
  split; [exact score_post_float_sum|]. split; [exact Hclear|].
  intros now p Hv Hf Hver Hc Hb.
  rewrite Hclear.
  - unfold Spec.spec_score, Spec.follower_term, Spec.view_term, Spec.velocity_term,
      Spec.verified_term, Spec.likes_term, Spec.replies_term, Spec.recency_term,
      Spec.first_mover_term, Spec.debatable_term, Spec.comparison_term, Spec.age,
      Spec.hour.
    rewrite Hv, Hf, Hver, Hc.
    replace (now - (now - 3600000000)) with 3600000000 by lia.
    cbn -[existsb Z.mul Z.add Z.ltb].
    change (50000 <? 60000) with true. change (10000 <? 12000) with true.
    change (0 <? 3600000000) with true.
    change (1000 * 3600000000 <? 12000 * 3600000000) with true.
    change (3600000000 <? 3 * 3600000000) with true.
    change (5000 <? 12000) with true.
    cbn [andb].
    split_ifs; lia.
  - unfold Spec.clear_of, Spec.age, Spec.hour. rewrite Hv, Hc.
    replace (now - (now - 3600000000)) with 3600000000 by lia. reflexivity.
  - unfold Spec.clear_of, Spec.age, Spec.hour. rewrite Hv, Hc.
    replace (now - (now - 3600000000)) with 3600000000 by lia. reflexivity.
Qed.

Lemma C3_score_post_formula_witness :
  Filter.score_post 7200000000 (example_post 7200000000)
  = Spec.spec_score 7200000000 (example_post 7200000000) /\
  15 <= Filter.score_post 7200000000 (example_post 7200000000).
Proof.
  split.
  - apply (proj1 (proj2 C3_score_post_formula) 7200000000 (example_post 7200000000));
      reflexivity.
  - apply (proj2 (proj2 C3_score_post_formula) 7200000000 (example_post 7200000000));
      cbn; first [reflexivity | lia].
Defined.

(** C3, counterexample.  A post viewed 1400 times is scored 84 minutes
    after its creation: its velocity is exactly 1000 views per hour, not
    more, so the formula gives the lower tier and the score
    2 (views) + 2 (velocity) + 3 (recency) = 7.  The code divides 5040
    seconds by 3600 and gets the double just under 1.4, then divides 1400
    by it and gets the double just over 1000: it adds 4 and returns 9. *)
Lemma C3_counterexample :
  views (tie_post 7200000000) = 1400 /\
  Spec.age 7200000000 (tie_post 7200000000) = Some (84 * 60000000) /\
  Qeq (hours_old 7200000000 (7200000000 - 5040000000))
      (3152519739159347 # 2251799813685248)%Q /\
  Qeq (Spec.float_velocity 7200000000 (7200000000 - 5040000000) 1400)
      (8796093022208001 # 8796093022208)%Q /\
  Spec.velocity_term 7200000000 (tie_post 7200000000) = 2 /\
  Spec.spec_score 7200000000 (tie_post 7200000000) = 7 /\
  Filter.score_post 7200000000 (tie_post 7200000000) = 9.
Proof. vm_compute. repeat split. Qed.

(** ** Monotonicity of the score *)

Lemma follower_term_mono p q :
  author_followers p <= author_followers q ->
  Spec.follower_term p <= Spec.follower_term q.
Proof.
  intros H. unfold Spec.follower_term.
  repeat match goal with
         | |- context [?a <? ?b] => destruct (Z.ltb_spec a b)
         end; lia.
Qed.

Lemma view_term_mono p q :
  views p <= views q -> Spec.view_term p <= Spec.view_term q.
Proof.
  intros H. unfold Spec.view_term.
  repeat match goal with
         | |- context [?a <? ?b] => destruct (Z.ltb_spec a b)
         end; lia.
Qed.

Lemma velocity_tier_mono v v' :
  (v <= v')%Q -> Spec.velocity_tier v <= Spec.velocity_tier v'.
Proof.
  intros H. unfold Spec.velocity_tier, Qgtb.
  destruct (Qltb (inject_Z 1000) v) eqn:A1; destruct (Qltb (inject_Z 1000) v') eqn:B1;
    destruct (Qltb (inject_Z 500) v) eqn:A2; destruct (Qltb (inject_Z 500) v') eqn:B2;
    try lia; exfalso;
    repeat match goal with
           | H : Qltb _ _ = true |- _ => apply Qltb_lt in H
           | H : Qltb _ _ = false |- _ => apply Qltb_ge in H
           end;
    change (inject_Z 1000) with 1000%Q in *; change (inject_Z 500) with 500%Q in *; lra.
Qed.

Lemma velocity_tier_nonpos v : (v <= 0)%Q -> Spec.velocity_tier v = 0.
Proof.
  intros H. unfold Spec.velocity_tier, Qgtb.
  destruct (Qltb (inject_Z 1000) v) eqn:A1; [apply Qltb_lt in A1|];
    [change (inject_Z 1000) with 1000%Q in *; exfalso; lra|].
  destruct (Qltb (inject_Z 500) v) eqn:A2; [apply Qltb_lt in A2|reflexivity].
  change (inject_Z 500) with 500%Q in *; exfalso; lra.
Qed.

Lemma velocity_tier_range v : 0 <= Spec.velocity_tier v <= 4.
Proof. unfold Spec.velocity_tier. split_ifs; lia. Qed.

Lemma hours_old_pos now t : 0 < now - t -> (0 < hours_old now t)%Q.
Proof.
  intros H. apply Z.ltb_lt in H. rewrite <- hours_old_gt_0 in H.
  unfold Qgtb in H. apply Qltb_lt in H. exact H.
Qed.

Lemma float_velocity_term_mono now p q :
  created_at p = created_at q -> views p <= views q ->
  Spec.float_velocity_term now p <= Spec.float_velocity_term now q.
Proof.
  intros Hc H. unfold Spec.float_velocity_term, Spec.float_velocity. rewrite Hc.
  destruct (created_at q) as [t|]; [|lia].
  destruct (Z.ltb_spec 0 (now - t)) as [Ha|Ha]; [|lia].
  apply velocity_tier_mono, velocity_mono; [exact H|].
  now apply hours_old_pos.
Qed.

Lemma first_mover_term_mono p q :
  replies p = replies q -> views p <= views q ->
  Spec.first_mover_term p <= Spec.first_mover_term q.
Proof.
  intros Hr H. unfold Spec.first_mover_term. rewrite Hr.
  repeat match goal with
         | |- context [?a <? ?b] => destruct (Z.ltb_spec a b)
         end; cbn [andb]; lia.
Qed.

(** C7. Increasing [views] while every other field is fixed never
    decreases the score, and the same holds for [author_followers]. *)
Theorem C7_score_post_monotone :
  forall now p v v',
    v <= v' ->
    Filter.score_post now (set_views v p) <= Filter.score_post now (set_views v' p) /\
    Filter.score_post now (set_author_followers v p)
    <= Filter.score_post now (set_author_followers v' p).
Proof.
  intros now p v v' H. rewrite !score_post_float_sum. unfold Spec.float_score. split.
  - pose proof (view_term_mono (set_views v p) (set_views v' p) H) as H1.
    pose proof (float_velocity_term_mono now (set_views v p) (set_views v' p) eq_refl H)
      as H2.
    pose proof (first_mover_term_mono (set_views v p) (set_views v' p) eq_refl H) as H3.
    change (Spec.follower_term (set_views v p)) with (Spec.follower_term (set_views v' p)).
    change (Spec.recency_term now (set_views v p))
      with (Spec.recency_term now (set_views v' p)).
    change (priority_boost (set_views v p)) with (priority_boost (set_views v' p)).
    change (Spec.verified_term (set_views v p)) with (Spec.verified_term (set_views v' p)).
    change (Spec.likes_term (set_views v p)) with (Spec.likes_term (set_views v' p)).
    change (Spec.replies_term (set_views v p)) with (Spec.replies_term (set_views v' p)).
    change (Spec.debatable_term (set_views v p))
      with (Spec.debatable_term (set_views v' p)).
    change (Spec.comparison_term (set_views v p))
      with (Spec.comparison_term (set_views v' p)).
    lia.
  - pose proof (follower_term_mono (set_author_followers v p)
                  (set_author_followers v' p) H) as H1.
    change (Spec.view_term (set_author_followers v p))
      with (Spec.view_term (set_author_followers v' p)).
    change (Spec.float_velocity_term now (set_author_followers v p))
      with (Spec.float_velocity_term now (set_author_followers v' p)).
    change (Spec.first_mover_term (set_author_followers v p))
      with (Spec.first_mover_term (set_author_followers v' p)).
    change (Spec.recency_term now (set_author_followers v p))
      with (Spec.recency_term now (set_author_followers v' p)).
    change (priority_boost (set_author_followers v p))
      with (priority_boost (set_author_followers v' p)).
    change (Spec.verified_term (set_author_followers v p))
      with (Spec.verified_term (set_author_followers v' p)).
    change (Spec.likes_term (set_author_followers v p))
      with (Spec.likes_term (set_author_followers v' p)).
    change (Spec.replies_term (set_author_followers v p))
      with (Spec.replies_term (set_author_followers v' p)).
    change (Spec.debatable_term (set_author_followers v p))
      with (Spec.debatable_term (set_author_followers v' p)).
    change (Spec.comparison_term (set_author_followers v p))
      with (Spec.comparison_term (set_author_followers v' p)).
    lia.
Qed.

Lemma C7_score_post_monotone_witness :
  Filter.score_post 7200000000 (set_views 900 (example_post 7200000000))
  <= Filter.score_post 7200000000 (set_views 6000 (example_post 7200000000)) /\
  Filter.score_post 7200000000 (set_author_followers 900 (example_post 7200000000))
  <= Filter.score_post 7200000000 (set_author_followers 6000 (example_post 7200000000)).
Proof.
  apply (C7_score_post_monotone 7200000000 (example_post 7200000000) 900 6000). lia.
Defined.


(** ** The loop of [filter_and_rank_posts] *)

Lemma String_eqb_empty_false pid : String.eqb pid EmptyString = false -> pid <> EmptyString.
Proof. intros H E. rewrite E in H. discriminate. Qed.

Lemma loop_body_candidates cfg seen clock st p :
  Filter.candidates (Filter.loop_body cfg seen clock st p) = Filter.candidates st \/
  (Filter.candidates (Filter.loop_body cfg seen clock st p)
   = Filter.candidates st ++ [Ranked.tagged (clock (S (Filter.scored st))) p] /\
   Ranked.admitted cfg seen (Ranked.tagged (clock (S (Filter.scored st))) p)).
Proof.
  unfold Filter.loop_body.
  destruct (id p) as [pid|] eqn:Hid; [|now left].
  destruct (String.eqb pid EmptyString) eqn:Hne; [now left|].
  destruct (bool_decide (pid ∈ Filter.seen_this_run st)); [now left|].
  destruct (bool_decide (pid ∈ seen)) eqn:Hdb; [now left|].
  destruct (Filter.too_old cfg (clock O) p); [now left|].
  destruct (Filter.below_min_views cfg p) eqn:Hv; [now left|].
  destruct (Filter.below_min_followers cfg p) eqn:Hf; [now left|].
  destruct (Filter.score_post _ p >=? Filter.min_score cfg) eqn:Hs; [|now left].
  right. split; [reflexivity|].
  constructor.
  - exists pid. repeat split; [exact Hid| now apply String_eqb_empty_false |].
    now apply bool_decide_eq_false_1 in Hdb.
  - exact Hv.
  - exact Hf.
  - cbn. apply Z.geb_le in Hs. exact Hs.
Qed.

Lemma fold_loop_admitted cfg seen clock posts :
  forall st,
    Forall (Ranked.admitted cfg seen) (Filter.candidates st) ->
    Forall (Ranked.admitted cfg seen)
           (Filter.candidates (fold_left (Filter.loop_body cfg seen clock) posts st)).
Proof.
  induction posts as [|p posts IH]; intros st Hst; [exact Hst|].
  cbn [fold_left]. apply IH.
  destruct (loop_body_candidates cfg seen clock st p) as [E|[E Ha]]; rewrite E.
  - exact Hst.
  - apply Forall_app. split; [exact Hst|]. constructor; [exact Ha|constructor].
Qed.

Lemma collect_admitted cfg seen clock posts :
  Forall (Ranked.admitted cfg seen) (Filter.collect posts seen cfg clock).
Proof. unfold Filter.collect. apply fold_loop_admitted. constructor. Qed.

Lemma elem_of_insert_desc q p l : q ∈ Filter.insert_desc p l -> q = p \/ q ∈ l.
Proof.
  induction l as [|r l IH]; cbn; intros H.
  - apply list_elem_of_singleton in H. now left.
  - destruct (score r >? score p).
    + apply elem_of_cons in H as [->|H].
      * right. left.
      * destruct (IH H) as [->|H']; [now left|]. right. now right.
    + apply elem_of_cons in H as [->|H]; [now left|now right].
Qed.

Lemma elem_of_sort_desc q l : q ∈ Filter.sort_desc l -> q ∈ l.
Proof.
  induction l as [|p l IH]; cbn; intros H; [exact H|].
  apply elem_of_insert_desc in H as [->|H]; [left|right; auto].
Qed.

Lemma elem_of_slice_to {A} (x : A) n l : x ∈ Filter.slice_to n l -> x ∈ l.
Proof.
  unfold Filter.slice_to. destruct (n <? 0); intros H;
    apply elem_of_take in H as (i & Hi & _); eapply list_elem_of_lookup_2; eauto.
Qed.

Lemma ranked_admitted posts seen cfg clock q :
  q ∈ Filter.filter_and_rank_posts posts seen cfg clock ->
  Ranked.admitted cfg seen q.
Proof.
  unfold Filter.filter_and_rank_posts. intros H.
  apply elem_of_slice_to, elem_of_sort_desc in H.
  pose proof (collect_admitted cfg seen clock posts) as Hall.
  rewrite Forall_forall in Hall. apply Hall. exact H.
Qed.


(** C8. The minimum-views and minimum-followers filters apply only to a
    count that is not zero: no returned post has a count strictly between
    zero and the configured minimum (so a post with views = 500 is excluded
    under min_views = 1000, and likewise for followers), while a count of
    zero passes both tests, and a post with views = 0 that passes the other
    tests is appended to the candidates. *)
Theorem C8_minimum_thresholds :
  (forall posts seen cfg clock q,
      q ∈ Filter.filter_and_rank_posts posts seen cfg clock ->
      ~ (0 < views q < Filter.min_views cfg) /\
      ~ (0 < author_followers q < Filter.min_author_followers cfg)) /\
  (forall posts seen cfg clock q,
      Filter.min_views cfg = 1000 -> views q = 500 ->
      q ∉ Filter.filter_and_rank_posts posts seen cfg clock) /\
  (forall posts seen cfg clock q,
      Filter.min_author_followers cfg = 1000 -> author_followers q = 500 ->
      q ∉ Filter.filter_and_rank_posts posts seen cfg clock) /\
  (forall cfg p, views p = 0 -> Filter.below_min_views cfg p = false) /\
  (forall cfg p, author_followers p = 0 -> Filter.below_min_followers cfg p = false) /\
  (forall cfg seen clock st p pid,
      id p = Some pid -> pid <> EmptyString ->
      pid ∉ Filter.seen_this_run st -> pid ∉ seen ->
      Filter.too_old cfg (clock O) p = false ->
      views p = 0 ->
      Filter.below_min_followers cfg p = false ->
      Filter.min_score cfg <= Filter.score_post (clock (S (Filter.scored st))) p ->
      Filter.candidates (Filter.loop_body cfg seen clock st p)
      = Filter.candidates st ++ [Ranked.tagged (clock (S (Filter.scored st))) p]).
Proof.
  assert (Hgen : forall posts seen cfg clock q,
             q ∈ Filter.filter_and_rank_posts posts seen cfg clock ->
             ~ (0 < views q < Filter.min_views cfg) /\
             ~ (0 < author_followers q < Filter.min_author_followers cfg)).
  { intros posts seen cfg clock q Hq.
    destruct (ranked_admitted _ _ _ _ _ Hq) as [_ Hv Hf _].
    unfold Filter.below_min_views in Hv. unfold Filter.below_min_followers in Hf.
    apply andb_false_iff in Hv. apply andb_false_iff in Hf.
    rewrite Z.gtb_ltb, !Z.ltb_ge in Hv. rewrite Z.gtb_ltb, !Z.ltb_ge in Hf.
    split; lia. }
  split; [exact Hgen|].
  split; [|split; [|split; [|split]]].
  - intros posts seen cfg clock q Hm Hv Hq.
    destruct (Hgen _ _ _ _ _ Hq) as [H _]. lia.
  - intros posts seen cfg clock q Hm Hv Hq.
    destruct (Hgen _ _ _ _ _ Hq) as [_ H]. lia.
  - intros cfg p Hv. unfold Filter.below_min_views. rewrite Hv. reflexivity.
  - intros cfg p Hv. unfold Filter.below_min_followers. rewrite Hv. reflexivity.
  - intros cfg seen clock st p pid Hid Hne Hrun Hdb Hold Hv Hf Hs.
    unfold Filter.loop_body. rewrite Hid.
    destruct (String.eqb_spec pid EmptyString) as [E|_]; [contradiction|].
    rewrite (bool_decide_eq_false_2 _ Hrun), (bool_decide_eq_false_2 _ Hdb), Hold.
    unfold Filter.below_min_views. rewrite Hv. cbn [Z.gtb Z.compare andb].
    rewrite Hf.
    apply Z.geb_le in Hs. rewrite Hs. reflexivity.
Qed.

Lemma C8_minimum_thresholds_witness :
  (sample_post "5" 500 7200000000
     ∉ Filter.filter_and_rank_posts [sample_post "5" 500 7200000000] ∅
         Filter.default_config (still 7200000000)) /\
  Filter.below_min_views Filter.default_config (sample_post "0" 0 7200000000) = false.
Proof.
  split.
  - apply (proj1 (proj2 C8_minimum_thresholds)); reflexivity.
  - apply (proj1 (proj2 (proj2 (proj2 C8_minimum_thresholds)))); reflexivity.
Defined.

(** ** Records without an id *)

Lemma loop_body_no_id cfg seen clock st p :
  has_id p = false -> Filter.loop_body cfg seen clock st p = st.
Proof.
  unfold has_id, Filter.loop_body. destruct (id p) as [pid|]; [|reflexivity].
  destruct (String.eqb pid EmptyString); [reflexivity|discriminate].
Qed.

Lemma fold_loop_has_id cfg seen clock posts :
  forall st,
    fold_left (Filter.loop_body cfg seen clock) (List.filter has_id posts) st
    = fold_left (Filter.loop_body cfg seen clock) posts st.
Proof.
  induction posts as [|p posts IH]; intros st; [reflexivity|].
  cbn [List.filter fold_left]. destruct (has_id p) eqn:Hp.
  - cbn [fold_left]. apply IH.
  - rewrite (loop_body_no_id _ _ _ _ _ Hp). apply IH.
Qed.

(** C10. A record whose id is missing, [None] or the empty string leaves
    the loop state as it is, so the ranked output is the one of the input
    without these records, and every post of the output carries an id that
    is not empty. *)
Theorem C10_records_without_id_dropped :
  (forall cfg seen clock st p,
      id p = None \/ id p = Some EmptyString ->
      Filter.loop_body cfg seen clock st p = st) /\
  (forall posts seen cfg clock,
      Filter.filter_and_rank_posts posts seen cfg clock
      = Filter.filter_and_rank_posts (List.filter has_id posts) seen cfg clock) /\
  (forall posts seen cfg clock q,
      q ∈ Filter.filter_and_rank_posts posts seen cfg clock ->
      exists pid, id q = Some pid /\ pid <> EmptyString).
Proof.
  split; [|split].
  - intros cfg seen clock st p H. apply loop_body_no_id. unfold has_id.
    destruct H as [-> | ->]; reflexivity.
  - intros posts seen cfg clock. unfold Filter.filter_and_rank_posts, Filter.collect.
    now rewrite fold_loop_has_id.
  - intros posts seen cfg clock q Hq.
    destruct (ranked_admitted _ _ _ _ _ Hq) as [(pid & Hid & Hne & _) _ _ _].
    exists pid. split; assumption.
Qed.

Lemma C10_records_without_id_dropped_witness :
  Filter.loop_body Filter.default_config ∅ (still 7200000000)
    (Filter.mkLoop ∅ [] O) (sample_no_id 7200000000)
  = Filter.mkLoop ∅ [] O.
Proof.
  apply (proj1 C10_records_without_id_dropped). left. reflexivity.
Defined.


(** ** Generation with fallback *)

Lemma _call_llm_calls backend prompt cfg log :
  Generator._call_llm backend prompt cfg log
  = (match backend (Fallback.request cfg (Fallback.primary cfg) prompt) with
     | Ok text => Ok text
     | Raise _ => backend (Fallback.request cfg (Fallback.secondary cfg) prompt)
     end,
     log ++ Fallback.tone_calls backend cfg prompt).
Proof.
  unfold Generator._call_llm, Fallback.tone_calls, Fallback.secondary, Fallback.primary,
    Generator.try_except, Generator._call_groq, Generator._call_gemini, Generator.send.
  destruct (String.eqb (Generator.llm_provider cfg) "groq"); cbn [Fallback.request];
    match goal with
    | |- context [backend ?c] => destruct (backend c) eqn:E
    end; cbn; rewrite <- ?app_assoc; reflexivity.
Qed.

Lemma generate_one_result backend fp post cfg tone log :
  Generator.generate_one backend fp post cfg tone log
  = (Ok (Fallback.tone_result backend cfg (fp tone post)),
     log ++ Fallback.tone_calls backend cfg (fp tone post)).
Proof.
  unfold Generator.generate_one, Generator.try_except, Generator.bind.
  rewrite _call_llm_calls. unfold Fallback.tone_result.
  destruct (backend (Fallback.request cfg (Fallback.primary cfg) (fp tone post))) as [t|e].
  - destruct (Generator.validate_comment t). reflexivity.
  - destruct (backend (Fallback.request cfg (Fallback.secondary cfg) (fp tone post)))
      as [t|e2].
    + destruct (Generator.validate_comment t). reflexivity.
    + reflexivity.
Qed.

Lemma generate_comments_results backend fp post cfg :
  fst (Generator.generate_comments backend fp post cfg)
  = List.map (fun tone => (tone, Fallback.tone_result backend cfg (fp tone post)))
             Generator.TONES.
Proof.
  unfold Generator.generate_comments, Generator.TONES.
  cbn [Generator.generate_loop List.map]. unfold Generator.bind.
  rewrite !generate_one_result. reflexivity.
Qed.

Lemma lookup_tone_results backend fp post cfg tone :
  Generator.lookup_tone (fst (Generator.generate_comments backend fp post cfg)) tone
  = Some (Fallback.tone_result backend cfg (fp tone post)).
Proof. rewrite generate_comments_results. destruct tone; reflexivity. Qed.

(** C4. For every tone of a post: when the call to the primary provider
    fails, exactly one further request is sent, to the secondary provider;
    when both fail, the result of the tone is the empty text with a
    generation-failed issue; and the result of a tone depends only on what
    the providers answer to the requests of that tone, so a failure for
    one tone leaves the results of the other tones as they are. *)
Theorem C4_generation_fallback :
  forall backend fp post cfg tone,
    (forall e log,
        backend (Fallback.request cfg (Fallback.primary cfg) (fp tone post)) = Raise e ->
        Generator._call_llm backend (fp tone post) cfg log
        = (backend (Fallback.request cfg (Fallback.secondary cfg) (fp tone post)),
           log ++ [Fallback.request cfg (Fallback.primary cfg) (fp tone post);
                   Fallback.request cfg (Fallback.secondary cfg) (fp tone post)])) /\
    (forall e1 e2,
        backend (Fallback.request cfg (Fallback.primary cfg) (fp tone post)) = Raise e1 ->
        backend (Fallback.request cfg (Fallback.secondary cfg) (fp tone post)) = Raise e2 ->
        Generator.lookup_tone (fst (Generator.generate_comments backend fp post cfg)) tone
        = Some (EmptyString, ["Generation failed: " +:+ e2])) /\
    (forall backend',
        (forall p, backend' (Fallback.request cfg p (fp tone post))
                   = backend (Fallback.request cfg p (fp tone post))) ->
        Generator.lookup_tone (fst (Generator.generate_comments backend' fp post cfg)) tone
        = Generator.lookup_tone (fst (Generator.generate_comments backend fp post cfg)) tone).
Proof.
  intros backend fp post cfg tone. split; [|split].
  - intros e log H. rewrite _call_llm_calls. unfold Fallback.tone_calls.
    rewrite H. reflexivity.
  - intros e1 e2 H1 H2. rewrite lookup_tone_results. unfold Fallback.tone_result.
    rewrite H1, H2. reflexivity.
  - intros backend' H. rewrite !lookup_tone_results. unfold Fallback.tone_result.
    rewrite !H. reflexivity.
Qed.

Lemma C4_generation_fallback_witness :
  Generator.lookup_tone
    (fst (Generator.generate_comments
            (Fallback.gemini_only ["expand: RLHF is dead"]) Fallback.sample_prompt
            (sample_post "1" 6000 7200000000) Generator.default_config))
    Generator.challenge
  = Some (EmptyString, ["Generation failed: gemini down"]).
Proof.
  apply (proj1 (proj2 (C4_generation_fallback
                         (Fallback.gemini_only ["expand: RLHF is dead"])
                         Fallback.sample_prompt (sample_post "1" 6000 7200000000)
                         Generator.default_config Generator.challenge))
           "groq down" "gemini down"); reflexivity.
Defined.


(** ** Substrings of a concatenation *)

Lemma prefix_append sub rest : String.prefix sub (sub +:+ rest) = true.
Proof.
  induction sub as [|c sub IH]; simpl.
  - now destruct rest.
  - destruct (ascii_dec c c) as [_|N]; [exact IH|now destruct N].
Qed.

Lemma contains_here sub rest : Str.contains sub (sub +:+ rest) = true.
Proof.
  destruct (sub +:+ rest) eqn:E; cbn [Str.contains]; rewrite <- E, prefix_append;
    reflexivity.
Qed.

Lemma contains_append_r sub a s :
  Str.contains sub s = true -> Str.contains sub (a +:+ s) = true.
Proof.
  intros H. induction a as [|c a IH]; [exact H|].
  change (String c a +:+ s) with (String c (a +:+ s)).
  change (Str.contains sub (String c (a +:+ s)))
    with (String.prefix sub (String c (a +:+ s)) || Str.contains sub (a +:+ s)).
  rewrite IH. apply orb_true_r.
Qed.

(** ** The auto-post dispatcher *)

Lemma mark_posted_sets ts approval_id db a :
  a ∈ Database.approvals db -> Database.a_id a = approval_id ->
  Database.set_posted_at ts a ∈ Database.approvals (Database.mark_posted ts approval_id db).
Proof.
  intros Ha Hid. unfold Database.mark_posted. cbn [Database.approvals].
  apply list_elem_of_In, in_map_iff. exists a. split.
  - rewrite Hid, Z.eqb_refl. reflexivity.
  - now apply list_elem_of_In.
Qed.

(** C5. For the dispatch of an approved post whose approval row exists:
    when the dispatch succeeds the approval's [posted_at] is set and the
    post becomes [posted]; when it fails the store is left exactly as it
    was, the post still [approved], and one notification is emitted whose
    text contains the generated comment. *)
Theorem C5_auto_post_dispatch :
  forall ts tweet_url comment post_id approval_id tone db r a,
    Database.get_post db post_id = Some r ->
    Database.status r = Database.approved ->
    a ∈ Database.approvals db ->
    Database.a_id a = approval_id ->
    (let db' := fst (TelegramBot._run_auto_post true ts tweet_url comment post_id
                       approval_id tone db) in
     Database.get_post db' post_id = Some (Database.set_status Database.posted r) /\
     Database.set_posted_at ts a ∈ Database.approvals db' /\
     Database.posted_at (Database.set_posted_at ts a) = Some ts) /\
    (let out := TelegramBot._run_auto_post false ts tweet_url comment post_id
                  approval_id tone db in
     fst out = db /\
     (exists r', Database.get_post (fst out) post_id = Some r' /\
                 Database.status r' = Database.approved) /\
     exists msg, snd out = [TelegramBot.SendMessage msg] /\
                 Str.contains comment msg = true).
Proof.
  intros ts tweet_url comment post_id approval_id tone db r a Hr Hs Ha Hid.
  split.
  - cbv zeta. unfold TelegramBot._run_auto_post.
    assert (E : forall o : option string,
               fst (match o with
                    | Some label =>
                        (Database.update_post_status post_id Database.posted
                           (Database.mark_posted ts approval_id db),
                         [TelegramBot.SendMessage
                            ("✅ <b>Auto-posted! (" +:+ label +:+ ")</b>" +:+ nl +:+ nl +:+
                             "🔗 " +:+ tweet_url +:+ nl +:+ "💬 `" +:+ comment +:+ "`")])
                    | None =>
                        (Database.update_post_status post_id Database.posted
                           (Database.mark_posted ts approval_id db),
                         [TelegramBot.KeyError tone])
                    end)
               = Database.update_post_status post_id Database.posted
                   (Database.mark_posted ts approval_id db))
      by (intros [l|]; reflexivity).
    rewrite E. split; [|split].
    + unfold Database.get_post, Database.update_post_status in *.
      cbn [Database.posts Database.mark_posted] in *.
      rewrite lookup_alter_eq, Hr. reflexivity.
    + cbn [Database.approvals Database.update_post_status].
      now apply mark_posted_sets.
    + reflexivity.
  - cbv zeta. unfold TelegramBot._run_auto_post. cbn [fst snd].
    split; [reflexivity|]. split; [exists r; split; assumption|].
    eexists. split; [reflexivity|].
    repeat first [apply contains_here | apply contains_append_r].
Qed.

Lemma C5_auto_post_dispatch_witness :
  Database.get_post
    (fst (TelegramBot._run_auto_post true 7200000009 "https://x.com/a/status/1"
            "Distillation keeps the reasoning of the model" "1" 1 "challenge"
            (TelegramBot.db approved_bot)))
    "1"
  = option_map (Database.set_status Database.posted)
      (Database.get_post (TelegramBot.db approved_bot) "1").
Proof.
  destruct (Database.get_post (TelegramBot.db approved_bot) "1") as [r|] eqn:Hr;
    [|vm_compute in Hr; discriminate].
  destruct (Database.approvals (TelegramBot.db approved_bot)) as [|a l] eqn:Ha;
    [vm_compute in Ha; discriminate|].
  refine (proj1 (proj1 (C5_auto_post_dispatch 7200000009 "https://x.com/a/status/1"
                   "Distillation keeps the reasoning of the model" "1" 1 "challenge"
                   (TelegramBot.db approved_bot) r a Hr _ _ _))).
  - vm_compute in Hr. injection Hr as <-. reflexivity.
  - rewrite Ha. left.
  - vm_compute in Ha. injection Ha as <- _. reflexivity.
Defined.

(** ** Tokens that name an unknown post *)

(** C9. A token whose action is not [scount] and whose post id is not in
    the store is answered with a not-found message and changes nothing:
    the store, the edit state and the watch list are the ones before. *)
Theorem C9_unknown_post_rejected :
  forall int_of_string ts data message_text b action post_id,
    Str.split_once "|" data = Some (action, post_id) ->
    action <> "scount" ->
    Database.get_post (TelegramBot.db b) post_id = None ->
    TelegramBot.button_callback int_of_string ts data message_text b
    = (b, [TelegramBot.Answer None;
           TelegramBot.EditMessage
             ("❌ Post <code>" +:+ post_id +:+ "</code> not found.")]).
Proof.
  intros int_of_string ts data message_text b action post_id Hsplit Hact Hpost.
  unfold TelegramBot.button_callback. rewrite Hsplit.
  destruct (String.eqb_spec action "scount") as [E|_]; [contradiction|].
  rewrite Hpost. reflexivity.
Qed.

Lemma C9_unknown_post_rejected_witness :
  TelegramBot.button_callback no_int 7200000001 "skip|404" EmptyString sample_bot
  = (sample_bot,
     [TelegramBot.Answer None;
      TelegramBot.EditMessage ("❌ Post <code>" +:+ "404" +:+ "</code> not found.")]).
Proof.
  apply (C9_unknown_post_rejected no_int 7200000001 "skip|404" EmptyString sample_bot
           "skip" "404").
  - reflexivity.
  - discriminate.
  - vm_compute. reflexivity.
Defined.


(** ** The account watch scheduler *)

Lemma check_loop_outcomes sp ct now seen accounts :
  forall k w,
    length (Scraper.outcomes (Scraper.check_loop sp ct now seen k accounts w))
    = (length (Scraper.outcomes w) + length accounts)%nat.
Proof.
  induction accounts as [|acct rest IH]; intros k w; cbn [Scraper.check_loop length].
  - lia.
  - rewrite IH. unfold Scraper.check_account.
    destruct (Scraper.skips now (Scraper.store w) acct);
      [|destruct (sp k (Scraper.handle acct))];
      cbn [Scraper.outcomes]; rewrite length_app; cbn [length]; lia.
Qed.

Lemma skips_recorded now db acct last :
  Database.get_last_check_time db (Scraper.handle acct) = Some last ->
  Scraper.skips now db acct
  = (now - last <? timedelta_hours (Scraper.check_every_hours acct)).
Proof. intros H. unfold Scraper.skips. rewrite H. reflexivity. Qed.

Lemma check_account_skipped sp ct now seen k acct w last :
  Database.get_last_check_time (Scraper.store w) (Scraper.handle acct) = Some last ->
  now - last < timedelta_hours (Scraper.check_every_hours acct) ->
  Scraper.check_account sp ct now seen k acct w
  = Scraper.mkWatch (Scraper.all_posts w) (Scraper.store w)
      (Scraper.outcomes w ++ [Scraper.Skipped]).
Proof.
  intros Hlast Hlt. unfold Scraper.check_account.
  rewrite (skips_recorded _ _ _ _ Hlast).
  apply Z.ltb_lt in Hlt. rewrite Hlt. reflexivity.
Qed.

Lemma check_account_due sp ct now seen k acct w last :
  Database.get_last_check_time (Scraper.store w) (Scraper.handle acct) = Some last ->
  timedelta_hours (Scraper.check_every_hours acct) <= now - last ->
  Scraper.check_account sp ct now seen k acct w
  = match sp k (Scraper.handle acct) with
    | Ok posts =>
        let new :=
          List.map (fun p => set_source "account_monitor"
                               (set_priority_boost
                                  (Scraper.boost_of (Scraper.priority acct)) p))
                   (List.filter (Scraper.not_seen seen) posts) in
        Scraper.mkWatch (Scraper.all_posts w ++ new)
          (Database.update_last_check_time (ct k) (Scraper.handle acct) (Scraper.store w))
          (Scraper.outcomes w ++ [Scraper.Polled (length new)])
    | Raise e =>
        Scraper.mkWatch (Scraper.all_posts w) (Scraper.store w)
          (Scraper.outcomes w ++ [Scraper.Failed e])
    end.
Proof.
  intros Hlast Hle. unfold Scraper.check_account.
  rewrite (skips_recorded _ _ _ _ Hlast).
  apply Z.ltb_ge in Hle. rewrite Hle. reflexivity.
Qed.

Lemma last_check_updated ts h d :
  Database.get_last_check_time (Database.update_last_check_time ts h d) h = Some ts.
Proof.
  unfold Database.get_last_check_time, Database.update_last_check_time.
  cbn [Database.account_checks]. rewrite lookup_insert_eq. reflexivity.
Qed.

(** C6. For a watched account whose last check is recorded:
    - the skip test is true exactly when [now - last_checked] is less
      than [check_every_hours];
    - when it is less, the account is skipped: the scraper is not asked,
      the store and the collected posts are left as they were, and the
      loop goes on with the next account;
    - when it is not less, the account is polled, and a poll that returns
      sets its last check to the store's current time and adds the unseen
      posts it showed, whether there are any or none;
    - a poll that raises changes neither the store nor the collected
      posts, and the remaining accounts are processed after it;
    - every account of the list gets its outcome. *)
Theorem C6_account_scheduler :
  (forall now db acct last,
      Database.get_last_check_time db (Scraper.handle acct) = Some last ->
      (Scraper.skips now db acct = true
       <-> now - last < timedelta_hours (Scraper.check_every_hours acct))) /\
  (forall sp ct now seen k acct rest w last,
      Database.get_last_check_time (Scraper.store w) (Scraper.handle acct) = Some last ->
      now - last < timedelta_hours (Scraper.check_every_hours acct) ->
      Scraper.check_account sp ct now seen k acct w
      = Scraper.mkWatch (Scraper.all_posts w) (Scraper.store w)
          (Scraper.outcomes w ++ [Scraper.Skipped]) /\
      Scraper.check_loop sp ct now seen k (acct :: rest) w
      = Scraper.check_loop sp ct now seen (S k) rest
          (Scraper.mkWatch (Scraper.all_posts w) (Scraper.store w)
                           (Scraper.outcomes w ++ [Scraper.Skipped]))) /\
  (forall sp ct now seen k acct w last posts,
      Database.get_last_check_time (Scraper.store w) (Scraper.handle acct) = Some last ->
      timedelta_hours (Scraper.check_every_hours acct) <= now - last ->
      sp k (Scraper.handle acct) = Ok posts ->
      let w' := Scraper.check_account sp ct now seen k acct w in
      Database.get_last_check_time (Scraper.store w') (Scraper.handle acct)
      = Some (ct k) /\
      Scraper.store w'
      = Database.update_last_check_time (ct k) (Scraper.handle acct) (Scraper.store w) /\
      Scraper.all_posts w'
      = Scraper.all_posts w ++
        List.map (fun p => set_source "account_monitor"
                             (set_priority_boost
                                (Scraper.boost_of (Scraper.priority acct)) p))
                 (List.filter (Scraper.not_seen seen) posts) /\
      Scraper.outcomes w'
      = Scraper.outcomes w ++
        [Scraper.Polled (length (List.filter (Scraper.not_seen seen) posts))]) /\
  (forall sp ct now seen k acct rest w last e,
      Database.get_last_check_time (Scraper.store w) (Scraper.handle acct) = Some last ->
      timedelta_hours (Scraper.check_every_hours acct) <= now - last ->
      sp k (Scraper.handle acct) = Raise e ->
      Scraper.check_loop sp ct now seen k (acct :: rest) w
      = Scraper.check_loop sp ct now seen (S k) rest
          (Scraper.mkWatch (Scraper.all_posts w) (Scraper.store w)
                           (Scraper.outcomes w ++ [Scraper.Failed e]))) /\
  (forall sp ct now accounts db seen,
      length (Scraper.outcomes
                (Scraper.check_monitored_accounts sp ct now accounts db seen))
      = length accounts).
Proof.
  split; [|split; [|split; [|split]]].
  - intros now db acct last H. rewrite (skips_recorded _ _ _ _ H). apply Z.ltb_lt.
  - intros sp ct now seen k acct rest w last Hlast Hlt.
    pose proof (check_account_skipped sp ct now seen k acct w last Hlast Hlt) as E.
    split; [exact E|]. cbn [Scraper.check_loop]. rewrite E. reflexivity.
  - intros sp ct now seen k acct w last posts Hlast Hle Hsp w'. subst w'.
    rewrite (check_account_due sp ct now seen k acct w last Hlast Hle), Hsp.
    cbv zeta. cbn [Scraper.store Scraper.all_posts Scraper.outcomes].
    rewrite last_check_updated, length_map. repeat split.
  - intros sp ct now seen k acct rest w last e Hlast Hle Hsp.
    cbn [Scraper.check_loop].
    rewrite (check_account_due sp ct now seen k acct w last Hlast Hle), Hsp.
    reflexivity.
  - intros sp ct now accounts db seen. unfold Scraper.check_monitored_accounts.
    rewrite check_loop_outcomes. reflexivity.
Qed.

Lemma C6_account_scheduler_witness :
  (Scraper.skips (8 * 3600000000) (checked_at (6 * 3600000000)) sample_account = true
   <-> 8 * 3600000000 - 6 * 3600000000 < timedelta_hours 6) /\
  Scraper.check_account flaky_profile (fun _ => 8 * 3600000000 + 5)
    (8 * 3600000000) ∅ O sample_account
    (Scraper.mkWatch [] (checked_at (6 * 3600000000)) [])
  = Scraper.mkWatch [] (checked_at (6 * 3600000000)) [Scraper.Skipped] /\
  Database.get_last_check_time
    (Scraper.store
       (Scraper.check_account nothing_new (fun _ => 8 * 3600000000 + 5)
          (8 * 3600000000) ∅ O sample_account
          (Scraper.mkWatch [] (checked_at (1 * 3600000000)) [])))
    "karpathy"
  = Some (8 * 3600000000 + 5) /\
  Scraper.check_loop flaky_profile (fun _ => 8 * 3600000000 + 5)
    (8 * 3600000000) ∅ O [sample_account]
    (Scraper.mkWatch [] (checked_at (1 * 3600000000)) [])
  = Scraper.mkWatch [] (checked_at (1 * 3600000000)) [Scraper.Failed "timeout"].
Proof.
  split; [|split; [|split]].
  - apply (proj1 C6_account_scheduler (8 * 3600000000) (checked_at (6 * 3600000000))
             sample_account (6 * 3600000000)).
    vm_compute. reflexivity.
  - apply (proj1 (proj1 (proj2 C6_account_scheduler) flaky_profile
             (fun _ => 8 * 3600000000 + 5) (8 * 3600000000) ∅ O sample_account []
             (Scraper.mkWatch [] (checked_at (6 * 3600000000)) [])
             (6 * 3600000000) eq_refl eq_refl)).
  - apply (proj1 (proj1 (proj2 (proj2 C6_account_scheduler)) nothing_new
             (fun _ => 8 * 3600000000 + 5) (8 * 3600000000) ∅ O sample_account
             (Scraper.mkWatch [] (checked_at (1 * 3600000000)) [])
             (1 * 3600000000) [] eq_refl ltac:(vm_compute; discriminate) eq_refl)).
  - apply (proj1 (proj2 (proj2 (proj2 C6_account_scheduler))) flaky_profile
             (fun _ => 8 * 3600000000 + 5) (8 * 3600000000) ∅ O sample_account []
             (Scraper.mkWatch [] (checked_at (1 * 3600000000)) [])
             (1 * 3600000000) "timeout" eq_refl ltac:(vm_compute; discriminate) eq_refl).
Defined.


(** ** The approval state machine *)

Lemma settled_status_write d d' pid :
  status_write d d' -> settled d pid -> settled d' pid.
Proof.
  intros [E|(k & s & Hs & E)] (r & Hr & Hp); unfold settled; rewrite E.
  - exists r. split; assumption.
  - destruct (decide (k = pid)) as [->|Hne].
    + exists (Database.set_status s r). rewrite lookup_alter_eq, Hr. split; [reflexivity|].
      exact Hs.
    + exists r. rewrite lookup_alter_ne by exact Hne. split; assumption.
Qed.

Lemma settled_insert_post ts p d pid :
  settled d pid -> settled (Database.insert_post ts p d) pid.
Proof.
  intros (r & Hr & Hp). unfold Database.insert_post.
  destruct (id p) as [k|]; [|exists r; split; assumption].
  destruct (Database.post_exists d k) eqn:Hex; cbn [orb];
    [exists r; split; assumption|].
  destruct (Database.url_exists d (url p)); [exists r; split; assumption|].
  unfold Database.post_exists in Hex. apply bool_decide_eq_false_1 in Hex.
  exists r. cbn [Database.posts]. rewrite lookup_insert_ne; [split; assumption|].
  intros ->. apply Hex. rewrite Hr. eexists; reflexivity.
Qed.

Lemma button_callback_status_write int ts data msg b :
  status_write (TelegramBot.db b)
    (TelegramBot.db (fst (TelegramBot.button_callback int ts data msg b))).
Proof.
  unfold TelegramBot.button_callback, Database.insert_approval, Database.add_to_watchlist,
    TelegramBot._add_to_accounts_json, TelegramBot.with_db.
  repeat case_match; simplify_eq; cbn [fst TelegramBot.db Database.posts];
    first [ left; reflexivity
          | right; eexists _, _; (split; [|reflexivity]); discriminate ].
Qed.

Lemma handle_custom_comment_status_write ts msg b :
  status_write (TelegramBot.db b)
    (TelegramBot.db (fst (TelegramBot.handle_custom_comment ts msg b))).
Proof.
  unfold TelegramBot.handle_custom_comment, Database.insert_approval,
    Database.insert_comment.
  repeat case_match; simplify_eq; cbn [fst TelegramBot.db Database.posts];
    first [ left; reflexivity
          | right; eexists _, _; (split; [|reflexivity]); discriminate ].
Qed.

Lemma _run_auto_post_status_write success ts tweet_url comment post_id approval_id tone d :
  status_write d
    (fst (TelegramBot._run_auto_post success ts tweet_url comment post_id approval_id
            tone d)).
Proof.
  unfold TelegramBot._run_auto_post.
  repeat case_match; cbn [fst Database.posts Database.update_post_status
                              Database.mark_posted];
    first [ left; reflexivity
          | right; eexists _, _; (split; [|reflexivity]); discriminate ].
Qed.

Lemma step_settled int a b pid :
  settled (TelegramBot.db b) pid -> settled (TelegramBot.db (Approval.step int a b)) pid.
Proof.
  intros H. destruct a; cbn [Approval.step].
  - eapply settled_status_write; [apply button_callback_status_write|exact H].
  - eapply settled_status_write; [apply handle_custom_comment_status_write|exact H].
  - exact H.
  - eapply settled_status_write; [apply _run_auto_post_status_write|exact H].
  - now apply settled_insert_post.
  - exact H.
  - exact H.
Qed.

Lemma run_settled int actions :
  forall b pid,
    settled (TelegramBot.db b) pid ->
    settled (TelegramBot.db (Approval.run int actions b)) pid.
Proof.
  unfold Approval.run.
  induction actions as [|a actions IH]; intros b pid H; [exact H|].
  cbn [fold_left]. apply IH. now apply step_settled.
Qed.

Lemma press_skip int ts msg b pid r :
  Database.get_post (TelegramBot.db b) pid = Some r ->
  Approval.status_of (fst (TelegramBot.button_callback int ts ("skip|" +:+ pid) msg b)) pid
  = Some Database.skipped.
Proof.
  intros Hr. unfold TelegramBot.button_callback.
  change (Str.split_once "|" ("skip|" +:+ pid)) with (Some ("skip", pid)).
  cbn [String.eqb Ascii.eqb Bool.eqb Str.startswith String.prefix]. rewrite Hr.
  cbn. unfold Approval.status_of, Database.get_post, Database.update_post_status in *.
  cbn [TelegramBot.db TelegramBot.with_db Database.posts].
  rewrite lookup_alter_eq, Hr. reflexivity.
Qed.

Lemma press_manual int ts msg b pid r t row :
  Database.get_post (TelegramBot.db b) pid = Some r ->
  TelegramBot.comment_map_get
    (Database.get_comments_for_post (TelegramBot.db b) pid) (Generator.tone_name t)
  = Some row ->
  Approval.status_of
    (fst (TelegramBot.button_callback int ts
            ("manual_" +:+ Generator.tone_name t +:+ "|" +:+ pid) msg b)) pid
  = Some Database.approved.
Proof.
  intros Hr Hrow. unfold TelegramBot.button_callback.
  destruct t; cbn [Generator.tone_name] in *;
    match goal with
    | |- context [Str.split_once "|" ?d] =>
        let v := eval cbv in (Str.split_once "|" d) in
        change (Str.split_once "|" d) with v
    end;
    cbn -[Database.get_post Database.get_comments_for_post
          TelegramBot.comment_map_get Database.update_post_status];
    rewrite Hr;
    cbn -[Database.get_post Database.get_comments_for_post
          TelegramBot.comment_map_get Database.update_post_status];
    repeat match goal with
           | |- context [EmptyString +:+ ?x] => change (EmptyString +:+ x) with x
           end;
    rewrite Hrow;
    cbn -[Database.update_post_status];
    unfold Approval.status_of, Database.get_post, Database.update_post_status in *;
    cbn [TelegramBot.db TelegramBot.with_db Database.posts fst];
    rewrite lookup_alter_eq, Hr; reflexivity.
Qed.

Lemma dispatch_success_posted int ts tweet_url comment pid approval_id tone b r :
  Database.get_post (TelegramBot.db b) pid = Some r ->
  Approval.status_of
    (Approval.step int
       (Approval.Dispatched true ts tweet_url comment pid approval_id tone) b) pid
  = Some Database.posted.
Proof.
  intros Hr. cbn [Approval.step]. unfold TelegramBot._run_auto_post.
  assert (E : forall o : option string,
             fst (match o with
                  | Some label =>
                      (Database.update_post_status pid Database.posted
                         (Database.mark_posted ts approval_id (TelegramBot.db b)),
                       [TelegramBot.SendMessage
                          ("✅ <b>Auto-posted! (" +:+ label +:+ ")</b>" +:+ nl +:+ nl +:+
                           "🔗 " +:+ tweet_url +:+ nl +:+ "💬 `" +:+ comment +:+ "`")])
                  | None =>
                      (Database.update_post_status pid Database.posted
                         (Database.mark_posted ts approval_id (TelegramBot.db b)),
                       [TelegramBot.KeyError tone])
                  end)
             = Database.update_post_status pid Database.posted
                 (Database.mark_posted ts approval_id (TelegramBot.db b)))
    by (intros [l|]; reflexivity).
  rewrite E.
  unfold Approval.status_of, Database.get_post, Database.update_post_status in *.
  cbn [TelegramBot.db TelegramBot.with_db Database.posts Database.mark_posted] in *.
  rewrite lookup_alter_eq, Hr. reflexivity.
Qed.

Lemma dispatch_failure_keeps int ts tweet_url comment pid approval_id tone b :
  TelegramBot.db
    (Approval.step int
       (Approval.Dispatched false ts tweet_url comment pid approval_id tone) b)
  = TelegramBot.db b.
Proof. reflexivity. Qed.

(** C1 (as the code has it). Each control-channel action overwrites the
    status whatever it was: Skip on a stored post sets [skipped], a manual
    selection of a stored comment sets [approved], also on a post that was
    skipped, and an auto-post dispatch that succeeds sets [posted],
    whatever the status of the stored post was (one that fails leaves the
    store as it was); what is one-way is that a post that has left
    [pending] never returns to it, under any sequence of button presses,
    messages, dispatch results and pipeline writes. *)
Theorem C1_status_never_returns_to_pending :
  (forall int actions b pid,
      settled (TelegramBot.db b) pid ->
      settled (TelegramBot.db (Approval.run int actions b)) pid) /\
  (forall int ts msg b pid r,
      Database.get_post (TelegramBot.db b) pid = Some r ->
      Approval.status_of
        (fst (TelegramBot.button_callback int ts ("skip|" +:+ pid) msg b)) pid
      = Some Database.skipped) /\
  (forall int ts msg b pid r t row,
      Database.get_post (TelegramBot.db b) pid = Some r ->
      TelegramBot.comment_map_get
        (Database.get_comments_for_post (TelegramBot.db b) pid) (Generator.tone_name t)
      = Some row ->
      Approval.status_of
        (fst (TelegramBot.button_callback int ts
                ("manual_" +:+ Generator.tone_name t +:+ "|" +:+ pid) msg b)) pid
      = Some Database.approved) /\
  (forall int ts tweet_url comment pid approval_id tone b r,
      Database.get_post (TelegramBot.db b) pid = Some r ->
      Approval.status_of
        (Approval.step int
           (Approval.Dispatched true ts tweet_url comment pid approval_id tone) b) pid
      = Some Database.posted /\
      Approval.status_of
        (TelegramBot.with_db
           (fst (TelegramBot._run_auto_post true ts tweet_url comment pid approval_id
                   tone (TelegramBot.db b))) b) pid
      = Some Database.posted) /\
  (forall int ts tweet_url comment pid approval_id tone b,
      TelegramBot.db
        (Approval.step int
           (Approval.Dispatched false ts tweet_url comment pid approval_id tone) b)
      = TelegramBot.db b /\
      fst (TelegramBot._run_auto_post false ts tweet_url comment pid approval_id tone
             (TelegramBot.db b))
      = TelegramBot.db b).
Proof.
  split; [|split; [|split; [|split]]].
  - intros int actions b pid. apply run_settled.
  - intros int ts msg b pid r. apply press_skip.
  - intros int ts msg b pid r t row. apply press_manual.
  - intros int ts tweet_url comment pid approval_id tone b r Hr.
    split; exact (dispatch_success_posted int ts tweet_url comment pid approval_id
                    tone b r Hr).
  - intros int ts tweet_url comment pid approval_id tone b. split; reflexivity.
Qed.

Lemma C1_status_never_returns_to_pending_witness :
  settled
    (TelegramBot.db
       (Approval.run no_int
          [Approval.Press 7200000002 "manual_challenge|1" EmptyString;
           Approval.Discovered 7200000003 (sample_post "1" 6000 7200000000);
           Approval.Cancel]
          skipped_bot))
    "1" /\
  Approval.status_of
    (Approval.step no_int
       (Approval.Dispatched true 7200000009 "https://x.com/a/status/1"
          "Distillation keeps the reasoning of the model" "1" 1 "challenge")
       skipped_bot) "1"
  = Some Database.posted.
Proof.
  split.
  - apply (proj1 C1_status_never_returns_to_pending no_int
             [Approval.Press 7200000002 "manual_challenge|1" EmptyString;
              Approval.Discovered 7200000003 (sample_post "1" 6000 7200000000);
              Approval.Cancel]
             skipped_bot "1").
    unfold settled.
    destruct (Database.posts (TelegramBot.db skipped_bot) !! "1") as [r|] eqn:Hr;
      [|vm_compute in Hr; discriminate].
    exists r. split; [reflexivity|].
    vm_compute in Hr. injection Hr as <-. discriminate.
  - destruct (Database.get_post (TelegramBot.db skipped_bot) "1") as [r|] eqn:Hr;
      [|vm_compute in Hr; discriminate].
    exact (proj1 (proj1 (proj2 (proj2 (proj2 C1_status_never_returns_to_pending)))
                    no_int 7200000009 "https://x.com/a/status/1"
                    "Distillation keeps the reasoning of the model" "1" 1 "challenge"
                    skipped_bot r Hr)).
Defined.

(** C1, counterexample.  Post ["1"] is stored as [pending]; the reviewer
    presses Skip and the post is [skipped]; a press of the manual button
    of the challenge tone then moves the same post to [approved]. *)
Lemma C1_counterexample :
  Approval.status_of sample_bot "1" = Some Database.pending /\
  Approval.status_of skipped_bot "1" = Some Database.skipped /\
  Approval.status_of
    (Approval.run no_int
       [Approval.Press 7200000002 "manual_challenge|1" EmptyString] skipped_bot) "1"
  = Some Database.approved.
Proof. vm_compute. repeat split. Qed.


(** ** Discovery against the store *)

Lemma check_loop_posts sp ct now seen accounts :
  forall k w,
    Database.posts (Scraper.store (Scraper.check_loop sp ct now seen k accounts w))
    = Database.posts (Scraper.store w).
Proof.
  induction accounts as [|acct rest IH]; intros k w; cbn [Scraper.check_loop];
    [reflexivity|].
  rewrite IH. unfold Scraper.check_account.
  destruct (Scraper.skips now (Scraper.store w) acct);
    [|destruct (sp k (Scraper.handle acct))]; reflexivity.
Qed.

Lemma store_comments_posts ts pid comments :
  forall d, Database.posts (Main.store_comments ts pid comments d) = Database.posts d.
Proof.
  induction comments as [|[tone [txt iss]] rest IH]; intros d; cbn [Main.store_comments];
    [reflexivity|].
  destruct (String.eqb txt EmptyString); rewrite IH; reflexivity.
Qed.

Lemma insert_post_subseteq ts p d :
  Database.posts d ⊆ Database.posts (Database.insert_post ts p d).
Proof.
  unfold Database.insert_post. destruct (id p) as [pid|]; [|reflexivity].
  destruct (Database.post_exists d pid) eqn:Hex; cbn [orb]; [reflexivity|].
  destruct (Database.url_exists d (url p)); [reflexivity|].
  cbn [Database.posts]. apply insert_subseteq.
  unfold Database.post_exists in Hex. apply bool_decide_eq_false_1 in Hex.
  destruct (Database.posts d !! pid) eqn:E; [|reflexivity].
  exfalso. apply Hex. eexists; reflexivity.
Qed.

Lemma insert_post_kept ts p d pid :
  id p = Some pid -> kept (Database.insert_post ts p d) p.
Proof.
  intros Hid. unfold Database.insert_post. rewrite Hid.
  destruct (Database.post_exists d pid) eqn:Hex; cbn [orb].
  - left. exists pid. split; [exact Hid|].
    unfold Database.post_exists in Hex. apply bool_decide_eq_true_1 in Hex.
    unfold Database.get_already_seen_ids. now apply elem_of_dom.
  - destruct (Database.url_exists d (url p)) eqn:Hu.
    + right. unfold Database.url_exists in Hu. now apply bool_decide_eq_true_1 in Hu.
    + left. exists pid. split; [exact Hid|].
      unfold Database.get_already_seen_ids. cbn [Database.posts].
      apply elem_of_dom. rewrite lookup_insert_eq. eexists; reflexivity.
Qed.

Lemma kept_subseteq d d' p :
  Database.posts d ⊆ Database.posts d' -> kept d p -> kept d' p.
Proof.
  intros Hsub [(pid & Hid & Hin)|(k & r & Hk & Hr)].
  - left. exists pid. split; [exact Hid|].
    unfold Database.get_already_seen_ids in *. apply elem_of_dom in Hin as [r Hr].
    apply elem_of_dom. exists r. eapply lookup_weaken; eauto.
  - right. exists k, r. split; [|exact Hr]. eapply lookup_weaken; eauto.
Qed.

Lemma store_one_subseteq w cfg k p d items :
  Database.posts d ⊆ Database.posts (fst (Main.store_one w cfg k p (d, items))).
Proof.
  unfold Main.store_one.
  destruct (Generator.generate_comments _ _ p cfg) as [comments log].
  cbn [fst]. destruct (id p); [rewrite store_comments_posts|]; apply insert_post_subseteq.
Qed.

Lemma store_one_kept w cfg k p d items pid :
  id p = Some pid -> kept (fst (Main.store_one w cfg k p (d, items))) p.
Proof.
  intros Hid. unfold Main.store_one.
  destruct (Generator.generate_comments _ _ p cfg) as [comments log].
  cbn [fst]. rewrite Hid.
  eapply kept_subseteq;
    [|apply (insert_post_kept (Main.insert_timestamp w k) p d pid Hid)].
  rewrite store_comments_posts. reflexivity.
Qed.

Lemma store_loop_subseteq w cfg posts :
  forall k st,
    Database.posts (fst st) ⊆ Database.posts (fst (Main.store_loop w cfg k posts st)).
Proof.
  induction posts as [|p rest IH]; intros k [d items]; cbn [Main.store_loop];
    [reflexivity|].
  etransitivity; [apply (store_one_subseteq w cfg k p d items)|apply IH].
Qed.

Lemma store_loop_kept w cfg posts :
  forall k st p pid,
    p ∈ posts -> id p = Some pid ->
    kept (fst (Main.store_loop w cfg k posts st)) p.
Proof.
  induction posts as [|q rest IH]; intros k [d items] p pid Hin Hid;
    [now apply elem_of_nil in Hin|].
  cbn [Main.store_loop]. apply elem_of_cons in Hin as [->|Hin].
  - eapply kept_subseteq; [apply store_loop_subseteq|].
    now apply (store_one_kept w cfg k q d items pid).
  - now apply (IH _ _ p pid).
Qed.

Lemma run_once_shape w fcfg gcfg kws accounts tm db :
  exists all_posts d items,
    Database.posts d = Database.posts db /\
    (forall q, q ∈ Main.ranked (Main.run_once w fcfg gcfg kws accounts tm db) ->
               q ∈ Filter.filter_and_rank_posts all_posts
                     (Database.get_already_seen_ids d) fcfg (Main.filter_clock w)) /\
    Main.store_loop w gcfg O
      (take 10 (Main.ranked (Main.run_once w fcfg gcfg kws accounts tm db))) (d, [])
    = (Main.db_after (Main.run_once w fcfg gcfg kws accounts tm db), items).
Proof.
  unfold Main.run_once.
  set (kw := if tm then take 3 _ else _).
  set (topic := Scraper.discover_posts_by_topic _ kw _).
  set (watch := Scraper.check_monitored_accounts _ _ _ accounts db _).
  assert (Hw : Database.posts (Scraper.store watch) = Database.posts db)
    by apply check_loop_posts.
  assert (Hnil : forall (l : list Post) q, q ∈ [] -> q ∈ l)
    by (intros l q Hq; now apply elem_of_nil in Hq).
  destruct tm.
  - (* test mode: no account is checked *)
    destruct (topic ++ []) as [|p0 l0] eqn:Hall.
    + exists [], db, []. split; [reflexivity|]. split; [apply Hnil|reflexivity].
    + rewrite <- Hall.
      destruct (Filter.filter_and_rank_posts (topic ++ []) _ fcfg _) as [|r0 rs] eqn:Hr.
      * exists (topic ++ []), db, []. split; [reflexivity|].
        split; [apply Hnil|reflexivity].
      * rewrite <- Hr.
        destruct (Main.store_loop w gcfg O _ (db, [])) as [d' items] eqn:Hs.
        exists (topic ++ []), db, items. cbn [Main.ranked Main.db_after].
        split; [reflexivity|]. split; [|exact Hs].
        intros q Hq. apply elem_of_take in Hq as (i & Hi & _).
        eapply list_elem_of_lookup_2; eauto.
  - destruct (topic ++ Scraper.all_posts watch) as [|p0 l0] eqn:Hall.
    + exists [], (Scraper.store watch), []. split; [exact Hw|].
      split; [apply Hnil|reflexivity].
    + rewrite <- Hall.
      destruct (Filter.filter_and_rank_posts (topic ++ Scraper.all_posts watch) _ fcfg _)
        as [|r0 rs] eqn:Hr.
      * exists (topic ++ Scraper.all_posts watch), (Scraper.store watch), [].
        split; [exact Hw|]. split; [apply Hnil|reflexivity].
      * rewrite <- Hr.
        destruct (Main.store_loop w gcfg O _ (Scraper.store watch, [])) as [d' items] eqn:Hs.
        exists (topic ++ Scraper.all_posts watch), (Scraper.store watch), items.
        cbn [Main.ranked Main.db_after].
        split; [exact Hw|]. split; [|exact Hs].
        intros q Hq. exact Hq.
Qed.

Lemma not_seen_tagged seen now p pid :
  id p = Some pid ->
  Scraper.not_seen seen (Ranked.tagged now p) = negb (bool_decide (pid ∈ seen)).
Proof. intros Hid. unfold Scraper.not_seen. cbn. now rewrite Hid. Qed.

Lemma loop_body_larger_store cfg seen seen' now st st' p :
  seen ⊆ seen' ->
  Filter.seen_this_run st' = Filter.seen_this_run st ->
  Filter.candidates st' = List.filter (Scraper.not_seen seen') (Filter.candidates st) ->
  Filter.seen_this_run (Filter.loop_body cfg seen' (still now) st' p)
  = Filter.seen_this_run (Filter.loop_body cfg seen (still now) st p) /\
  Filter.candidates (Filter.loop_body cfg seen' (still now) st' p)
  = List.filter (Scraper.not_seen seen')
      (Filter.candidates (Filter.loop_body cfg seen (still now) st p)).
Proof.
  intros Hsub Hrun Hcand. unfold Filter.loop_body. rewrite Hrun.
  destruct (id p) as [pid|] eqn:Hid; [|split; assumption].
  destruct (String.eqb pid EmptyString); [split; assumption|].
  destruct (bool_decide (pid ∈ Filter.seen_this_run st)); [split; assumption|].
  pose proof (not_seen_tagged seen' now p pid Hid) as Htag. unfold Ranked.tagged in Htag.
  destruct (bool_decide (pid ∈ seen)) eqn:Hs.
  - apply bool_decide_eq_true_1 in Hs.
    rewrite (bool_decide_eq_true_2 (pid ∈ seen') (Hsub _ Hs)).
    split; [reflexivity|exact Hcand].
  - unfold still in *.
    destruct (bool_decide (pid ∈ seen')) eqn:Hs';
      repeat case_match; cbn [Filter.seen_this_run Filter.candidates];
      (split; [reflexivity|]); try exact Hcand;
      rewrite List.filter_app, <- Hcand; cbn [List.filter]; cbv zeta in Htag;
      rewrite Htag; cbn [negb]; rewrite ?app_nil_r; reflexivity.
Qed.

Lemma fold_loop_larger_store cfg seen seen' now posts :
  seen ⊆ seen' ->
  forall st st',
    Filter.seen_this_run st' = Filter.seen_this_run st ->
    Filter.candidates st' = List.filter (Scraper.not_seen seen') (Filter.candidates st) ->
    Filter.candidates (fold_left (Filter.loop_body cfg seen' (still now)) posts st')
    = List.filter (Scraper.not_seen seen')
        (Filter.candidates (fold_left (Filter.loop_body cfg seen (still now)) posts st)).
Proof.
  intros Hsub. induction posts as [|p posts IH]; intros st st' Hrun Hcand; [exact Hcand|].
  cbn [fold_left].
  destruct (loop_body_larger_store cfg seen seen' now st st' p Hsub Hrun Hcand) as [H1 H2].
  now apply IH.
Qed.

Lemma collect_larger_store cfg seen seen' now posts :
  seen ⊆ seen' ->
  Filter.collect posts seen' cfg (still now)
  = List.filter (Scraper.not_seen seen') (Filter.collect posts seen cfg (still now)).
Proof.
  intros Hsub. unfold Filter.collect. now apply fold_loop_larger_store.
Qed.

Lemma rank_again_empty cfg seen seen' now posts :
  seen ⊆ seen' ->
  (forall q, q ∈ Filter.collect posts seen cfg (still now) ->
             exists pid, id q = Some pid /\ pid ∈ seen') ->
  Filter.filter_and_rank_posts posts seen' cfg (still now) = [].
Proof.
  intros Hsub Hall. unfold Filter.filter_and_rank_posts.
  rewrite (collect_larger_store cfg seen seen' now posts Hsub).
  assert (E : List.filter (Scraper.not_seen seen') (Filter.collect posts seen cfg (still now))
              = []).
  { induction (Filter.collect posts seen cfg (still now)) as [|q l IH]; [reflexivity|].
    cbn [List.filter].
    destruct (Hall q) as (pid & Hid & Hin); [left|].
    unfold Scraper.not_seen. rewrite Hid, (bool_decide_eq_true_2 _ Hin). cbn [negb].
    apply IH. intros q' Hq'. apply Hall. now right. }
  rewrite E. cbn [Filter.sort_desc foldr]. unfold Filter.slice_to.
  destruct (Filter.top_n_posts cfg <? 0); apply take_nil.
Qed.

(** C2 (as the code has it). For any two runs, the second on the store
    the first one left: the second run surfaces no post whose id is in the
    store, so no post the first run stored is surfaced or inserted again;
    the first run never removes an id from the store; each of the posts
    it processed (the first ten of its ranked list) is kept by the store
    afterwards, under its id or under its url; and ranking the same batch
    again at the same clock reading, against a store that holds every
    candidate of the first pass, returns no post. *)
Theorem C2_stored_posts_not_rediscovered :
  forall w1 w2 fcfg1 fcfg2 gcfg1 gcfg2 kws1 kws2 accounts1 accounts2 tm1 tm2 db,
    (forall q,
        q ∈ Main.ranked
              (Main.run_once w2 fcfg2 gcfg2 kws2 accounts2 tm2
                 (Main.db_after (Main.run_once w1 fcfg1 gcfg1 kws1 accounts1 tm1 db))) ->
        exists pid,
          id q = Some pid /\
          pid ∉ Database.get_already_seen_ids
                  (Main.db_after (Main.run_once w1 fcfg1 gcfg1 kws1 accounts1 tm1 db))) /\
    Database.get_already_seen_ids db
    ⊆ Database.get_already_seen_ids
        (Main.db_after (Main.run_once w1 fcfg1 gcfg1 kws1 accounts1 tm1 db)) /\
    (forall p pid,
        p ∈ take 10 (Main.ranked (Main.run_once w1 fcfg1 gcfg1 kws1 accounts1 tm1 db)) ->
        id p = Some pid ->
        kept (Main.db_after (Main.run_once w1 fcfg1 gcfg1 kws1 accounts1 tm1 db)) p) /\
    (forall posts seen seen' now,
        seen ⊆ seen' ->
        (forall q, q ∈ Filter.collect posts seen fcfg1 (still now) ->
                   exists pid, id q = Some pid /\ pid ∈ seen') ->
        Filter.filter_and_rank_posts posts seen' fcfg1 (still now) = []).
Proof.
  intros w1 w2 fcfg1 fcfg2 gcfg1 gcfg2 kws1 kws2 accounts1 accounts2 tm1 tm2 db.
  set (run1 := Main.run_once w1 fcfg1 gcfg1 kws1 accounts1 tm1 db).
  split; [|split; [|split]]; [| | |intros posts seen seen' now; apply rank_again_empty].
  - intros q Hq.
    destruct (run_once_shape w2 fcfg2 gcfg2 kws2 accounts2 tm2 (Main.db_after run1))
      as (all_posts & d & items & Hd & Hr & _).
    apply Hr, ranked_admitted in Hq.
    destruct Hq as [(pid & Hid & _ & Hseen) _ _ _].
    exists pid. split; [exact Hid|].
    unfold Database.get_already_seen_ids in *. rewrite <- Hd. exact Hseen.
  - destruct (run_once_shape w1 fcfg1 gcfg1 kws1 accounts1 tm1 db)
      as (all_posts & d & items & Hd & _ & Hs).
    fold run1 in Hs.
    pose proof (store_loop_subseteq w1 gcfg1 (take 10 (Main.ranked run1)) O (d, []))
      as Hsub.
    rewrite Hs in Hsub. cbn [fst] in Hsub. rewrite Hd in Hsub.
    unfold Database.get_already_seen_ids. now apply subseteq_dom.
  - intros p pid Hp Hid.
    destruct (run_once_shape w1 fcfg1 gcfg1 kws1 accounts1 tm1 db)
      as (all_posts & d & items & Hd & _ & Hs).
    fold run1 in Hs.
    pose proof (store_loop_kept w1 gcfg1 (take 10 (Main.ranked run1)) O (d, []) p pid
                  Hp Hid) as Hk.
    rewrite Hs in Hk. exact Hk.
Qed.

(** C2, counterexample.  With [top_n_posts = 1] the first run over two
    fresh posts surfaces and stores only one of them; the second run over
    the same discovery output surfaces the other one and stores it. *)
Lemma C2_counterexample :
  List.map id (Main.ranked first_run) = [Some "1"] /\
  List.map id (Main.ranked second_run) = [Some "2"] /\
  Database.post_exists (Main.db_after first_run) "2" = false /\
  Database.post_exists (Main.db_after second_run) "2" = true.
Proof. vm_compute. repeat split. Qed.

Lemma C2_stored_posts_not_rediscovered_witness :
  kept (Main.db_after first_run)
       (Ranked.tagged 7200000000 (sample_post "1" 6000 7200000000)).
Proof.
  apply (proj1 (proj2 (proj2 (C2_stored_posts_not_rediscovered
                         (two_posts 7200000000) (two_posts 7200000000)
                         top_one top_one Generator.default_config Generator.default_config
                         one_keyword one_keyword [] [] false false Database.empty)))
           (Ranked.tagged 7200000000 (sample_post "1" 6000 7200000000)) "1").
  - vm_compute. left.
  - reflexivity.
Defined.

(** * Further properties of the code *)

(** ** Ranking: order, ties and truncation *)

Lemma insert_desc_sorted p l :
  StronglySorted by_score_desc l -> StronglySorted by_score_desc (Filter.insert_desc p l).
Proof.
  induction 1 as [|q l Hl IH Hq]; cbn [Filter.insert_desc].
  - repeat constructor.
  - destruct (Z.gtb_spec (score q) (score p)) as [Hgt|Hle].
    + constructor; [exact IH|].
      apply Forall_forall. intros x Hx. apply elem_of_insert_desc in Hx as [->|Hx].
      * unfold by_score_desc. lia.
      * rewrite Forall_forall in Hq. now apply Hq.
    + constructor; [now constructor|].
      constructor; [unfold by_score_desc; lia|].
      eapply Forall_impl; [exact Hq|]. unfold by_score_desc. intros x Hx. lia.
Qed.

Lemma sort_desc_sorted l : StronglySorted by_score_desc (Filter.sort_desc l).
Proof.
  induction l as [|p l IH]; cbn; [constructor|]. now apply insert_desc_sorted.
Qed.

Lemma take_sorted {A} (R : A -> A -> Prop) n l :
  StronglySorted R l -> StronglySorted R (take n l).
Proof.
  intros H. revert n. induction H as [|a l Hl IH Ha]; intros [|n]; cbn; try constructor.
  - apply IH.
  - apply Forall_forall. intros x Hx. rewrite Forall_forall in Ha. apply Ha.
    apply elem_of_take in Hx as (i & Hi & _). eapply list_elem_of_lookup_2; eauto.
Qed.

Lemma insert_desc_split p l :
  exists l1 l2,
    l = l1 ++ l2 /\ Filter.insert_desc p l = l1 ++ p :: l2 /\
    Forall (fun q => score p < score q) l1.
Proof.
  induction l as [|q l (l1 & l2 & E & Ei & Hf)]; cbn [Filter.insert_desc].
  - exists [], []. repeat split. constructor.
  - destruct (Z.gtb_spec (score q) (score p)) as [Hgt|Hle].
    + exists (q :: l1), l2. rewrite Ei, E. repeat split. constructor; [lia|exact Hf].
    + exists [], (q :: l). repeat split. constructor.
Qed.

Lemma insert_desc_perm p l : Filter.insert_desc p l ≡ₚ p :: l.
Proof.
  destruct (insert_desc_split p l) as (l1 & l2 & E & Ei & _). rewrite Ei, E.
  symmetry. apply Permutation_middle.
Qed.

Lemma sort_desc_perm l : Filter.sort_desc l ≡ₚ l.
Proof.
  induction l as [|p l IH]; cbn; [reflexivity|].
  rewrite insert_desc_perm. now constructor.
Qed.

Lemma with_score_insert_desc s p l :
  with_score s (Filter.insert_desc p l) = with_score s (p :: l).
Proof.
  destruct (insert_desc_split p l) as (l1 & l2 & E & Ei & Hf). rewrite Ei, E.
  unfold with_score. cbn [List.filter]. rewrite !List.filter_app. cbn [List.filter].
  destruct (Z.eqb_spec (score p) s) as [Hs|Hs]; [|reflexivity].
  assert (E1 : List.filter (fun q => score q =? s) l1 = []).
  { clear -Hf Hs. induction Hf as [|q l1 Hq _ IH]; [reflexivity|].
    cbn [List.filter]. destruct (Z.eqb_spec (score q) s); [lia|exact IH]. }
  rewrite E1. reflexivity.
Qed.

Lemma with_score_sort_desc s l : with_score s (Filter.sort_desc l) = with_score s l.
Proof.
  induction l as [|p l IH]; [reflexivity|].
  cbn [Filter.sort_desc foldr]. fold (Filter.sort_desc l).
  rewrite with_score_insert_desc. unfold with_score in *. cbn [List.filter].
  now rewrite IH.
Qed.

(** X1. The list [filter_and_rank_posts] returns is sorted by score,
    highest first: no post stands before a post of a strictly higher
    score. *)
Theorem ranked_sorted_by_score :
  forall posts seen cfg clock,
    StronglySorted by_score_desc (Filter.filter_and_rank_posts posts seen cfg clock).
Proof.
  intros posts seen cfg clock. unfold Filter.filter_and_rank_posts, Filter.slice_to.
  destruct (Filter.top_n_posts cfg <? 0); apply take_sorted, sort_desc_sorted.
Qed.

(** X2. Ties keep their order: the returned posts of any one score are
    the first of the candidates of that score, in the order in which the
    loop collected them (the order of the input). *)
Theorem ranked_ties_keep_input_order :
  forall posts seen cfg clock s,
    with_score s (Filter.filter_and_rank_posts posts seen cfg clock)
    `prefix_of` with_score s (Filter.collect posts seen cfg clock).
Proof.
  intros posts seen cfg clock s.
  rewrite <- (with_score_sort_desc s (Filter.collect posts seen cfg clock)).
  unfold Filter.filter_and_rank_posts, Filter.slice_to.
  set (l := Filter.sort_desc _).
  assert (H : forall n, with_score s (take n l) `prefix_of` with_score s l).
  { intros n. exists (with_score s (drop n l)). unfold with_score.
    rewrite <- List.filter_app, take_drop. reflexivity. }
  destruct (Filter.top_n_posts cfg <? 0); apply H.
Qed.

(** X3. Truncation follows Python's slice: for [top_n_posts] that is not
    negative the result has [min(top_n_posts, candidates)] posts; a
    negative [top_n_posts] instead drops that many candidates from the low
    end of the ranking, leaving the others. *)
Theorem ranked_length :
  forall posts seen cfg clock,
    let n := Filter.top_n_posts cfg in
    let c := Z.of_nat (length (Filter.collect posts seen cfg clock)) in
    Z.of_nat (length (Filter.filter_and_rank_posts posts seen cfg clock))
    = if n <? 0 then Z.max 0 (c + n) else Z.min n c.
Proof.
  intros posts seen cfg clock n c. subst n c.
  unfold Filter.filter_and_rank_posts, Filter.slice_to.
  assert (E : length (Filter.sort_desc (Filter.collect posts seen cfg clock))
              = length (Filter.collect posts seen cfg clock))
    by (apply Permutation_length, sort_desc_perm).
  destruct (Z.ltb_spec (Filter.top_n_posts cfg) 0); rewrite length_take, E; lia.
Qed.

(** ** Ranking: distinct ids and provenance *)

Lemma loop_body_ids cfg seen clock st p :
  (NoDup (List.map id (Filter.candidates st)) /\
   forall q, q ∈ Filter.candidates st ->
             exists pid, id q = Some pid /\ pid ∈ Filter.seen_this_run st) ->
  NoDup (List.map id (Filter.candidates (Filter.loop_body cfg seen clock st p))) /\
  forall q, q ∈ Filter.candidates (Filter.loop_body cfg seen clock st p) ->
            exists pid, id q = Some pid /\
                        pid ∈ Filter.seen_this_run (Filter.loop_body cfg seen clock st p).
Proof.
  intros [Hnd Hin]. unfold Filter.loop_body.
  destruct (id p) as [pid|] eqn:Hid; [|split; assumption].
  destruct (String.eqb pid EmptyString); [split; assumption|].
  destruct (bool_decide (pid ∈ Filter.seen_this_run st)) eqn:Hrun; [split; assumption|].
  apply bool_decide_eq_false_1 in Hrun.
  assert (Hgrow : forall q, q ∈ Filter.candidates st ->
                            exists k, id q = Some k /\ k ∈ {[pid]} ∪ Filter.seen_this_run st).
  { intros q Hq. destruct (Hin q Hq) as (k & Hk & Hs). exists k. split; [exact Hk|].
    set_solver. }
  repeat case_match; cbn [Filter.candidates Filter.seen_this_run];
    try (split; assumption).
  split.
  - rewrite List.map_app. cbn [List.map id set_source set_score]. rewrite Hid.
    apply NoDup_app. split; [exact Hnd|]. split; [|apply NoDup_singleton].
    intros x Hx Hx'. apply list_elem_of_singleton in Hx'. subst x.
    apply list_elem_of_In, in_map_iff in Hx as (q & Hq & Hq').
    apply list_elem_of_In in Hq'. destruct (Hin q Hq') as (k & Hk & Hs).
    rewrite Hq in Hk. injection Hk as <-. contradiction.
  - intros q Hq. apply elem_of_app in Hq as [Hq|Hq]; [now apply Hgrow|].
    apply list_elem_of_singleton in Hq. subst q. exists pid. split; [exact Hid|].
    set_solver.
Qed.

Lemma collect_ids cfg seen clock posts :
  NoDup (List.map id (Filter.collect posts seen cfg clock)).
Proof.
  unfold Filter.collect.
  assert (H : forall st,
             (NoDup (List.map id (Filter.candidates st)) /\
              forall q, q ∈ Filter.candidates st ->
                        exists pid, id q = Some pid /\ pid ∈ Filter.seen_this_run st) ->
             NoDup (List.map id (Filter.candidates
                                   (fold_left (Filter.loop_body cfg seen clock) posts st)))).
  { induction posts as [|p posts IH]; intros st Hst; [apply Hst|].
    cbn [fold_left]. apply IH. now apply loop_body_ids. }
  apply H. cbn. split; [constructor|]. intros q Hq. now apply elem_of_nil in Hq.
Qed.

(** X4. No two posts of the ranked list share an id: of several input
    records with the same id at most one is returned. *)
Theorem ranked_ids_distinct :
  forall posts seen cfg clock,
    NoDup (List.map id (Filter.filter_and_rank_posts posts seen cfg clock)).
Proof.
  intros posts seen cfg clock. unfold Filter.filter_and_rank_posts, Filter.slice_to.
  set (l := Filter.sort_desc _).
  assert (Hl : NoDup (List.map id l)).
  { subst l.
    assert (Hp : List.map id (Filter.sort_desc (Filter.collect posts seen cfg clock))
                 ≡ₚ List.map id (Filter.collect posts seen cfg clock))
      by apply Permutation_map, sort_desc_perm.
    rewrite Hp. apply collect_ids. }
  assert (H : forall n, NoDup (List.map id (take n l))).
  { intros n. rewrite <- (take_drop n l), List.map_app in Hl.
    now apply NoDup_app in Hl as [Hl _]. }
  destruct (Filter.top_n_posts cfg <? 0); apply H.
Qed.

Lemma too_old_false_age cfg now p t :
  Filter.too_old cfg now p = false -> created_at p = Some t ->
  now - t <= Filter.max_post_age_hours cfg * 3600000000.
Proof.
  unfold Filter.too_old. intros H Hc. rewrite Hc, hours_gt in H.
  now apply Z.ltb_ge in H.
Qed.

Lemma loop_body_provenance cfg seen clock st p q :
  q ∈ Filter.candidates (Filter.loop_body cfg seen clock st p) ->
  q ∈ Filter.candidates st \/
  (exists k, q = Ranked.tagged (clock (S k)) p /\
             Filter.min_score cfg <= Filter.score_post (clock (S k)) p /\
             Filter.too_old cfg (clock O) p = false).
Proof.
  unfold Filter.loop_body. intros Hq.
  repeat case_match; cbn [Filter.candidates] in Hq; try (left; exact Hq).
  apply elem_of_app in Hq as [Hq|Hq]; [left; exact Hq|].
  apply list_elem_of_singleton in Hq. right. exists (Filter.scored st).
  split; [exact Hq|]. split; [|first [assumption|reflexivity]].
  match goal with H : (_ >=? _) = true |- _ => apply Z.geb_le in H; exact H end.
Qed.

Lemma fold_loop_provenance cfg seen clock posts :
  forall st q,
    q ∈ Filter.candidates (fold_left (Filter.loop_body cfg seen clock) posts st) ->
    q ∈ Filter.candidates st \/
    (exists p k, p ∈ posts /\ q = Ranked.tagged (clock (S k)) p /\
                 Filter.min_score cfg <= Filter.score_post (clock (S k)) p /\
                 Filter.too_old cfg (clock O) p = false).
Proof.
  induction posts as [|p posts IH]; intros st q Hq; [left; exact Hq|].
  cbn [fold_left] in Hq. destruct (IH _ _ Hq) as [H|(p' & k & Hp' & H)].
  - destruct (loop_body_provenance _ _ _ _ _ _ H) as [H'|(k & H')]; [now left|].
    right. exists p, k. split; [left|exact H'].
  - right. exists p', k. split; [now right|exact H].
Qed.

(** X5. Every post of the ranked list is one of the input records with
    only its score and its source set: the score is the value of
    [score_post] for the record and reaches [min_score], the source is the
    record's own or [topic_search], and a record with a known creation time
    is not older than [max_post_age_hours] at the clock reading of the
    loop. *)
Theorem ranked_provenance :
  forall posts seen cfg clock q,
    q ∈ Filter.filter_and_rank_posts posts seen cfg clock ->
    exists p k,
      p ∈ posts /\
      q = set_source (Filter.source_or_default p)
            (set_score (Filter.score_post (clock (S k)) p) p) /\
      Filter.min_score cfg <= score q /\
      (forall t, created_at p = Some t ->
                 clock O - t <= Filter.max_post_age_hours cfg * 3600000000).
Proof.
  intros posts seen cfg clock q Hq. unfold Filter.filter_and_rank_posts in Hq.
  apply elem_of_slice_to, elem_of_sort_desc in Hq. unfold Filter.collect in Hq.
  apply fold_loop_provenance in Hq as [Hq|(p & k & Hp & -> & Hs & Hold)];
    [now apply elem_of_nil in Hq|].
  exists p, k. split; [exact Hp|]. split; [reflexivity|]. split; [exact Hs|].
  intros t Ht. now apply (too_old_false_age cfg (clock O) p t).
Qed.

Lemma ranked_provenance_witness :
  exists p k,
    p ∈ [sample_post "1" 6000 7200000000] /\
    Ranked.tagged 7200000000 (sample_post "1" 6000 7200000000)
    = set_source (Filter.source_or_default p)
        (set_score (Filter.score_post (still 7200000000 (S k)) p) p) /\
    Filter.min_score Filter.default_config
    <= score (Ranked.tagged 7200000000 (sample_post "1" 6000 7200000000)) /\
    (forall t, created_at p = Some t ->
               still 7200000000 O - t
               <= Filter.max_post_age_hours Filter.default_config * 3600000000).
Proof.
  apply (ranked_provenance [sample_post "1" 6000 7200000000] ∅ Filter.default_config
           (still 7200000000)).
  vm_compute. left.
Defined.

(** ** Bounds of the score *)

(** X6. Apart from the priority boost the score lies between 0 and 29,
    and 29 is reached: the scale is wider than the 0 to 20 that the
    docstring of [score_post] announces. *)
Theorem score_post_bounds :
  (forall now p,
      priority_boost p <= Filter.score_post now p <= priority_boost p + 29) /\
  (forall now, Filter.score_post now (best_post now) = priority_boost (best_post now) + 29).
Proof.
  split.
  - intros now p. rewrite score_post_float_sum.
    assert (Hv : 0 <= Spec.float_velocity_term now p <= 4).
    { unfold Spec.float_velocity_term. destruct (created_at p); [|lia].
      destruct (0 <? now - d); [apply velocity_tier_range|lia]. }
    unfold Spec.float_score, Spec.follower_term, Spec.view_term,
      Spec.verified_term, Spec.likes_term, Spec.replies_term, Spec.recency_term,
      Spec.first_mover_term, Spec.debatable_term, Spec.comparison_term.
    destruct (Spec.age now p); split_ifs; lia.
  - intros now. rewrite score_post_float_sum.
    unfold Spec.float_score, Spec.follower_term, Spec.view_term,
      Spec.float_velocity_term, Spec.float_velocity,
      Spec.verified_term, Spec.likes_term, Spec.replies_term, Spec.recency_term,
      Spec.first_mover_term, Spec.debatable_term, Spec.comparison_term, Spec.age,
      Spec.hour, best_post, hours_old.
    cbn [created_at views author_followers author_verified likes replies
         priority_boost text].
    replace (now - (now - 3600000000)) with 3600000000 by lia.
    vm_compute. reflexivity.
Qed.

(** X7. Once a post is older than its creation time, waiting never
    raises its score: for [created_at < now <= now'] the score at [now'] is
    at most the score at [now]; a post without a creation time scores the
    same at every time. *)
Theorem score_post_decays :
  (forall now now' p t,
      created_at p = Some t -> t < now -> now <= now' ->
      Filter.score_post now' p <= Filter.score_post now p) /\
  (forall now now' p,
      created_at p = None -> Filter.score_post now' p = Filter.score_post now p).
Proof.
  split.
  - intros now now' p t Hc Ht Hn. rewrite !score_post_float_sum.
    unfold Spec.float_score, Spec.float_velocity_term, Spec.float_velocity,
      Spec.recency_term, Spec.age, Spec.hour.
    rewrite Hc.
    assert (Hv : (if 0 <? now' - t
                  then Spec.velocity_tier
                         (Float.div (Float.of_Z (views p)) (hours_old now' t))
                  else 0)
                 <= (if 0 <? now - t
                     then Spec.velocity_tier
                            (Float.div (Float.of_Z (views p)) (hours_old now t))
                     else 0)).
    { destruct (Z.ltb_spec 0 (now' - t)) as [_|G]; [|lia].
      destruct (Z.ltb_spec 0 (now - t)) as [_|G]; [|lia].
      assert (Hh : (0 < hours_old now t)%Q) by (apply hours_old_pos; lia).
      assert (Hh' : (0 < hours_old now' t)%Q) by (apply hours_old_pos; lia).
      destruct (Z.le_gt_cases 0 (views p)) as [V|V].
      - apply velocity_tier_mono, velocity_anti; [exact V|exact Hh|].
        apply hours_old_mono. exact Hn.
      - rewrite (velocity_tier_nonpos
                   (Float.div (Float.of_Z (views p)) (hours_old now' t)))
          by (apply velocity_nonpos; [lia|exact Hh']).
        apply velocity_tier_range. }
    assert (Hr : (if now' - t <? 3 * 3600000000 then 3
                  else if now' - t <? 12 * 3600000000 then 1 else 0)
                 <= (if now - t <? 3 * 3600000000 then 3
                     else if now - t <? 12 * 3600000000 then 1 else 0)).
    { repeat match goal with
             | |- context [?a <? ?b] => destruct (Z.ltb_spec a b)
             end; lia. }
    lia.
  - intros now now' p Hc. rewrite !score_post_float_sum.
    unfold Spec.float_score, Spec.float_velocity_term, Spec.recency_term, Spec.age.
    rewrite Hc. reflexivity.
Qed.

Lemma score_post_decays_witness :
  Filter.score_post 7200000000 (sample_post "1" 6000 3600000001)
  <= Filter.score_post 3600000001 (sample_post "1" 6000 3600000001).
Proof.
  apply (proj1 score_post_decays 3600000001 7200000000
           (sample_post "1" 6000 3600000001) 1); [reflexivity|lia|lia].
Defined.

(** ** The posts table *)

Lemma post_exists_true d pid r :
  Database.posts d !! pid = Some r -> Database.post_exists d pid = true.
Proof.
  intros H. unfold Database.post_exists. apply bool_decide_eq_true_2.
  rewrite H. eexists; reflexivity.
Qed.

Lemma post_exists_false d pid :
  Database.posts d !! pid = None -> Database.post_exists d pid = false.
Proof.
  intros H. unfold Database.post_exists. apply bool_decide_eq_false_2.
  rewrite H. intros [x Hx]. discriminate.
Qed.

(** X8. [insert_post] is INSERT OR IGNORE: a post whose id is stored
    leaves the store as it is (its row, status included, is not
    overwritten), so inserting twice is inserting once; a post with a
    fresh id and a fresh url is stored as a [pending] row holding its
    fields; and a post with a fresh id whose url is already stored is
    dropped without a trace. *)
Theorem insert_post_or_ignore :
  (forall ts ts' p d,
      Database.insert_post ts' p (Database.insert_post ts p d)
      = Database.insert_post ts p d) /\
  (forall ts p d pid r,
      id p = Some pid -> Database.get_post d pid = Some r ->
      Database.insert_post ts p d = d) /\
  (forall ts p d pid,
      id p = Some pid -> Database.get_post d pid = None ->
      Database.url_exists d (url p) = false ->
      Database.get_post (Database.insert_post ts p d) pid = Some (row_of ts pid p)) /\
  (forall ts p d pid,
      id p = Some pid -> Database.get_post d pid = None ->
      Database.url_exists d (url p) = true ->
      Database.insert_post ts p d = d).
Proof.
  split; [|split; [|split]].
  - intros ts ts' p d. destruct (id p) as [pid|] eqn:Hid.
    + destruct (Database.post_exists d pid || Database.url_exists d (url p)) eqn:Hc.
      * assert (E : Database.insert_post ts p d = d)
          by (unfold Database.insert_post; rewrite Hid, Hc; reflexivity).
        rewrite E. unfold Database.insert_post. rewrite Hid, Hc. reflexivity.
      * assert (E : Database.insert_post ts p d
                    = Database.mkDB (<[ pid := row_of ts pid p ]> (Database.posts d))
                        (Database.comments d) (Database.approvals d)
                        (Database.account_checks d))
          by (unfold Database.insert_post; rewrite Hid, Hc; reflexivity).
        rewrite E. unfold Database.insert_post. rewrite Hid.
        rewrite (post_exists_true _ pid (row_of ts pid p)); [reflexivity|].
        cbn [Database.posts]. apply lookup_insert_eq.
    + assert (E : Database.insert_post ts p d = d)
        by (unfold Database.insert_post; rewrite Hid; reflexivity).
      rewrite E. unfold Database.insert_post. rewrite Hid. reflexivity.
  - intros ts p d pid r Hid Hr. unfold Database.insert_post. rewrite Hid.
    rewrite (post_exists_true d pid r Hr). reflexivity.
  - intros ts p d pid Hid Hr Hu. unfold Database.insert_post. rewrite Hid.
    rewrite (post_exists_false d pid Hr), Hu. cbn [orb].
    unfold Database.get_post. cbn [Database.posts]. apply lookup_insert_eq.
  - intros ts p d pid Hid Hr Hu. unfold Database.insert_post. rewrite Hid.
    rewrite (post_exists_false d pid Hr), Hu. reflexivity.
Qed.

Lemma insert_post_or_ignore_witness :
  Database.insert_post 7200000005 (same_url_post 7200000000) sample_db = sample_db.
Proof.
  apply (proj2 (proj2 (proj2 insert_post_or_ignore)) 7200000005
           (same_url_post 7200000000) sample_db "77");
    [reflexivity| vm_compute; reflexivity | vm_compute; reflexivity].
Defined.

Lemma posts_consistent_same d d' :
  Database.posts d' = Database.posts d -> posts_consistent d -> posts_consistent d'.
Proof. unfold posts_consistent. intros ->. trivial. Qed.

Lemma posts_consistent_update pid s d :
  posts_consistent d -> posts_consistent (Database.update_post_status pid s d).
Proof.
  intros [Hk Hu]. unfold posts_consistent, Database.update_post_status.
  cbn [Database.posts].
  assert (Hl : forall k r, alter (Database.set_status s) pid (Database.posts d) !! k = Some r ->
                           exists r0, Database.posts d !! k = Some r0 /\
                                      Database.p_id r = Database.p_id r0 /\
                                      Database.p_url r = Database.p_url r0).
  { intros k r H. destruct (decide (pid = k)) as [->|Hne].
    - rewrite lookup_alter_eq in H. destruct (Database.posts d !! k) as [r0|]; [|discriminate].
      injection H as <-. exists r0. repeat split.
    - rewrite lookup_alter_ne in H by exact Hne. exists r. repeat split. exact H. }
  split.
  - intros k r H. destruct (Hl k r H) as (r0 & H0 & E & _). rewrite E. now apply Hk.
  - intros k1 k2 r1 r2 H1 H2 E.
    destruct (Hl k1 r1 H1) as (a1 & Ha1 & _ & E1).
    destruct (Hl k2 r2 H2) as (a2 & Ha2 & _ & E2).
    apply (Hu k1 k2 a1 a2 Ha1 Ha2). congruence.
Qed.

Lemma posts_consistent_insert ts p d :
  posts_consistent d -> posts_consistent (Database.insert_post ts p d).
Proof.
  intros [Hk Hu]. unfold Database.insert_post.
  destruct (id p) as [pid|]; [|split; assumption].
  destruct (Database.post_exists d pid) eqn:Hex; cbn [orb]; [split; assumption|].
  destruct (Database.url_exists d (url p)) eqn:Hurl; [split; assumption|].
  unfold Database.url_exists in Hurl. apply bool_decide_eq_false_1 in Hurl.
  assert (Hfresh : forall k r, Database.posts d !! k = Some r -> Database.p_url r <> url p).
  { intros k r H E. apply Hurl. exists k, r. split; assumption. }
  unfold posts_consistent. cbn [Database.posts]. split.
  - intros k r H. destruct (decide (pid = k)) as [<-|Hne].
    + rewrite lookup_insert_eq in H. injection H as <-. reflexivity.
    + rewrite lookup_insert_ne in H by exact Hne. now apply Hk.
  - intros k1 k2 r1 r2 H1 H2 E.
    destruct (decide (pid = k1)) as [<-|N1]; destruct (decide (pid = k2)) as [<-|N2];
      [reflexivity| | |].
    + rewrite lookup_insert_eq in H1. rewrite lookup_insert_ne in H2 by exact N2.
      injection H1 as <-. cbn in E. symmetry in E. now apply Hfresh in H2.
    + rewrite lookup_insert_eq in H2. rewrite lookup_insert_ne in H1 by exact N1.
      injection H2 as <-. cbn in E. now apply Hfresh in H1.
    + rewrite lookup_insert_ne in H1 by exact N1. rewrite lookup_insert_ne in H2 by exact N2.
      now apply (Hu k1 k2 r1 r2).
Qed.

Lemma posts_consistent_status_write d d' :
  status_write d d' -> posts_consistent d -> posts_consistent d'.
Proof.
  intros [E|(k & s & _ & E)] H.
  - now apply (posts_consistent_same d).
  - apply (posts_consistent_same (Database.update_post_status k s d)); [exact E|].
    now apply posts_consistent_update.
Qed.

Lemma step_posts_consistent int a b :
  posts_consistent (TelegramBot.db b) ->
  posts_consistent (TelegramBot.db (Approval.step int a b)).
Proof.
  intros H. destruct a; cbn [Approval.step].
  - eapply posts_consistent_status_write; [apply button_callback_status_write|exact H].
  - eapply posts_consistent_status_write; [apply handle_custom_comment_status_write|exact H].
  - exact H.
  - eapply posts_consistent_status_write; [apply _run_auto_post_status_write|exact H].
  - now apply posts_consistent_insert.
  - exact H.
  - exact H.
Qed.

(** X9. Whatever the reviewer presses or types, whatever the dispatcher
    reports and whatever the pipeline stores, every row of [posts] stays
    filed under its own id and no two rows ever share a url. *)
Theorem posts_stay_consistent :
  posts_consistent Database.empty /\
  (forall int actions b,
      posts_consistent (TelegramBot.db b) ->
      posts_consistent (TelegramBot.db (Approval.run int actions b))).
Proof.
  split.
  - split; intros *; cbn; rewrite lookup_empty; discriminate.
  - intros int actions. unfold Approval.run.
    induction actions as [|a actions IH]; intros b H; [exact H|].
    cbn [fold_left]. apply IH. now apply step_posts_consistent.
Qed.

Lemma posts_stay_consistent_witness :
  posts_consistent
    (TelegramBot.db
       (Approval.run no_int
          [Approval.Discovered 7200000000 (sample_post "1" 6000 7200000000);
           Approval.Discovered 7200000001 (same_url_post 7200000000);
           Approval.Press 7200000002 "skip|1" EmptyString]
          (TelegramBot.mkBot Database.empty None None []))).
Proof.
  apply (proj2 posts_stay_consistent no_int
           [Approval.Discovered 7200000000 (sample_post "1" 6000 7200000000);
            Approval.Discovered 7200000001 (same_url_post 7200000000);
            Approval.Press 7200000002 "skip|1" EmptyString]
           (TelegramBot.mkBot Database.empty None None [])).
  exact (proj1 posts_stay_consistent).
Defined.

(** ** Comments and approvals *)

Lemma find_snoc {A} (f : A -> bool) l x :
  List.find f (l ++ [x])
  = match List.find f l with
    | Some y => Some y
    | None => if f x then Some x else None
    end.
Proof.
  induction l as [|a l IH]; cbn [List.find app]; [reflexivity|].
  destruct (f a); [reflexivity|exact IH].
Qed.

Lemma numbered_find_fresh d :
  comments_numbered d ->
  List.find (fun r => Database.c_id r =? Z.of_nat (length (Database.comments d)) + 1)
            (Database.comments d) = None.
Proof.
  intros Hn. destruct (List.find _ _) as [r|] eqn:E; [|reflexivity].
  apply find_some in E as [Hin He]. apply Z.eqb_eq in He.
  apply list_elem_of_In, list_elem_of_lookup in Hin as [i Hi].
  pose proof (lookup_lt_Some _ _ _ Hi) as Hlt. rewrite (Hn i r Hi) in He. lia.
Qed.

Lemma insert_comment_numbered ts pid ty txt iss d :
  comments_numbered d ->
  comments_numbered (fst (Database.insert_comment ts pid ty txt iss d)).
Proof.
  intros Hn i row. unfold Database.insert_comment. cbn [fst Database.comments].
  intros H. apply lookup_app_Some in H as [H|[Hlen H]]; [now apply Hn|].
  destruct (i - length (Database.comments d))%nat as [|k] eqn:Ek; [|discriminate].
  cbn in H. injection H as <-. cbn [Database.c_id]. lia.
Qed.

(** X10. The id [insert_comment] returns retrieves the comment just
    inserted, with the fields that were given; every comment that could be
    retrieved before is retrieved unchanged; and the comments of the post
    are the former ones followed by the new one. *)
Theorem insert_comment_then_get :
  forall ts pid ty txt iss d,
    comments_numbered d ->
    Database.get_comment (fst (Database.insert_comment ts pid ty txt iss d))
      (snd (Database.insert_comment ts pid ty txt iss d))
    = Some (Database.mkCommentRow (snd (Database.insert_comment ts pid ty txt iss d))
              pid ty txt ts iss) /\
    (forall c row, Database.get_comment d c = Some row ->
                   Database.get_comment (fst (Database.insert_comment ts pid ty txt iss d)) c
                   = Some row) /\
    Database.get_comments_for_post (fst (Database.insert_comment ts pid ty txt iss d)) pid
    = Database.get_comments_for_post d pid
      ++ [Database.mkCommentRow (snd (Database.insert_comment ts pid ty txt iss d))
            pid ty txt ts iss] /\
    comments_numbered (fst (Database.insert_comment ts pid ty txt iss d)).
Proof.
  intros ts pid ty txt iss d Hn. split; [|split; [|split]].
  - unfold Database.get_comment, Database.insert_comment. cbn [fst snd Database.comments].
    rewrite find_snoc, (numbered_find_fresh d Hn). cbn [Database.c_id].
    rewrite Z.eqb_refl. reflexivity.
  - intros c row H. unfold Database.get_comment, Database.insert_comment in *.
    cbn [fst Database.comments]. rewrite find_snoc, H. reflexivity.
  - unfold Database.get_comments_for_post, Database.insert_comment.
    cbn [fst snd Database.comments]. rewrite List.filter_app. cbn [List.filter].
    cbn [Database.c_post_id]. rewrite String.eqb_refl. reflexivity.
  - now apply insert_comment_numbered.
Qed.

Lemma insert_comment_then_get_witness :
  Database.get_comment
    (fst (Database.insert_comment 7200000003 "1" "expand" "Retrieval needs evaluation" []
            sample_db))
    (snd (Database.insert_comment 7200000003 "1" "expand" "Retrieval needs evaluation" []
            sample_db))
  = Some (Database.mkCommentRow
            (snd (Database.insert_comment 7200000003 "1" "expand"
                    "Retrieval needs evaluation" [] sample_db))
            "1" "expand" "Retrieval needs evaluation" 7200000003 []).
Proof.
  apply (proj1 (insert_comment_then_get 7200000003 "1" "expand"
                  "Retrieval needs evaluation" [] sample_db
                  (insert_comment_numbered 7200000000 "1" "challenge"
                     "Distillation keeps the reasoning of the model" []
                     (Database.insert_post 7200000000 (sample_post "1" 6000 7200000000)
                        Database.empty)
                     ltac:(intros i row H; destruct i; discriminate)))).
Defined.

Lemma comment_map_get_elem d pid tone row :
  TelegramBot.comment_map_get (Database.get_comments_for_post d pid) tone = Some row ->
  row ∈ Database.comments d /\ Database.c_post_id row = pid /\
  Database.comment_type row = tone.
Proof.
  unfold TelegramBot.comment_map_get, Database.get_comments_for_post. intros H.
  apply find_some in H as [Hin Hty]. apply in_rev, filter_In in Hin as [Hin Hp].
  apply String.eqb_eq in Hp. apply String.eqb_eq in Hty.
  split; [now apply list_elem_of_In|]. split; assumption.
Qed.

Lemma linked_same d d' :
  Database.comments d' = Database.comments d ->
  Database.approvals d' = Database.approvals d ->
  approvals_linked d -> approvals_linked d'.
Proof. unfold approvals_linked. intros -> ->. trivial. Qed.

Lemma linked_insert_approval ts pid cid chosen custom d row :
  row ∈ Database.comments d -> Database.c_id row = cid -> Database.c_post_id row = pid ->
  approvals_linked d ->
  approvals_linked (fst (Database.insert_approval ts pid cid chosen custom d)).
Proof.
  intros Hin Hc Hp Hl a Ha. unfold Database.insert_approval in Ha.
  cbn [fst Database.approvals Database.comments] in *.
  apply elem_of_app in Ha as [Ha|Ha]; [now apply Hl|].
  apply list_elem_of_singleton in Ha. subst a. exists row. repeat split; assumption.
Qed.

Lemma linked_insert_comment ts pid ty txt iss d :
  approvals_linked d ->
  approvals_linked (fst (Database.insert_comment ts pid ty txt iss d)).
Proof.
  intros Hl a Ha. unfold Database.insert_comment in *.
  cbn [fst Database.approvals Database.comments] in *.
  destruct (Hl a Ha) as (row & Hin & H). exists row. split; [|exact H].
  apply elem_of_app. now left.
Qed.

Lemma linked_mark_posted ts aid d :
  approvals_linked d -> approvals_linked (Database.mark_posted ts aid d).
Proof.
  intros Hl a Ha. unfold Database.mark_posted in *.
  cbn [Database.approvals Database.comments] in *.
  apply list_elem_of_In, in_map_iff in Ha as (a0 & E & Ha0).
  apply list_elem_of_In in Ha0. destruct (Hl a0 Ha0) as (row & Hin & H1 & H2).
  exists row. split; [exact Hin|].
  destruct (Database.a_id a0 =? aid); subst a; cbn; split; assumption.
Qed.

Lemma button_callback_linked int ts data msg b :
  approvals_linked (TelegramBot.db b) ->
  approvals_linked (TelegramBot.db (fst (TelegramBot.button_callback int ts data msg b))).
Proof.
  intros H. unfold TelegramBot.button_callback, Database.add_to_watchlist,
    TelegramBot._add_to_accounts_json, TelegramBot.with_db.
  repeat case_match; simplify_eq; cbn [fst TelegramBot.db];
    try exact H;
    try (eapply linked_same; [| |exact H]; reflexivity);
    match goal with
    | Hc : TelegramBot.comment_map_get _ _ = Some ?row,
      Hi : Database.insert_approval ?ts ?pid ?cid ?ch ?cu ?d0 = (?d1, _) |- _ =>
        apply comment_map_get_elem in Hc as (Hin & Hp & _);
        apply (linked_same (fst (Database.insert_approval ts pid cid ch cu d0)));
        [rewrite Hi; reflexivity | rewrite Hi; reflexivity |];
        apply (linked_insert_approval ts pid cid ch cu d0 row Hin eq_refl Hp H)
    end.
Qed.

Lemma handle_custom_comment_linked ts msg b :
  approvals_linked (TelegramBot.db b) ->
  approvals_linked (TelegramBot.db (fst (TelegramBot.handle_custom_comment ts msg b))).
Proof.
  intros H. unfold TelegramBot.handle_custom_comment.
  repeat case_match; simplify_eq; cbn [fst TelegramBot.db]; try exact H.
  match goal with
  | Hc : Database.insert_comment ?ts ?pid ?ty ?txt ?iss ?d0 = (?d1, ?cid),
    Hi : Database.insert_approval ?ts ?pid ?cid ?ch ?cu ?d1 = (?d2, _) |- _ =>
      apply (linked_same (fst (Database.insert_approval ts pid cid ch cu d1)));
      [rewrite Hi; reflexivity | rewrite Hi; reflexivity |];
      apply (linked_insert_approval ts pid cid ch cu d1
               (Database.mkCommentRow cid pid ty txt ts iss));
      [ | reflexivity | reflexivity | ];
      [ unfold Database.insert_comment in Hc; injection Hc as <- <-;
        cbn [Database.comments]; apply elem_of_app; right; left
      | replace d1 with (fst (Database.insert_comment ts pid ty txt iss d0))
          by (rewrite Hc; reflexivity);
        now apply linked_insert_comment ]
  end.
Qed.

Lemma _run_auto_post_linked success ts url comment pid aid tone d :
  approvals_linked d ->
  approvals_linked (fst (TelegramBot._run_auto_post success ts url comment pid aid tone d)).
Proof.
  intros H. unfold TelegramBot._run_auto_post.
  repeat case_match; cbn [fst]; try exact H;
    (eapply linked_same; [| |apply (linked_mark_posted ts aid d H)]; reflexivity).
Qed.

Lemma step_linked int a b :
  approvals_linked (TelegramBot.db b) ->
  approvals_linked (TelegramBot.db (Approval.step int a b)).
Proof.
  intros H. destruct a; cbn [Approval.step TelegramBot.with_db TelegramBot.db fst
                             TelegramBot.cmd_cancel].
  - now apply button_callback_linked.
  - now apply handle_custom_comment_linked.
  - exact H.
  - now apply _run_auto_post_linked.
  - eapply linked_same; [| |exact H]; unfold Database.insert_post;
      repeat case_match; reflexivity.
  - now apply linked_insert_comment.
  - exact H.
Qed.

(** X11. Every approval the control channel writes names a stored
    comment of the approved post: the property holds of the empty store and
    is kept by every button press, message, dispatch result and pipeline
    write. *)
Theorem approvals_stay_linked :
  approvals_linked Database.empty /\
  (forall int actions b,
      approvals_linked (TelegramBot.db b) ->
      approvals_linked (TelegramBot.db (Approval.run int actions b))).
Proof.
  split.
  - intros a Ha. now apply elem_of_nil in Ha.
  - intros int actions. unfold Approval.run.
    induction actions as [|a actions IH]; intros b H; [exact H|].
    cbn [fold_left]. apply IH. now apply step_linked.
Qed.

Lemma approvals_stay_linked_witness :
  approvals_linked
    (TelegramBot.db
       (Approval.run no_int
          [Approval.Discovered 7200000000 (sample_post "1" 6000 7200000000);
           Approval.Generated 7200000000 "1" "challenge"
             "Distillation keeps the reasoning of the model" [];
           Approval.Press 7200000002 "auto_challenge|1" EmptyString;
           Approval.Press 7200000003 "edit|1" EmptyString;
           Approval.Message 7200000004 "  my own words  "]
          (TelegramBot.mkBot Database.empty None None []))).
Proof.
  apply (proj2 approvals_stay_linked no_int
           [Approval.Discovered 7200000000 (sample_post "1" 6000 7200000000);
            Approval.Generated 7200000000 "1" "challenge"
              "Distillation keeps the reasoning of the model" [];
            Approval.Press 7200000002 "auto_challenge|1" EmptyString;
            Approval.Press 7200000003 "edit|1" EmptyString;
            Approval.Message 7200000004 "  my own words  "]
           (TelegramBot.mkBot Database.empty None None [])).
  exact (proj1 approvals_stay_linked).
Defined.


(** ** The watch list *)


Lemma add_to_watchlist_tracked handle d :
  is_Some (Database.account_checks (fst (Database.add_to_watchlist handle d)) !! handle).
Proof.
  unfold Database.add_to_watchlist.
  destruct (Database.account_checks d !! handle) as [o|] eqn:E; cbn [fst].
  - rewrite E. eexists; reflexivity.
  - cbn [Database.account_checks]. rewrite lookup_insert_eq. eexists; reflexivity.
Qed.

Lemma add_to_watchlist_again handle d :
  Database.add_to_watchlist handle (fst (Database.add_to_watchlist handle d))
  = (fst (Database.add_to_watchlist handle d), false).
Proof.
  destruct (add_to_watchlist_tracked handle d) as [o Ho].
  unfold Database.add_to_watchlist at 1. rewrite Ho. reflexivity.
Qed.



Lemma _add_to_accounts_json_listed handle accounts :
  existsb (fun a => String.eqb (Str.lower (Scraper.handle a)) (Str.lower handle))
    (fst (TelegramBot._add_to_accounts_json handle accounts)) = true.
Proof.
  unfold TelegramBot._add_to_accounts_json.
  destruct (existsb _ accounts) eqn:E; cbn [fst]; [exact E|].
  rewrite existsb_app. cbn [existsb Scraper.handle].
  rewrite String.eqb_refl. rewrite orb_true_r. reflexivity.
Qed.

Lemma _add_to_accounts_json_again handle accounts :
  TelegramBot._add_to_accounts_json handle
    (fst (TelegramBot._add_to_accounts_json handle accounts))
  = (fst (TelegramBot._add_to_accounts_json handle accounts), false).
Proof.
  unfold TelegramBot._add_to_accounts_json at 1.
  rewrite _add_to_accounts_json_listed. reflexivity.
Qed.

Lemma watch_press int ts data m b post_id r :
  Str.split_once "|" data = Some ("watch", post_id) ->
  Database.get_post (TelegramBot.db b) post_id = Some r ->
  Database.p_author_handle r <> EmptyString ->
  fst (TelegramBot.button_callback int ts data m b)
  = TelegramBot.mkBot
      (fst (Database.add_to_watchlist (Database.p_author_handle r) (TelegramBot.db b)))
      (TelegramBot.editing_post_id b) (TelegramBot.pending_search_topic b)
      (fst (TelegramBot._add_to_accounts_json (Database.p_author_handle r)
              (TelegramBot.accounts_json b))).
Proof.
  intros Hsplit Hpost Hh. unfold TelegramBot.button_callback.
  rewrite Hsplit. cbn [String.eqb Ascii.eqb Bool.eqb andb].
  rewrite Hpost.
  change (Str.startswith "watch" "manual_") with false.
  change (Str.startswith "watch" "auto_") with false. cbv iota.
  destruct (String.eqb_spec (Database.p_author_handle r) EmptyString) as [E|_];
    [contradiction|].
  destruct (TelegramBot._add_to_accounts_json _ _) as [accounts added].
  destruct (Database.add_to_watchlist _ _) as [d' o]. reflexivity.
Qed.

(** X13. Pressing the watch button of a stored post whose author handle
    is known leaves the posts, comments and approvals of the store, the
    edit mode and the pending search as they are; afterwards the author
    is tracked in [account_checks] and listed in accounts.json (compared
    in lower case), and pressing the button again changes nothing. *)
Theorem watch_button_idempotent :
  forall int ts ts' data m m' b post_id r,
    Str.split_once "|" data = Some ("watch", post_id) ->
    Database.get_post (TelegramBot.db b) post_id = Some r ->
    Database.p_author_handle r <> EmptyString ->
    let b1 := fst (TelegramBot.button_callback int ts data m b) in
    Database.posts (TelegramBot.db b1) = Database.posts (TelegramBot.db b) /\
    Database.comments (TelegramBot.db b1) = Database.comments (TelegramBot.db b) /\
    Database.approvals (TelegramBot.db b1) = Database.approvals (TelegramBot.db b) /\
    TelegramBot.editing_post_id b1 = TelegramBot.editing_post_id b /\
    TelegramBot.pending_search_topic b1 = TelegramBot.pending_search_topic b /\
    is_Some (Database.account_checks (TelegramBot.db b1) !! Database.p_author_handle r) /\
    existsb (fun a => String.eqb (Str.lower (Scraper.handle a))
                                 (Str.lower (Database.p_author_handle r)))
            (TelegramBot.accounts_json b1) = true /\
    fst (TelegramBot.button_callback int ts' data m' b1) = b1.
Proof.
  intros int ts ts' data m m' b post_id r Hsplit Hpost Hh b1.
  assert (E1 : b1 = TelegramBot.mkBot
      (fst (Database.add_to_watchlist (Database.p_author_handle r) (TelegramBot.db b)))
      (TelegramBot.editing_post_id b) (TelegramBot.pending_search_topic b)
      (fst (TelegramBot._add_to_accounts_json (Database.p_author_handle r)
              (TelegramBot.accounts_json b))))
    by (subst b1; apply (watch_press int ts data m b post_id r Hsplit Hpost Hh)).
  assert (Hposts : Database.posts (TelegramBot.db b1) = Database.posts (TelegramBot.db b)).
  { rewrite E1. cbn [TelegramBot.db]. unfold Database.add_to_watchlist.
    destruct (Database.account_checks _ !! _); reflexivity. }
  split; [exact Hposts|].
  split.
  { rewrite E1. cbn [TelegramBot.db]. unfold Database.add_to_watchlist.
    destruct (Database.account_checks _ !! _); reflexivity. }
  split.
  { rewrite E1. cbn [TelegramBot.db]. unfold Database.add_to_watchlist.
    destruct (Database.account_checks _ !! _); reflexivity. }
  split; [rewrite E1; reflexivity|]. split; [rewrite E1; reflexivity|].
  split; [rewrite E1; apply add_to_watchlist_tracked|].
  split; [rewrite E1; apply _add_to_accounts_json_listed|].
  assert (Hpost1 : Database.get_post (TelegramBot.db b1) post_id = Some r)
    by (unfold Database.get_post in *; rewrite Hposts; exact Hpost).
  rewrite (watch_press int ts' data m' b1 post_id r Hsplit Hpost1 Hh).
  rewrite E1 at 1 2 3 4. cbn [TelegramBot.db TelegramBot.editing_post_id
    TelegramBot.pending_search_topic TelegramBot.accounts_json].
  rewrite add_to_watchlist_again, _add_to_accounts_json_again. cbn [fst].
  symmetry. exact E1.
Qed.

Lemma watch_button_idempotent_witness :
  fst (TelegramBot.button_callback no_int 7200000003 "watch|1" "again"
         (fst (TelegramBot.button_callback no_int 7200000002 "watch|1" "post" sample_bot)))
  = fst (TelegramBot.button_callback no_int 7200000002 "watch|1" "post" sample_bot).
Proof.
  destruct (Database.get_post (TelegramBot.db sample_bot) "1") as [r|] eqn:Hr;
    [|vm_compute in Hr; discriminate].
  refine (proj2 (proj2 (proj2 (proj2 (proj2 (proj2 (proj2
    (watch_button_idempotent no_int 7200000002 7200000003 "watch|1" "post" "again"
       sample_bot "1" r _ Hr _)))))))).
  - reflexivity.
  - vm_compute in Hr. injection Hr as <-. discriminate.
Defined.


(** ** The validator *)

Lemma prefix_app_inv a b :
  forall s, String.prefix (a +:+ b) s = true ->
            exists r, s = a +:+ r /\ String.prefix b r = true.
Proof.
  induction a as [|c a IH]; intros s H.
  - exists s. split; [reflexivity|exact H].
  - destruct s as [|c' s]; simpl in H; [discriminate|].
    destruct (ascii_dec c c') as [<-|_]; [|discriminate].
    destruct (IH s H) as (r & -> & Hr). exists r. split; [reflexivity|exact Hr].
Qed.

Lemma prefix_contains sub s : String.prefix sub s = true -> Str.contains sub s = true.
Proof. intros H. destruct s; cbn [Str.contains]; rewrite H; reflexivity. Qed.

Lemma contains_cons sub c s :
  Str.contains sub s = true -> Str.contains sub (String c s) = true.
Proof.
  intros H.
  change (Str.contains sub (String c s))
    with (String.prefix sub (String c s) || Str.contains sub s).
  rewrite H. apply orb_true_r.
Qed.

Lemma contains_suffix a b s :
  Str.contains (a +:+ b) s = true -> Str.contains b s = true.
Proof.
  assert (Hp : forall s, String.prefix (a +:+ b) s = true -> Str.contains b s = true).
  { intros s0 H. destruct (prefix_app_inv a b s0 H) as (r & -> & Hr).
    apply contains_append_r, prefix_contains, Hr. }
  induction s as [|c s IH]; intros H.
  - apply Hp. cbn [Str.contains] in H. now rewrite orb_false_r in H.
  - change (Str.contains (a +:+ b) (String c s))
      with (String.prefix (a +:+ b) (String c s) || Str.contains (a +:+ b) s) in H.
    apply orb_true_iff in H as [H|H]; [now apply Hp|].
    apply contains_cons, IH, H.
Qed.

Lemma find_existsb {A} (f : A -> bool) l :
  existsb f l = match List.find f l with Some _ => true | None => false end.
Proof.
  induction l as [|x l IH]; cbn [existsb List.find]; [reflexivity|].
  destruct (f x); [reflexivity|exact IH].
Qed.

(** The issues of a comment, check by check. *)
Lemma validate_comment_issues comment :
  snd (Generator.validate_comment comment)
  = (if (Str.len comment <? 150)%nat
     then ["Too short (" +:+ str_of_nat (Str.len comment) +:+
           " chars — target 200–280)"]
     else []) ++
    (if (280 <? Str.len comment)%nat
     then ["Over Twitter limit (" +:+ str_of_nat (Str.len comment) +:+
           "/280 chars)"]
     else []) ++
    (match List.find (fun phrase => Str.contains phrase (Str.lower comment))
                     Generator.GENERIC_OPENERS with
     | Some phrase => ["Generic opener: '" +:+ phrase +:+ "'"]
     | None => []
     end) ++
    (if forced_mention comment then ["Forced library mention"] else []) ++
    (if has_depth comment then [] else ["No technical depth (no domain terms)"]).
Proof.
  assert (Hf : (if Str.contains "afterburn" (Str.lower comment)
                then forced_mention comment else false) = forced_mention comment).
  { destruct (Str.contains "afterburn" (Str.lower comment)) eqn:E; [reflexivity|].
    unfold forced_mention. symmetry. apply orb_false_iff. split.
    - destruct (Str.contains "check out afterburn" (Str.lower comment)) eqn:E1;
        [|reflexivity].
      apply (contains_suffix "check out " "afterburn") in E1. congruence.
    - destruct (Str.contains "try afterburn" (Str.lower comment)) eqn:E1;
        [|reflexivity].
      apply (contains_suffix "try " "afterburn") in E1. congruence. }
  unfold Generator.validate_comment. cbv zeta. cbn [snd].
  fold (has_depth comment).
  change (Str.contains "check out afterburn" (Str.lower comment)
          || Str.contains "try afterburn" (Str.lower comment))
    with (forced_mention comment).
  destruct (Str.len comment <? 150)%nat, (280 <? Str.len comment)%nat,
    (List.find _ Generator.GENERIC_OPENERS),
    (Str.contains "afterburn" (Str.lower comment)), (forced_mention comment),
    (has_depth comment); first [reflexivity|discriminate Hf].
Qed.

Lemma validate_comment_valid comment :
  fst (Generator.validate_comment comment)
  = (length (snd (Generator.validate_comment comment)) =? 0)%nat.
Proof. reflexivity. Qed.

(** X14. [validate_comment] accepts a comment exactly when its length
    is between 150 and 280 characters (code points, whatever the number
    of bytes of their encoding), no generic opener occurs in it, it
    does not tell the reader to check out or try the library, and a
    domain term occurs in it (all compared in lower case); it accepts
    exactly when it reports no issue, and it reports at most four
    issues, the two length issues never together. *)
Theorem validate_comment_checks :
  forall comment,
    (fst (Generator.validate_comment comment) = true
     <-> (150 <= Str.len comment <= 280)%nat /\
         generic_opener comment = false /\
         forced_mention comment = false /\
         has_depth comment = true) /\
    (fst (Generator.validate_comment comment) = true
     <-> snd (Generator.validate_comment comment) = []) /\
    (length (snd (Generator.validate_comment comment)) <= 4)%nat.
Proof.
  intros comment. rewrite validate_comment_valid, validate_comment_issues.
  unfold generic_opener, Str.any_in. rewrite find_existsb.
  destruct (Nat.ltb_spec (Str.len comment) 150) as [H1|H1];
    destruct (Nat.ltb_spec 280 (Str.len comment)) as [H2|H2];
    destruct (List.find _ Generator.GENERIC_OPENERS);
    destruct (forced_mention comment); destruct (has_depth comment);
    cbn [app length Nat.eqb];
    (split; [|split]; [| |lia]);
    (split; [intros H; try discriminate; repeat split; first [lia|reflexivity]
            |intros H; try reflexivity; try discriminate;
             destruct H as ([? ?] & ? & ? & ?); first [discriminate|lia]]).
Qed.

Lemma validate_comment_checks_witness :
  fst (Generator.validate_comment good_comment) = true /\
  (fst (Generator.validate_comment dashed_comment) = true /\
   Str.len dashed_comment = 240%nat /\ String.length dashed_comment = 322%nat).
Proof.
  split; [|split; [|split; reflexivity]].
  - apply (proj1 (validate_comment_checks good_comment)).
    split; [vm_compute; lia|vm_compute; repeat split].
  - apply (proj1 (validate_comment_checks dashed_comment)).
    split; [vm_compute; lia|vm_compute; repeat split].
Defined.

(** ** The four tones *)

Lemma tone_calls_length backend cfg prompt :
  (1 <= length (Fallback.tone_calls backend cfg prompt) <= 2)%nat.
Proof.
  unfold Fallback.tone_calls. destruct (backend _); cbn [length]; lia.
Qed.

Lemma tone_calls_requests backend cfg prompt c :
  c ∈ Fallback.tone_calls backend cfg prompt ->
  exists p, c = Fallback.request cfg p prompt.
Proof.
  unfold Fallback.tone_calls. intros H.
  destruct (backend _).
  - apply list_elem_of_singleton in H as ->. eexists; reflexivity.
  - apply elem_of_cons in H as [->|H]; [eexists; reflexivity|].
    apply list_elem_of_singleton in H as ->. eexists; reflexivity.
Qed.

Lemma generate_comments_log backend fp post cfg :
  snd (Generator.generate_comments backend fp post cfg)
  = concat (List.map (fun tone => Fallback.tone_calls backend cfg (fp tone post))
                     Generator.TONES).
Proof.
  unfold Generator.generate_comments, Generator.TONES.
  cbn [Generator.generate_loop List.map concat]. unfold Generator.bind.
  rewrite !generate_one_result. cbn [snd Generator.ret app].
  rewrite <- ?app_assoc, ?app_nil_r. reflexivity.
Qed.

Lemma tone_result_source backend cfg prompt text issues :
  Fallback.tone_result backend cfg prompt = (text, issues) ->
  text <> EmptyString ->
  exists p, backend (Fallback.request cfg p prompt) = Ok text /\
            issues = snd (Generator.validate_comment text).
Proof.
  unfold Fallback.tone_result. intros H Hne.
  destruct (backend (Fallback.request cfg (Fallback.primary cfg) prompt)) as [t|e] eqn:E1.
  - injection H as <- <-. exists (Fallback.primary cfg). split; [exact E1|reflexivity].
  - destruct (backend (Fallback.request cfg (Fallback.secondary cfg) prompt))
      as [t|e2] eqn:E2.
    + injection H as <- <-. exists (Fallback.secondary cfg).
      split; [exact E2|reflexivity].
    + injection H as <- _. contradiction.
Qed.

(** X15. Whatever the providers answer, [generate_comments] returns one
    entry for each of the four tones, in the order challenge, expand,
    nuanced, question; it sends between four and eight requests, the
    requests of the tones one after the other, each for the prompt of its
    tone with the model, temperature and token limit of the
    configuration; and a text it returns that is not empty is what a
    provider answered to the prompt of that tone, with the issues the
    validator finds in it. *)
Theorem generate_comments_four_tones :
  forall backend fp post cfg,
    List.map fst (fst (Generator.generate_comments backend fp post cfg))
    = Generator.TONES /\
    snd (Generator.generate_comments backend fp post cfg)
    = concat (List.map (fun tone => Fallback.tone_calls backend cfg (fp tone post))
                       Generator.TONES) /\
    (4 <= length (snd (Generator.generate_comments backend fp post cfg)) <= 8)%nat /\
    (forall c,
        c ∈ snd (Generator.generate_comments backend fp post cfg) ->
        exists tone p, c = Fallback.request cfg p (fp tone post)) /\
    (forall tone text issues,
        (tone, (text, issues)) ∈ fst (Generator.generate_comments backend fp post cfg) ->
        text <> EmptyString ->
        exists p, backend (Fallback.request cfg p (fp tone post)) = Ok text /\
                  issues = snd (Generator.validate_comment text)).
Proof.
  intros backend fp post cfg.
  rewrite generate_comments_results, generate_comments_log.
  split; [reflexivity|]. split; [reflexivity|]. split; [|split].
  - unfold Generator.TONES. cbn [List.map concat]. rewrite !length_app.
    pose proof (tone_calls_length backend cfg (fp Generator.challenge post)).
    pose proof (tone_calls_length backend cfg (fp Generator.expand post)).
    pose proof (tone_calls_length backend cfg (fp Generator.nuanced post)).
    pose proof (tone_calls_length backend cfg (fp Generator.question post)).
    cbn [length]. lia.
  - intros c Hc. apply list_elem_of_In, in_concat in Hc as (l & Hl & Hc).
    apply in_map_iff in Hl as (tone & <- & _).
    apply list_elem_of_In, tone_calls_requests in Hc as [p ->].
    exists tone, p. reflexivity.
  - intros tone text issues Hin Hne.
    apply list_elem_of_In, in_map_iff in Hin as (tone' & Heq & _).
    injection Heq as -> Hres. now apply (tone_result_source backend cfg _ text issues).
Qed.

Lemma generate_comments_four_tones_witness :
  exists p,
    Fallback.gemini_only ["expand: RLHF is dead"]
      (Fallback.request Generator.default_config p
         (Fallback.sample_prompt Generator.expand (sample_post "1" 6000 7200000000)))
    = Ok "Distillation keeps the reasoning of the model" /\
    ["Too short (45 chars — target 200–280)"]
    = snd (Generator.validate_comment "Distillation keeps the reasoning of the model").
Proof.
  apply (proj2 (proj2 (proj2 (proj2
           (generate_comments_four_tones
              (Fallback.gemini_only ["expand: RLHF is dead"]) Fallback.sample_prompt
              (sample_post "1" 6000 7200000000) Generator.default_config))))
           Generator.expand).
  - vm_compute. right. left.
  - discriminate.
Defined.


(** ** What discovery collects *)

Lemma discover_loop_found sk seen keywords :
  forall k all_posts,
    Scraper.discover_loop sk k keywords seen all_posts
    = all_posts ++ concat (imap (fun i => found sk seen (k + i)) keywords).
Proof.
  induction keywords as [|kw rest IH]; intros k all_posts;
    cbn [Scraper.discover_loop].
  - cbn. now rewrite app_nil_r.
  - rewrite imap_cons. cbn [concat]. unfold found at 1. rewrite Nat.add_0_r.
    assert (E : imap ((fun i => found sk seen (k + i)) ∘ S) rest
                = imap (fun i => found sk seen (S k + i)) rest).
    { apply imap_ext. intros i x _. cbn. f_equal. lia. }
    rewrite E. destruct (sk k kw) as [posts|e]; rewrite IH.
    + now rewrite <- app_assoc.
    + reflexivity.
Qed.

(** X16. [discover_posts_by_topic] returns, keyword after keyword in
    the order of the list, the posts of each search whose id is not in
    [seen_ids]; a keyword whose search raises contributes nothing and
    does not stop the keywords after it. So every returned post is an
    unseen post of a search that succeeded, and every unseen post of a
    search that succeeded is returned. *)
Theorem discover_posts_by_topic_collects :
  forall sk keywords seen,
    Scraper.discover_posts_by_topic sk keywords seen
    = concat (imap (found sk seen) keywords) /\
    (forall p,
        p ∈ Scraper.discover_posts_by_topic sk keywords seen ->
        Scraper.not_seen seen p = true /\
        exists k kw posts,
          keywords !! k = Some kw /\ sk k kw = Ok posts /\ p ∈ posts) /\
    (forall k kw posts p,
        keywords !! k = Some kw -> sk k kw = Ok posts -> p ∈ posts ->
        Scraper.not_seen seen p = true ->
        p ∈ Scraper.discover_posts_by_topic sk keywords seen).
Proof.
  intros sk keywords seen.
  assert (E : Scraper.discover_posts_by_topic sk keywords seen
              = concat (imap (found sk seen) keywords)).
  { unfold Scraper.discover_posts_by_topic. rewrite discover_loop_found.
    cbn [app]. f_equal. }
  split; [exact E|]. rewrite E. split.
  - intros p Hp. apply list_elem_of_In, in_concat in Hp as (l & Hl & Hp).
    apply list_elem_of_In, elem_of_lookup_imap_1 in Hl as (k & kw & -> & Hk).
    unfold found in Hp. destruct (sk k kw) as [posts|e] eqn:Hs; [|destruct Hp].
    apply filter_In in Hp as [Hp Hn]. split; [exact Hn|].
    exists k, kw, posts. split; [exact Hk|]. split; [exact Hs|].
    now apply list_elem_of_In.
  - intros k kw posts p Hk Hs Hp Hn.
    apply list_elem_of_In, in_concat. exists (found sk seen k kw). split.
    + apply list_elem_of_In. now apply elem_of_lookup_imap_2.
    + unfold found. rewrite Hs. apply filter_In. split; [|exact Hn].
      now apply list_elem_of_In.
Qed.

Lemma discover_posts_by_topic_collects_witness :
  sample_post "rlhf" 6000 7200000000
  ∈ Scraper.discover_posts_by_topic (flaky_search 7200000000) ["down"; "rlhf"] ∅.
Proof.
  apply (proj2 (proj2 (discover_posts_by_topic_collects
                         (flaky_search 7200000000) ["down"; "rlhf"] ∅))
           1%nat "rlhf" [sample_post "rlhf" 6000 7200000000]).
  - reflexivity.
  - reflexivity.
  - left.
  - reflexivity.
Defined.

(** ** What the account monitor collects *)

Lemma check_loop_from_account sp ct now seen all :
  forall accounts k w,
    (forall i acct, accounts !! i = Some acct -> all !! (k + i)%nat = Some acct) ->
    (forall p, p ∈ Scraper.all_posts w -> from_account sp seen all p) ->
    forall p,
      p ∈ Scraper.all_posts (Scraper.check_loop sp ct now seen k accounts w) ->
      from_account sp seen all p.
Proof.
  induction accounts as [|acct rest IH]; intros k w Hall Hw p Hp;
    cbn [Scraper.check_loop] in Hp; [now apply Hw|].
  apply (IH (S k) (Scraper.check_account sp ct now seen k acct w)); [| |exact Hp].
  - intros i a Hi. replace (S k + i)%nat with (k + S i)%nat by lia.
    apply Hall. exact Hi.
  - intros q Hq. unfold Scraper.check_account in Hq.
    destruct (Scraper.skips now (Scraper.store w) acct); [now apply Hw|].
    destruct (sp k (Scraper.handle acct)) as [posts|e] eqn:Hs; [|now apply Hw].
    cbn [Scraper.all_posts] in Hq. apply elem_of_app in Hq as [Hq|Hq];
      [now apply Hw|].
    apply list_elem_of_In, in_map_iff in Hq as (q0 & <- & Hq0).
    apply filter_In in Hq0 as [Hq0 Hn].
    exists k, acct, posts, q0. split.
    + specialize (Hall O acct eq_refl). now rewrite Nat.add_0_r in Hall.
    + split; [exact Hs|]. split; [now apply list_elem_of_In|].
      split; [exact Hn|reflexivity].
Qed.

Lemma check_account_frame sp ct now seen k acct w :
  Database.comments (Scraper.store (Scraper.check_account sp ct now seen k acct w))
  = Database.comments (Scraper.store w) /\
  Database.approvals (Scraper.store (Scraper.check_account sp ct now seen k acct w))
  = Database.approvals (Scraper.store w) /\
  (forall h,
      h <> Scraper.handle acct ->
      Database.account_checks
        (Scraper.store (Scraper.check_account sp ct now seen k acct w)) !! h
      = Database.account_checks (Scraper.store w) !! h).
Proof.
  unfold Scraper.check_account.
  destruct (Scraper.skips now (Scraper.store w) acct);
    [|destruct (sp k (Scraper.handle acct)) as [posts|e]];
    cbn [Scraper.store]; (split; [reflexivity|]); (split; [reflexivity|]);
    intros h Hh; try reflexivity.
  unfold Database.update_last_check_time. cbn [Database.account_checks].
  rewrite lookup_insert_ne by (intros E; apply Hh; now rewrite E). reflexivity.
Qed.

Lemma check_loop_frame sp ct now seen accounts :
  forall k w,
    Database.comments (Scraper.store (Scraper.check_loop sp ct now seen k accounts w))
    = Database.comments (Scraper.store w) /\
    Database.approvals (Scraper.store (Scraper.check_loop sp ct now seen k accounts w))
    = Database.approvals (Scraper.store w) /\
    (forall h,
        h ∉ List.map Scraper.handle accounts ->
        Database.account_checks
          (Scraper.store (Scraper.check_loop sp ct now seen k accounts w)) !! h
        = Database.account_checks (Scraper.store w) !! h).
Proof.
  induction accounts as [|acct rest IH]; intros k w; cbn [Scraper.check_loop].
  - repeat split; reflexivity.
  - destruct (IH (S k) (Scraper.check_account sp ct now seen k acct w))
      as (Hc & Ha & Hk).
    destruct (check_account_frame sp ct now seen k acct w) as (Hc1 & Ha1 & Hk1).
    split; [now rewrite Hc|]. split; [now rewrite Ha|].
    intros h Hh. cbn [List.map] in Hh. apply not_elem_of_cons in Hh as [Hne Hh].
    rewrite (Hk h Hh). apply Hk1, Hne.
Qed.

(** X17. Every post [check_monitored_accounts] collects is an unseen
    post of the profile of an account of the list whose poll succeeded,
    with its source set to [account_monitor] and its priority boost set
    to 3, 1 or 0 for a high, medium or other priority; the function
    leaves the posts, comments and approvals of the store as they are
    and touches no last-check time of a handle that is not in the
    list. *)
Theorem monitored_posts_tagged :
  forall sp ct now accounts db seen,
    (forall p,
        p ∈ Scraper.all_posts
              (Scraper.check_monitored_accounts sp ct now accounts db seen) ->
        from_account sp seen accounts p /\
        source p = Some "account_monitor" /\
        (priority_boost p = 3 \/ priority_boost p = 1 \/ priority_boost p = 0) /\
        Scraper.not_seen seen p = true) /\
    Database.posts
      (Scraper.store (Scraper.check_monitored_accounts sp ct now accounts db seen))
    = Database.posts db /\
    Database.comments
      (Scraper.store (Scraper.check_monitored_accounts sp ct now accounts db seen))
    = Database.comments db /\
    Database.approvals
      (Scraper.store (Scraper.check_monitored_accounts sp ct now accounts db seen))
    = Database.approvals db /\
    (forall h,
        h ∉ List.map Scraper.handle accounts ->
        Database.get_last_check_time
          (Scraper.store (Scraper.check_monitored_accounts sp ct now accounts db seen)) h
        = Database.get_last_check_time db h).
Proof.
  intros sp ct now accounts db seen. unfold Scraper.check_monitored_accounts.
  destruct (check_loop_frame sp ct now seen accounts O (Scraper.mkWatch [] db []))
    as (Hc & Ha & Hk).
  split; [|split; [apply check_loop_posts|split; [exact Hc|split; [exact Ha|]]]].
  - intros p Hp.
    assert (H : from_account sp seen accounts p).
    { apply (check_loop_from_account sp ct now seen accounts accounts O
               (Scraper.mkWatch [] db [])); [| |exact Hp].
      - intros i acct Hi. exact Hi.
      - intros q Hq. now apply elem_of_nil in Hq. }
    split; [exact H|]. destruct H as (k & acct & posts & q & _ & _ & _ & Hn & ->).
    split; [reflexivity|]. split.
    + cbn. unfold Scraper.boost_of.
      destruct (String.eqb (Scraper.priority acct) "high"); [now left|].
      destruct (String.eqb (Scraper.priority acct) "medium");
        [right; now left|right; now right].
    + exact Hn.
  - intros h Hh. unfold Database.get_last_check_time. rewrite (Hk h Hh). reflexivity.
Qed.

Lemma monitored_posts_tagged_witness :
  source (set_source "account_monitor"
            (set_priority_boost 3 (sample_post "5" 6000 7200000000)))
  = Some "account_monitor".
Proof.
  refine (proj1 (proj2 (proj1 (monitored_posts_tagged (one_new 7200000000)
            (fun _ => 7200000001) 7200000000 [sample_account] Database.empty ∅) _ _))).
  vm_compute. left.
Defined.


(** ** HTML escaping *)

Lemma prefix_empty s : String.prefix EmptyString s = true.
Proof. destruct s; reflexivity. Qed.

Lemma replace_char_nil a new :
  Str.replace (String a EmptyString) new EmptyString = EmptyString.
Proof. reflexivity. Qed.

Lemma replace_char_cons a new c s :
  Str.replace (String a EmptyString) new (String c s)
  = (if Ascii.eqb c a then new else String c EmptyString)
    +:+ Str.replace (String a EmptyString) new s.
Proof.
  unfold Str.replace. cbn [Str.replace_from String.length Nat.sub].
  change (String.prefix (String a EmptyString) (String c s))
    with (if ascii_dec a c then String.prefix EmptyString s else false).
  rewrite prefix_empty.
  destruct (ascii_dec a c) as [<-|N].
  - rewrite Ascii.eqb_refl. reflexivity.
  - destruct (Ascii.eqb_spec c a) as [E|_]; [now destruct N|reflexivity].
Qed.

Lemma append_assoc (a b c : string) : (a +:+ b) +:+ c = a +:+ (b +:+ c).
Proof.
  induction a as [|x a IH]; [reflexivity|].
  change (String x ((a +:+ b) +:+ c) = String x (a +:+ (b +:+ c))).
  now rewrite IH.
Qed.

Lemma replace_char_app a new x y :
  Str.replace (String a EmptyString) new (x +:+ y)
  = Str.replace (String a EmptyString) new x
    +:+ Str.replace (String a EmptyString) new y.
Proof.
  induction x as [|c x IH]; [reflexivity|].
  change (String c x +:+ y) with (String c (x +:+ y)).
  rewrite !replace_char_cons, IH, append_assoc. reflexivity.
Qed.

Lemma _h_app a b : TelegramBot._h (a +:+ b) = TelegramBot._h a +:+ TelegramBot._h b.
Proof. unfold TelegramBot._h. now rewrite !replace_char_app. Qed.

Lemma _h_char c : TelegramBot._h (String c EmptyString) = escape_char c.
Proof.
  unfold TelegramBot._h, escape_char.
  rewrite replace_char_cons, replace_char_nil.
  destruct (Ascii.eqb_spec c "&") as [->|N1]; [reflexivity|].
  change (String c EmptyString +:+ EmptyString) with (String c EmptyString).
  rewrite replace_char_cons, replace_char_nil.
  destruct (Ascii.eqb_spec c "<") as [->|N2]; [reflexivity|].
  change (String c EmptyString +:+ EmptyString) with (String c EmptyString).
  rewrite replace_char_cons, replace_char_nil.
  destruct (Ascii.eqb_spec c ">") as [->|N3]; reflexivity.
Qed.

Lemma _h_escape text : TelegramBot._h text = escape text.
Proof.
  induction text as [|c s IH]; [reflexivity|].
  change (String c s) with (String c EmptyString +:+ s).
  rewrite _h_app, _h_char, IH. reflexivity.
Qed.

Lemma contains_char_nil a : Str.contains (String a EmptyString) EmptyString = false.
Proof. reflexivity. Qed.

Lemma contains_char_cons a c s :
  Str.contains (String a EmptyString) (String c s)
  = Ascii.eqb c a || Str.contains (String a EmptyString) s.
Proof.
  change (Str.contains (String a EmptyString) (String c s))
    with ((if ascii_dec a c then String.prefix EmptyString s else false)
          || Str.contains (String a EmptyString) s).
  rewrite prefix_empty. f_equal.
  destruct (ascii_dec a c) as [<-|N].
  - now rewrite Ascii.eqb_refl.
  - destruct (Ascii.eqb_spec c a) as [E|_]; [now destruct N|reflexivity].
Qed.

Lemma contains_char_app a x y :
  Str.contains (String a EmptyString) (x +:+ y)
  = Str.contains (String a EmptyString) x || Str.contains (String a EmptyString) y.
Proof.
  induction x as [|c x IH]; [reflexivity|].
  change (String c x +:+ y) with (String c (x +:+ y)).
  rewrite !contains_char_cons, IH, orb_assoc. reflexivity.
Qed.

Lemma escape_char_no_angle c :
  Str.contains "<" (escape_char c) = false /\ Str.contains ">" (escape_char c) = false.
Proof.
  unfold escape_char.
  destruct (Ascii.eqb_spec c "&") as [->|N1]; [split; reflexivity|].
  destruct (Ascii.eqb c "<") eqn:E2; [split; reflexivity|].
  destruct (Ascii.eqb c ">") eqn:E3; [split; reflexivity|].
  rewrite !contains_char_cons, E2, E3. split; reflexivity.
Qed.

Lemma escape_no_angle s :
  Str.contains "<" (escape s) = false /\ Str.contains ">" (escape s) = false.
Proof.
  induction s as [|c s [IH1 IH2]]; [split; reflexivity|].
  cbn [escape]. rewrite !contains_char_app, IH1, IH2.
  destruct (escape_char_no_angle c) as [-> ->]. split; reflexivity.
Qed.

Lemma escape_clean s :
  Str.contains "&" s = false -> Str.contains "<" s = false ->
  Str.contains ">" s = false -> escape s = s.
Proof.
  induction s as [|c s IH]; intros H1 H2 H3; [reflexivity|].
  rewrite contains_char_cons in H1, H2, H3.
  apply orb_false_iff in H1 as [E1 H1], H2 as [E2 H2], H3 as [E3 H3].
  cbn [escape]. unfold escape_char. rewrite E1, E2, E3, (IH H1 H2 H3). reflexivity.
Qed.

Lemma escape_injective : forall s1 s2, escape s1 = escape s2 -> s1 = s2.
Proof.
  induction s1 as [|c1 s1 IH]; intros [|c2 s2] H.
  - reflexivity.
  - cbn [escape] in H. unfold escape_char in H.
    destruct (Ascii.eqb c2 "&"), (Ascii.eqb c2 "<"), (Ascii.eqb c2 ">"); discriminate.
  - cbn [escape] in H. unfold escape_char in H.
    destruct (Ascii.eqb c1 "&"), (Ascii.eqb c1 "<"), (Ascii.eqb c1 ">"); discriminate.
  - cbn [escape] in H. unfold escape_char in H.
    destruct (Ascii.eqb_spec c1 "&") as [->|A1];
      [|destruct (Ascii.eqb_spec c1 "<") as [->|A2];
        [|destruct (Ascii.eqb_spec c1 ">") as [->|A3]]];
      (destruct (Ascii.eqb_spec c2 "&") as [->|B1];
        [|destruct (Ascii.eqb_spec c2 "<") as [->|B2];
          [|destruct (Ascii.eqb_spec c2 ">") as [->|B3]]]);
      cbn in H; try discriminate H;
      try (injection H as H; f_equal; now apply IH);
      try (injection H as H0 H; congruence).
    injection H as -> H. f_equal. now apply IH.
Qed.

(** X18. [_h] replaces each character by its HTML entity, one character
    at a time: the three replacements do not interfere (the ampersand
    of an entity written for [<] or [>] is not escaped again). So the
    result holds no [<] and no [>], the escape of a concatenation is the
    concatenation of the escapes, a text without [&], [<] and [>] is
    returned as it is, and two different texts never have the same
    escape. *)
Theorem _h_escapes_each_character :
  forall text,
    TelegramBot._h text = escape text /\
    Str.contains "<" (TelegramBot._h text) = false /\
    Str.contains ">" (TelegramBot._h text) = false /\
    (forall rest,
        TelegramBot._h (text +:+ rest) = TelegramBot._h text +:+ TelegramBot._h rest) /\
    (Str.contains "&" text = false -> Str.contains "<" text = false ->
     Str.contains ">" text = false -> TelegramBot._h text = text) /\
    (forall text', TelegramBot._h text = TelegramBot._h text' -> text = text').
Proof.
  intros text. split; [apply _h_escape|].
  rewrite !_h_escape. destruct (escape_no_angle text) as [H1 H2].
  split; [exact H1|]. split; [exact H2|]. split; [|split].
  - intros rest. rewrite <- !_h_escape. apply _h_app.
  - apply escape_clean.
  - intros text' H. rewrite _h_escape in H. now apply escape_injective.
Qed.

Lemma _h_escapes_each_character_witness :
  TelegramBot._h "RLHF is dead" = "RLHF is dead".
Proof.
  apply (proj1 (proj2 (proj2 (proj2 (proj2
           (_h_escapes_each_character "RLHF is dead")))))); reflexivity.
Defined.


(** ** Buttons and their tokens *)

Lemma split_once_token action post_id :
  Str.contains "|" action = false ->
  Str.split_once "|" (action +:+ "|" +:+ post_id) = Some (action, post_id).
Proof.
  induction action as [|c a IH]; intros H; [reflexivity|].
  rewrite contains_char_cons in H. apply orb_false_iff in H as [Hc Ha].
  change (String c a +:+ "|" +:+ post_id) with (String c (a +:+ "|" +:+ post_id)).
  cbn [Str.split_once]. rewrite Hc, (IH Ha). reflexivity.
Qed.

Lemma button_callback_branch int ts data m b action post_id post :
  Str.split_once "|" data = Some (action, post_id) ->
  action <> "scount" ->
  Database.get_post (TelegramBot.db b) post_id = Some post ->
  match branch_of action with
  | BManual tone =>
      forall row,
        TelegramBot.comment_map_get
          (Database.get_comments_for_post (TelegramBot.db b) post_id) tone = Some row ->
        TelegramBot.db (fst (TelegramBot.button_callback int ts data m b))
        = Database.update_post_status post_id Database.approved
            (fst (Database.insert_approval ts post_id (Database.c_id row)
                    ("manual_" +:+ tone) None (TelegramBot.db b)))
  | BAuto tone =>
      forall row,
        TelegramBot.comment_map_get
          (Database.get_comments_for_post (TelegramBot.db b) post_id) tone = Some row ->
        TelegramBot.db (fst (TelegramBot.button_callback int ts data m b))
        = Database.update_post_status post_id Database.approved
            (fst (Database.insert_approval ts post_id (Database.c_id row)
                    ("auto_" +:+ tone) None (TelegramBot.db b)))
  | BEdit =>
      fst (TelegramBot.button_callback int ts data m b)
      = TelegramBot.mkBot (TelegramBot.db b) (Some post_id)
          (TelegramBot.pending_search_topic b) (TelegramBot.accounts_json b)
  | BSkip =>
      fst (TelegramBot.button_callback int ts data m b)
      = TelegramBot.with_db
          (Database.update_post_status post_id Database.skipped (TelegramBot.db b)) b
  | BWatch =>
      Database.p_author_handle post <> EmptyString ->
      fst (TelegramBot.button_callback int ts data m b)
      = TelegramBot.mkBot
          (fst (Database.add_to_watchlist (Database.p_author_handle post)
                  (TelegramBot.db b)))
          (TelegramBot.editing_post_id b) (TelegramBot.pending_search_topic b)
          (fst (TelegramBot._add_to_accounts_json (Database.p_author_handle post)
                  (TelegramBot.accounts_json b)))
  | BNone =>
      TelegramBot.button_callback int ts data m b = (b, [TelegramBot.Answer None])
  end.
Proof.
  intros Hsplit Hact Hpost. unfold branch_of, TelegramBot.button_callback.
  rewrite Hsplit. destruct (String.eqb_spec action "scount") as [E|_]; [contradiction|].
  rewrite Hpost.
  destruct (Str.startswith action "manual_").
  { intros row Hrow. rewrite Hrow.
    match goal with
    | |- context [TelegramBot.TONE_LETTER ?t] =>
        destruct (TelegramBot.TONE_LETTER t), (TelegramBot.TONE_LABEL t)
    end; reflexivity. }
  destruct (Str.startswith action "auto_").
  { intros row Hrow. rewrite Hrow.
    match goal with
    | |- context [TelegramBot.TONE_LABEL ?t] => destruct (TelegramBot.TONE_LABEL t)
    end; reflexivity. }
  destruct (String.eqb action "edit"); [reflexivity|].
  destruct (String.eqb action "skip"); [reflexivity|].
  destruct (String.eqb action "watch"); [|reflexivity].
  intros Hh.
  destruct (String.eqb_spec (Database.p_author_handle post) EmptyString) as [E|_];
    [contradiction|].
  destruct (TelegramBot._add_to_accounts_json _ _) as [accounts added].
  destruct (Database.add_to_watchlist _ _) as [d' o]. reflexivity.
Qed.

(** X19. The callback data of every button of a card splits, at its
    first bar, into an action and the post id the card was built for,
    whatever characters the id holds; and [button_callback] takes each
    action to the branch its button is meant for: the approval buttons
    file an approval for the comment stored under the tone name of the
    button and set the post to approved, Edit opens the edit mode, Skip
    sets the post to skipped, the watch button adds the author, and an
    action of no button changes nothing. The same holds of the two
    buttons of a post-only card. *)
Theorem button_tokens_round_trip :
  forall post_id author_handle,
    List.map (List.map (fun b : Button => Str.split_once "|" (snd b)))
             (build_buttons post_id author_handle)
    = List.map (List.map (fun a => Some (a, post_id)))
        [ ["manual_challenge"; "manual_expand"; "manual_nuanced"; "manual_question"];
          ["auto_challenge"; "auto_expand"; "auto_nuanced"; "auto_question"];
          ["edit"; "skip"; "watch"] ] /\
    List.map (List.map branch_of)
        [ ["manual_challenge"; "manual_expand"; "manual_nuanced"; "manual_question"];
          ["auto_challenge"; "auto_expand"; "auto_nuanced"; "auto_question"];
          ["edit"; "skip"; "watch"] ]
    = card_branches /\
    List.map (List.map (fun b : Button => Str.split_once "|" (snd b)))
             (build_post_only_buttons post_id author_handle)
    = [ [Some ("skip", post_id); Some ("watch", post_id)] ] /\
    (forall action,
        Str.contains "|" action = false ->
        Str.split_once "|" (action +:+ "|" +:+ post_id) = Some (action, post_id)) /\
    (forall int ts data m b action post,
        Str.split_once "|" data = Some (action, post_id) ->
        action <> "scount" ->
        Database.get_post (TelegramBot.db b) post_id = Some post ->
        match branch_of action with
        | BManual tone =>
            forall row,
              TelegramBot.comment_map_get
                (Database.get_comments_for_post (TelegramBot.db b) post_id) tone
              = Some row ->
              TelegramBot.db (fst (TelegramBot.button_callback int ts data m b))
              = Database.update_post_status post_id Database.approved
                  (fst (Database.insert_approval ts post_id (Database.c_id row)
                          ("manual_" +:+ tone) None (TelegramBot.db b)))
        | BAuto tone =>
            forall row,
              TelegramBot.comment_map_get
                (Database.get_comments_for_post (TelegramBot.db b) post_id) tone
              = Some row ->
              TelegramBot.db (fst (TelegramBot.button_callback int ts data m b))
              = Database.update_post_status post_id Database.approved
                  (fst (Database.insert_approval ts post_id (Database.c_id row)
                          ("auto_" +:+ tone) None (TelegramBot.db b)))
        | BEdit =>
            fst (TelegramBot.button_callback int ts data m b)
            = TelegramBot.mkBot (TelegramBot.db b) (Some post_id)
                (TelegramBot.pending_search_topic b) (TelegramBot.accounts_json b)
        | BSkip =>
            fst (TelegramBot.button_callback int ts data m b)
            = TelegramBot.with_db
                (Database.update_post_status post_id Database.skipped
                   (TelegramBot.db b)) b
        | BWatch =>
            Database.p_author_handle post <> EmptyString ->
            fst (TelegramBot.button_callback int ts data m b)
            = TelegramBot.mkBot
                (fst (Database.add_to_watchlist (Database.p_author_handle post)
                        (TelegramBot.db b)))
                (TelegramBot.editing_post_id b) (TelegramBot.pending_search_topic b)
                (fst (TelegramBot._add_to_accounts_json
                        (Database.p_author_handle post) (TelegramBot.accounts_json b)))
        | BNone =>
            TelegramBot.button_callback int ts data m b
            = (b, [TelegramBot.Answer None])
        end).
Proof.
  intros post_id author_handle.
  split; [reflexivity|]. split; [reflexivity|]. split; [reflexivity|].
  split; [intros action; apply split_once_token|].
  intros int ts data m b action post. apply button_callback_branch.
Qed.

Lemma button_tokens_round_trip_witness :
  fst (TelegramBot.button_callback no_int 7200000005 "skip|1" EmptyString sample_bot)
  = TelegramBot.with_db
      (Database.update_post_status "1" Database.skipped (TelegramBot.db sample_bot))
      sample_bot.
Proof.
  destruct (Database.get_post (TelegramBot.db sample_bot) "1") as [r|] eqn:Hr;
    [|vm_compute in Hr; discriminate].
  refine (proj2 (proj2 (proj2 (proj2 (button_tokens_round_trip "1" "a"))))
            no_int 7200000005 "skip|1" EmptyString sample_bot "skip" r _ _ Hr).
  - reflexivity.
  - discriminate.
Defined.


(** ** What STEP 4 stores *)

Lemma store_comments_rows ts pid comments :
  forall d,
    Main.store_comments ts pid comments d
    = Database.mkDB (Database.posts d)
        (Database.comments d
         ++ new_rows ts pid (length (Database.comments d)) comments)
        (Database.approvals d) (Database.account_checks d).
Proof.
  induction comments as [|[tone [text iss]] rest IH]; intros d;
    cbn [Main.store_comments new_rows].
  - rewrite app_nil_r. now destruct d.
  - destruct (String.eqb text EmptyString); [apply IH|].
    rewrite IH. unfold Database.insert_comment.
    cbn [fst Database.posts Database.comments Database.approvals
         Database.account_checks].
    rewrite length_app, <- app_assoc. cbn [length app].
    replace (length (Database.comments d) + 1)%nat
      with (S (length (Database.comments d))) by lia.
    reflexivity.
Qed.

Lemma new_rows_sound ts pid comments :
  forall n row,
    row ∈ new_rows ts pid n comments ->
    Database.c_text row <> EmptyString /\ Database.c_post_id row = pid /\
    Database.generated_at row = ts /\
    exists tone,
      (tone, (Database.c_text row, Database.issues row)) ∈ comments /\
      Database.comment_type row = Generator.tone_name tone.
Proof.
  induction comments as [|[tone [text iss]] rest IH]; intros n row H;
    cbn [new_rows] in H; [now apply elem_of_nil in H|].
  destruct (String.eqb_spec text EmptyString) as [E|N].
  - destruct (IH n row H) as (H1 & H2 & H3 & t & H4 & H5).
    repeat split; try assumption. exists t. split; [now right|exact H5].
  - apply elem_of_cons in H as [->|H].
    + cbn. repeat split; try assumption. exists tone. split; [left|reflexivity].
    + destruct (IH (S n) row H) as (H1 & H2 & H3 & t & H4 & H5).
      repeat split; try assumption. exists t. split; [now right|exact H5].
Qed.

Lemma new_rows_complete ts pid comments :
  forall n tone text iss,
    (tone, (text, iss)) ∈ comments -> text <> EmptyString ->
    exists row,
      row ∈ new_rows ts pid n comments /\
      Database.comment_type row = Generator.tone_name tone /\
      Database.c_text row = text /\ Database.issues row = iss.
Proof.
  induction comments as [|[tone0 [text0 iss0]] rest IH]; intros n tone text iss H Hne;
    [now apply elem_of_nil in H|].
  cbn [new_rows]. apply elem_of_cons in H as [E|H].
  - injection E as <- <- <-.
    destruct (String.eqb_spec text EmptyString) as [E|_]; [contradiction|].
    eexists. split; [left|]. repeat split.
  - destruct (String.eqb text0 EmptyString).
    + apply IH; assumption.
    + destruct (IH (S n) tone text iss H Hne) as (row & Hin & Hrow).
      exists row. split; [now right|exact Hrow].
Qed.

Lemma store_comments_numbered ts pid comments :
  forall d, comments_numbered d ->
            comments_numbered (Main.store_comments ts pid comments d).
Proof.
  induction comments as [|[tone [text iss]] rest IH]; intros d Hn;
    cbn [Main.store_comments]; [exact Hn|].
  destruct (String.eqb text EmptyString); [now apply IH|].
  apply IH. now apply insert_comment_numbered.
Qed.

(** X20. [store_comments] appends one comment row for each tone whose
    text is not empty, in the order of the tones and with the next row
    ids, and leaves the rest of the store as it is: every new row holds a
    generated text, its issues and the name of its tone under the id of
    the post; every non-empty text gets its row; a tone whose generation
    failed (empty text) gets none; and the numbering of the table is
    kept. *)
Theorem store_comments_stores_texts :
  forall ts pid comments d,
    Main.store_comments ts pid comments d
    = Database.mkDB (Database.posts d)
        (Database.comments d
         ++ new_rows ts pid (length (Database.comments d)) comments)
        (Database.approvals d) (Database.account_checks d) /\
    (forall n row,
        row ∈ new_rows ts pid n comments ->
        Database.c_text row <> EmptyString /\ Database.c_post_id row = pid /\
        Database.generated_at row = ts /\
        exists tone,
          (tone, (Database.c_text row, Database.issues row)) ∈ comments /\
          Database.comment_type row = Generator.tone_name tone) /\
    (forall n tone text iss,
        (tone, (text, iss)) ∈ comments -> text <> EmptyString ->
        exists row,
          row ∈ new_rows ts pid n comments /\
          Database.comment_type row = Generator.tone_name tone /\
          Database.c_text row = text /\ Database.issues row = iss) /\
    (length (new_rows ts pid (length (Database.comments d)) comments)
     <= length comments)%nat /\
    (comments_numbered d ->
     comments_numbered (Main.store_comments ts pid comments d)).
Proof.
  intros ts pid comments d.
  split; [apply store_comments_rows|]. split; [apply new_rows_sound|].
  split; [apply new_rows_complete|]. split; [|apply store_comments_numbered].
  generalize (length (Database.comments d)).
  induction comments as [|[tone [text iss]] rest IH]; intros n; cbn [new_rows length];
    [lia|].
  destruct (String.eqb text EmptyString); cbn [length].
  - specialize (IH n). lia.
  - specialize (IH (S n)). lia.
Qed.

Lemma store_comments_stores_texts_witness :
  comments_numbered
    (Main.store_comments 7200000000 "1"
       [(Generator.challenge, (EmptyString, ["Generation failed: gemini down"]));
        (Generator.expand, ("Distillation keeps the reasoning of the model", []))]
       sample_db).
Proof.
  apply (proj2 (proj2 (proj2 (proj2
           (store_comments_stores_texts 7200000000 "1"
              [(Generator.challenge, (EmptyString, ["Generation failed: gemini down"]));
               (Generator.expand, ("Distillation keeps the reasoning of the model", []))]
              sample_db))))).
  intros i row H. destruct i as [|i]; [|destruct i; discriminate H].
  vm_compute in H. injection H as <-. reflexivity.
Defined.

(** ** From a generated comment to its approval *)

Lemma find_rev_last {A} (f : A -> bool) (l : list A) :
  List.find f (rev l) = last (List.filter f l).
Proof.
  induction l as [|x l IH] using rev_ind; [reflexivity|].
  rewrite rev_app_distr, List.filter_app. cbn [rev app List.find List.filter].
  destruct (f x).
  - now rewrite last_snoc.
  - now rewrite app_nil_r.
Qed.

Lemma tone_name_inj t1 t2 :
  String.eqb (Generator.tone_name t1) (Generator.tone_name t2) = true -> t1 = t2.
Proof. destruct t1, t2; intros H; first [reflexivity|discriminate H]. Qed.

Lemma new_rows_other_tone ts pid tone comments :
  forall n,
    tone ∉ List.map fst comments ->
    List.filter (fun r => String.eqb (Database.comment_type r) (Generator.tone_name tone))
                (new_rows ts pid n comments) = [].
Proof.
  induction comments as [|[tone0 [text0 iss0]] rest IH]; intros n H; [reflexivity|].
  cbn [List.map fst] in H. apply not_elem_of_cons in H as [Hne H].
  cbn [new_rows]. destruct (String.eqb text0 EmptyString); [now apply IH|].
  cbn [List.filter Database.comment_type].
  destruct (String.eqb (Generator.tone_name tone0) (Generator.tone_name tone)) eqn:E.
  - apply tone_name_inj in E. congruence.
  - now apply IH.
Qed.

Lemma new_rows_of_tone ts pid tone text iss comments :
  forall n,
    NoDup (List.map fst comments) ->
    (tone, (text, iss)) ∈ comments -> text <> EmptyString ->
    exists k,
      List.filter
        (fun r => String.eqb (Database.comment_type r) (Generator.tone_name tone))
        (new_rows ts pid n comments)
      = [Database.mkCommentRow k pid (Generator.tone_name tone) text ts iss].
Proof.
  induction comments as [|[tone0 [text0 iss0]] rest IH]; intros n Hnd Hin Hne;
    [now apply elem_of_nil in Hin|].
  cbn [List.map fst] in Hnd. apply NoDup_cons in Hnd as [Hfresh Hnd].
  cbn [new_rows]. apply elem_of_cons in Hin as [E|Hin].
  - injection E as <- <- <-.
    destruct (String.eqb_spec text EmptyString) as [E|_]; [contradiction|].
    cbn [List.filter Database.comment_type]. rewrite String.eqb_refl.
    rewrite (new_rows_other_tone ts pid tone rest (S n) Hfresh).
    eexists; reflexivity.
  - assert (Hneq : tone0 <> tone).
    { intros ->. apply Hfresh. apply list_elem_of_In, in_map_iff.
      exists (tone, (text, iss)). split; [reflexivity|now apply list_elem_of_In]. }
    destruct (String.eqb text0 EmptyString); [now apply IH|].
    cbn [List.filter Database.comment_type].
    destruct (String.eqb (Generator.tone_name tone0) (Generator.tone_name tone)) eqn:E.
    + apply tone_name_inj in E. contradiction.
    + now apply IH.
Qed.

Lemma new_rows_post ts pid comments :
  forall n,
    List.filter (fun r => String.eqb (Database.c_post_id r) pid)
                (new_rows ts pid n comments)
    = new_rows ts pid n comments.
Proof.
  induction comments as [|[t0 [x0 i0]] rest IH]; intros n; [reflexivity|].
  cbn [new_rows]. destruct (String.eqb x0 EmptyString); [apply IH|].
  cbn [List.filter Database.c_post_id]. rewrite String.eqb_refl. f_equal. apply IH.
Qed.

Lemma comment_map_get_stored ts pid tone text iss comments d :
  NoDup (List.map fst comments) ->
  (tone, (text, iss)) ∈ comments -> text <> EmptyString ->
  exists k,
    TelegramBot.comment_map_get
      (Database.get_comments_for_post (Main.store_comments ts pid comments d) pid)
      (Generator.tone_name tone)
    = Some (Database.mkCommentRow k pid (Generator.tone_name tone) text ts iss).
Proof.
  intros Hnd Hin Hne. rewrite store_comments_rows.
  unfold TelegramBot.comment_map_get, Database.get_comments_for_post.
  cbn [Database.comments]. rewrite find_rev_last, !List.filter_app.
  rewrite new_rows_post.
  destruct (new_rows_of_tone ts pid tone text iss comments
              (length (Database.comments d)) Hnd Hin Hne) as [k Hk].
  rewrite Hk. exists k. apply last_snoc.
Qed.


Lemma store_one_db w cfg k post pid d items :
  id post = Some pid ->
  fst (Main.store_one w cfg k post (d, items))
  = Main.store_comments (Main.insert_timestamp w k) pid
      (fst (Generator.generate_comments (Main.backend w) (Main.format_prompt w)
              post cfg))
      (Database.insert_post (Main.insert_timestamp w k) post d).
Proof.
  intros Hid. unfold Main.store_one.
  destruct (Generator.generate_comments _ _ post cfg) as [c l].
  rewrite Hid. reflexivity.
Qed.

Lemma generated_tones_distinct backend fp post cfg :
  NoDup (List.map fst (fst (Generator.generate_comments backend fp post cfg))).
Proof.
  rewrite generate_comments_results. cbn.
  repeat (apply NoDup_cons; split;
          [rewrite ?elem_of_cons; intros H;
           repeat (destruct H as [H|H]; [discriminate H|]);
           now apply elem_of_nil in H|]).
  apply NoDup_nil_2.
Qed.

Lemma auto_press int ts data m b action post_id post row label :
  Str.split_once "|" data = Some (action, post_id) ->
  action <> "scount" ->
  Database.get_post (TelegramBot.db b) post_id = Some post ->
  Str.startswith action "manual_" = false ->
  Str.startswith action "auto_" = true ->
  TelegramBot.comment_map_get
    (Database.get_comments_for_post (TelegramBot.db b) post_id)
    (Str.replace "auto_" EmptyString action) = Some row ->
  TelegramBot.TONE_LABEL (Str.replace "auto_" EmptyString action) = Some label ->
  exists msg,
    snd (TelegramBot.button_callback int ts data m b)
    = [TelegramBot.Answer None; TelegramBot.EditMessage msg;
       TelegramBot.StartAutoPost (Database.p_url post) (Database.c_text row) post_id
         (Z.of_nat (length (Database.approvals (TelegramBot.db b))) + 1)
         (Str.replace "auto_" EmptyString action)].
Proof.
  intros Hsplit Hact Hpost Hm Ha Hrow Hlabel. unfold TelegramBot.button_callback.
  rewrite Hsplit. destruct (String.eqb_spec action "scount") as [E|_]; [contradiction|].
  rewrite Hpost, Hm, Ha, Hrow. unfold Database.insert_approval. rewrite Hlabel.
  eexists. reflexivity.
Qed.

(** X21. A comment the pipeline generated for a post can be approved
    from its card. After STEP 4 has stored the post and its comments,
    every tone whose text is not empty has a stored row holding exactly
    that text; pressing the tone's copy button or its auto-post button
    files an approval for that row and sets the post to approved, and the
    auto-post button hands the dispatcher the url of the post, the
    generated text and the id of the new approval. *)
Theorem generated_comment_approved :
  forall w cfg k post pid d items int ts m e p a tone text iss r,
    id post = Some pid ->
    Database.get_post (fst (Main.store_one w cfg k post (d, items))) pid = Some r ->
    (tone, (text, iss))
    ∈ fst (Generator.generate_comments (Main.backend w) (Main.format_prompt w)
             post cfg) ->
    text <> EmptyString ->
    exists row,
      row ∈ Database.comments (fst (Main.store_one w cfg k post (d, items))) /\
      Database.c_text row = text /\
      Database.c_post_id row = pid /\
      Database.comment_type row = Generator.tone_name tone /\
      TelegramBot.db
        (fst (TelegramBot.button_callback int ts
                ("manual_" +:+ Generator.tone_name tone +:+ "|" +:+ pid) m
                (TelegramBot.mkBot (fst (Main.store_one w cfg k post (d, items)))
                   e p a)))
      = Database.update_post_status pid Database.approved
          (fst (Database.insert_approval ts pid (Database.c_id row)
                  ("manual_" +:+ Generator.tone_name tone) None
                  (fst (Main.store_one w cfg k post (d, items))))) /\
      TelegramBot.db
        (fst (TelegramBot.button_callback int ts
                ("auto_" +:+ Generator.tone_name tone +:+ "|" +:+ pid) m
                (TelegramBot.mkBot (fst (Main.store_one w cfg k post (d, items)))
                   e p a)))
      = Database.update_post_status pid Database.approved
          (fst (Database.insert_approval ts pid (Database.c_id row)
                  ("auto_" +:+ Generator.tone_name tone) None
                  (fst (Main.store_one w cfg k post (d, items))))) /\
      exists msg,
        snd (TelegramBot.button_callback int ts
               ("auto_" +:+ Generator.tone_name tone +:+ "|" +:+ pid) m
               (TelegramBot.mkBot (fst (Main.store_one w cfg k post (d, items)))
                  e p a))
        = [TelegramBot.Answer None; TelegramBot.EditMessage msg;
           TelegramBot.StartAutoPost (Database.p_url r) text pid
             (Z.of_nat
                (length (Database.approvals
                           (fst (Main.store_one w cfg k post (d, items))))) + 1)
             (Generator.tone_name tone)].
Proof.
  intros w cfg k post pid d items int ts m e p a tone text iss r Hid Hpost Hin Hne.
  rewrite (store_one_db w cfg k post pid d items Hid) in *.
  set (d' := Main.store_comments _ _ _ _) in *.
  destruct (comment_map_get_stored (Main.insert_timestamp w k) pid tone text iss
              (fst (Generator.generate_comments (Main.backend w) (Main.format_prompt w)
                      post cfg))
              (Database.insert_post (Main.insert_timestamp w k) post d)
              (generated_tones_distinct _ _ _ _) Hin Hne) as [cid Hrow].
  fold d' in Hrow.
  set (row := Database.mkCommentRow cid pid (Generator.tone_name tone) text
                (Main.insert_timestamp w k) iss) in *.
  exists row. split; [exact (proj1 (comment_map_get_elem d' pid _ row Hrow))|].
  split; [reflexivity|]. split; [reflexivity|]. split; [reflexivity|].
  set (b := TelegramBot.mkBot d' e p a).
  assert (Hpb : Database.get_post (TelegramBot.db b) pid = Some r) by exact Hpost.
  split; [|split].
  - pose proof (button_callback_branch int ts
                  ("manual_" +:+ Generator.tone_name tone +:+ "|" +:+ pid) m b
                  ("manual_" +:+ Generator.tone_name tone) pid r) as HB.
    replace (branch_of ("manual_" +:+ Generator.tone_name tone))
      with (BManual (Generator.tone_name tone)) in HB by (destruct tone; reflexivity).
    apply HB; [| |exact Hpb|exact Hrow].
    + destruct tone; reflexivity.
    + destruct tone; discriminate.
  - pose proof (button_callback_branch int ts
                  ("auto_" +:+ Generator.tone_name tone +:+ "|" +:+ pid) m b
                  ("auto_" +:+ Generator.tone_name tone) pid r) as HB.
    replace (branch_of ("auto_" +:+ Generator.tone_name tone))
      with (BAuto (Generator.tone_name tone)) in HB by (destruct tone; reflexivity).
    apply HB; [| |exact Hpb|exact Hrow].
    + destruct tone; reflexivity.
    + destruct tone; discriminate.
  - assert (Hrep : Str.replace "auto_" EmptyString
                     ("auto_" +:+ Generator.tone_name tone)
                   = Generator.tone_name tone) by (destruct tone; reflexivity).
    assert (Hlab : exists label,
               TelegramBot.TONE_LABEL (Generator.tone_name tone) = Some label)
      by (destruct tone; eexists; reflexivity).
    destruct Hlab as [label Hlab].
    destruct (auto_press int ts
                ("auto_" +:+ Generator.tone_name tone +:+ "|" +:+ pid) m b
                ("auto_" +:+ Generator.tone_name tone) pid r row label) as [msg Hmsg].
    + destruct tone; reflexivity.
    + destruct tone; discriminate.
    + exact Hpb.
    + destruct tone; reflexivity.
    + destruct tone; reflexivity.
    + rewrite Hrep. exact Hrow.
    + rewrite Hrep. exact Hlab.
    + exists msg. rewrite Hmsg, Hrep. reflexivity.
Qed.

Lemma generated_comment_approved_witness :
  exists row,
    row ∈ Database.comments
            (fst (Main.store_one (expand_only 7200000000) Generator.default_config O
                    (sample_post "1" 6000 7200000000) (Database.empty, []))) /\
    Database.c_text row = "Distillation keeps the reasoning of the model".
Proof.
  destruct (Database.get_post
              (fst (Main.store_one (expand_only 7200000000) Generator.default_config O
                      (sample_post "1" 6000 7200000000) (Database.empty, []))) "1")
    as [r|] eqn:Hr; [|vm_compute in Hr; discriminate].
  destruct (generated_comment_approved (expand_only 7200000000)
              Generator.default_config O (sample_post "1" 6000 7200000000) "1"
              Database.empty [] no_int 7200000005 EmptyString None None []
              Generator.expand "Distillation keeps the reasoning of the model"
              ["Too short (45 chars — target 200–280)"] r)
    as (row & Hin & Htext & _).
  - reflexivity.
  - exact Hr.
  - vm_compute. right. left.
  - discriminate.
  - exists row. split; assumption.
Defined.


(** ** What a run adds to the store *)

Lemma insert_post_frame ts p d :
  Database.comments (Database.insert_post ts p d) = Database.comments d /\
  Database.approvals (Database.insert_post ts p d) = Database.approvals d /\
  Database.account_checks (Database.insert_post ts p d) = Database.account_checks d /\
  (size (Database.posts (Database.insert_post ts p d))
   <= S (size (Database.posts d)))%nat.
Proof.
  unfold Database.insert_post. destruct (id p) as [pid|]; [|repeat split; lia].
  destruct (Database.post_exists d pid || Database.url_exists d (url p));
    [repeat split; lia|].
  cbn [Database.comments Database.approvals Database.account_checks Database.posts].
  repeat split. rewrite map_size_insert.
  destruct (Database.posts d !! pid); cbn; lia.
Qed.

Lemma store_one_frame w cfg k p d items :
  (size (Database.posts (fst (Main.store_one w cfg k p (d, items))))
   <= S (size (Database.posts d)))%nat /\
  Database.comments d
    `prefix_of` Database.comments (fst (Main.store_one w cfg k p (d, items))) /\
  (length (Database.comments (fst (Main.store_one w cfg k p (d, items))))
   <= length (Database.comments d) + 4)%nat /\
  Database.approvals (fst (Main.store_one w cfg k p (d, items)))
  = Database.approvals d /\
  Database.account_checks (fst (Main.store_one w cfg k p (d, items)))
  = Database.account_checks d /\
  snd (Main.store_one w cfg k p (d, items))
  = items ++ [Main.mkItem p (fst (Generator.generate_comments (Main.backend w)
                                    (Main.format_prompt w) p cfg))].
Proof.
  destruct (insert_post_frame (Main.insert_timestamp w k) p d) as (Hc & Ha & Hk & Hs).
  unfold Main.store_one.
  pose proof (generate_comments_results (Main.backend w) (Main.format_prompt w) p cfg)
    as Hres.
  destruct (Generator.generate_comments _ _ p cfg) as [comments log].
  cbn [fst snd] in *. destruct (id p) as [pid|].
  - rewrite store_comments_rows.
    cbn [Database.posts Database.comments Database.approvals Database.account_checks].
    rewrite Hc, Ha, Hk. split; [exact Hs|]. split; [now apply prefix_app_r|].
    split; [|repeat split].
    rewrite length_app.
    assert (Hlen : (length (new_rows (Main.insert_timestamp w k) pid
                              (length (Database.comments d)) comments)
                    <= length comments)%nat).
    { generalize (length (Database.comments d)). clear.
      induction comments as [|[tone [text iss]] rest IH]; intros n;
        cbn [new_rows length]; [lia|].
      destruct (String.eqb text EmptyString); cbn [length].
      - specialize (IH n). lia.
      - specialize (IH (S n)). lia. }
    assert (H4 : length comments = 4%nat) by (rewrite Hres; reflexivity).
    lia.
  - rewrite Hc, Ha, Hk. split; [exact Hs|]. split; [reflexivity|].
    split; [lia|repeat split].
Qed.

Lemma store_loop_frame w cfg posts :
  forall k d items,
    (size (Database.posts (fst (Main.store_loop w cfg k posts (d, items))))
     <= size (Database.posts d) + length posts)%nat /\
    Database.comments d
      `prefix_of` Database.comments (fst (Main.store_loop w cfg k posts (d, items))) /\
    (length (Database.comments (fst (Main.store_loop w cfg k posts (d, items))))
     <= length (Database.comments d) + 4 * length posts)%nat /\
    Database.approvals (fst (Main.store_loop w cfg k posts (d, items)))
    = Database.approvals d /\
    Database.account_checks (fst (Main.store_loop w cfg k posts (d, items)))
    = Database.account_checks d /\
    List.map Main.item_post (snd (Main.store_loop w cfg k posts (d, items)))
    = List.map Main.item_post items ++ posts.
Proof.
  induction posts as [|p rest IH]; intros k d items; cbn [Main.store_loop].
  - cbn [fst snd length]. rewrite app_nil_r. repeat split; try lia. reflexivity.
  - destruct (store_one_frame w cfg k p d items) as (H1 & H2 & H3 & H4 & H5 & H6).
    destruct (Main.store_one w cfg k p (d, items)) as [d1 items1].
    cbn [fst snd] in *.
    destruct (IH (S k) d1 items1) as (I1 & I2 & I3 & I4 & I5 & I6).
    cbn [length]. split; [lia|]. split; [etransitivity; eassumption|].
    split; [lia|]. split; [congruence|]. split; [congruence|].
    rewrite I6, H6, List.map_app, <- app_assoc. reflexivity.
Qed.

Lemma run_once_store w fcfg gcfg kws accounts tm db :
  exists d,
    Database.posts d = Database.posts db /\
    Database.comments d = Database.comments db /\
    Database.approvals d = Database.approvals db /\
    (tm = true -> d = db) /\
    (tm = true ->
     (length (Main.ranked (Main.run_once w fcfg gcfg kws accounts tm db)) <= 1)%nat) /\
    Main.store_loop w gcfg O
      (take 10 (Main.ranked (Main.run_once w fcfg gcfg kws accounts tm db))) (d, [])
    = (Main.db_after (Main.run_once w fcfg gcfg kws accounts tm db),
       Main.posts_with_comments (Main.run_once w fcfg gcfg kws accounts tm db)).
Proof.
  unfold Main.run_once.
  set (kw := if tm then take 3 _ else _).
  set (topic := Scraper.discover_posts_by_topic _ kw _).
  set (watch := Scraper.check_monitored_accounts _ _ _ accounts db _).
  assert (Hw : Database.posts (Scraper.store watch) = Database.posts db)
    by apply check_loop_posts.
  destruct (check_loop_frame (Main.scrape_profile w) (Main.check_timestamp w)
              (Main.accounts_now w) (Database.get_already_seen_ids db) accounts O
              (Scraper.mkWatch [] db [])) as (Hc & Ha & _).
  fold (Scraper.check_monitored_accounts (Main.scrape_profile w) (Main.check_timestamp w)
          (Main.accounts_now w) accounts db (Database.get_already_seen_ids db)) in Hc, Ha.
  fold watch in Hc, Ha. cbn [Scraper.store] in Hc, Ha.
  destruct tm.
  - exists db. split; [reflexivity|]. split; [reflexivity|]. split; [reflexivity|].
    split; [reflexivity|].
    destruct (topic ++ []) as [|p0 l0] eqn:Hall.
    + split; [intros _; cbn; lia|reflexivity].
    + rewrite <- Hall.
      destruct (Filter.filter_and_rank_posts (topic ++ []) _ fcfg _) as [|r0 rs] eqn:Hr.
      * split; [intros _; cbn; lia|reflexivity].
      * destruct (Main.store_loop w gcfg O (take 10 (take 1 (r0 :: rs))) (db, []))
          as [d' items] eqn:Hs.
        cbn [Main.ranked Main.db_after Main.posts_with_comments].
        split; [intros _; apply firstn_le_length|exact Hs].
  - exists (Scraper.store watch). split; [exact Hw|]. split; [exact Hc|].
    split; [exact Ha|]. split; [discriminate|]. split; [discriminate|].
    destruct (topic ++ Scraper.all_posts watch) as [|p0 l0] eqn:Hall; [reflexivity|].
    rewrite <- Hall.
    destruct (Filter.filter_and_rank_posts (topic ++ Scraper.all_posts watch) _ fcfg _)
      as [|r0 rs] eqn:Hr; [reflexivity|].
    destruct (Main.store_loop w gcfg O (take 10 (r0 :: rs)) (Scraper.store watch, []))
      as [d' items] eqn:Hs.
    cbn [Main.ranked Main.db_after Main.posts_with_comments]. exact Hs.
Qed.

(** X22. A run of the pipeline only adds to the store: the post rows
    it found are all still there, unchanged, and at most ten are new;
    the comments it found are a prefix of the comments it leaves, at most
    forty are new; no approval is written. The items handed to the
    notifier are the first ten ranked posts, in ranking order; in test
    mode at most one post is ranked and no last-check time changes. *)
Theorem run_once_only_adds :
  forall w fcfg gcfg kws accounts tm db,
    Database.posts db
      ⊆ Database.posts (Main.db_after (Main.run_once w fcfg gcfg kws accounts tm db)) /\
    (size (Database.posts
             (Main.db_after (Main.run_once w fcfg gcfg kws accounts tm db)))
     <= size (Database.posts db) + 10)%nat /\
    Database.comments db
      `prefix_of` Database.comments
                    (Main.db_after (Main.run_once w fcfg gcfg kws accounts tm db)) /\
    (length (Database.comments
               (Main.db_after (Main.run_once w fcfg gcfg kws accounts tm db)))
     <= length (Database.comments db) + 40)%nat /\
    Database.approvals (Main.db_after (Main.run_once w fcfg gcfg kws accounts tm db))
    = Database.approvals db /\
    List.map Main.item_post
      (Main.posts_with_comments (Main.run_once w fcfg gcfg kws accounts tm db))
    = take 10 (Main.ranked (Main.run_once w fcfg gcfg kws accounts tm db)) /\
    (tm = true ->
     (length (Main.ranked (Main.run_once w fcfg gcfg kws accounts tm db)) <= 1)%nat /\
     Database.account_checks
       (Main.db_after (Main.run_once w fcfg gcfg kws accounts tm db))
     = Database.account_checks db).
Proof.
  intros w fcfg gcfg kws accounts tm db.
  destruct (run_once_store w fcfg gcfg kws accounts tm db)
    as (d & Hp & Hc & Ha & Htm & Hone & Hs).
  set (run := Main.run_once w fcfg gcfg kws accounts tm db) in *.
  pose proof (store_loop_subseteq w gcfg (take 10 (Main.ranked run)) O (d, [])) as Hsub.
  destruct (store_loop_frame w gcfg (take 10 (Main.ranked run)) O d [])
    as (F1 & F2 & F3 & F4 & F5 & F6).
  rewrite Hs in Hsub, F1, F2, F3, F4, F5, F6. cbn [fst snd] in *.
  pose proof (firstn_le_length 10 (Main.ranked run)) as Hten.
  rewrite Hp in Hsub, F1. rewrite Hc in F2, F3. rewrite Ha in F4.
  split; [exact Hsub|]. split; [lia|]. split; [exact F2|]. split; [lia|].
  split; [exact F4|]. split; [exact F6|].
  intros E. split; [now apply Hone|]. rewrite F5, (Htm E). reflexivity.
Qed.

Lemma run_once_only_adds_witness :
  Nat.le (length (Main.ranked
                    (Main.run_once (two_posts 7200000000) Filter.default_config
                       Generator.default_config one_keyword [] true Database.empty)))
         1.
Proof.
  apply (proj2 (proj2 (proj2 (proj2 (proj2 (proj2
           (run_once_only_adds (two_posts 7200000000) Filter.default_config
              Generator.default_config one_keyword [] true Database.empty))))))).
  reflexivity.
Defined.


(** ** Edit mode and on-demand search *)

Lemma handle_custom_comment_edit ts msg b post_id r :
  TelegramBot.editing_post_id b = Some post_id ->
  post_id <> EmptyString ->
  Database.get_post (TelegramBot.db b) post_id = Some r ->
  fst (TelegramBot.handle_custom_comment ts msg b)
  = TelegramBot.mkBot
      (Database.update_post_status post_id Database.approved
         (Database.mkDB (Database.posts (TelegramBot.db b))
            (Database.comments (TelegramBot.db b)
             ++ [Database.mkCommentRow
                   (Z.of_nat (length (Database.comments (TelegramBot.db b))) + 1)
                   post_id "custom" (Str.strip msg) ts []])
            (Database.approvals (TelegramBot.db b)
             ++ [Database.mkApprovalRow
                   (Z.of_nat (length (Database.approvals (TelegramBot.db b))) + 1)
                   post_id
                   (Z.of_nat (length (Database.comments (TelegramBot.db b))) + 1)
                   "custom" (Some (Str.strip msg)) ts None])
            (Database.account_checks (TelegramBot.db b))))
      None (TelegramBot.pending_search_topic b) (TelegramBot.accounts_json b).
Proof.
  intros He Hne Hpost. unfold TelegramBot.handle_custom_comment. rewrite He.
  destruct (String.eqb_spec post_id EmptyString) as [E|_]; [contradiction|].
  rewrite Hpost. reflexivity.
Qed.

Lemma handle_custom_comment_search ts msg b :
  TelegramBot.editing_post_id b = None ->
  TelegramBot.handle_custom_comment ts msg b
  = if String.eqb (Str.strip msg) EmptyString then (b, [])
    else
      (TelegramBot.mkBot (TelegramBot.db b) (TelegramBot.editing_post_id b)
         (Some (Str.strip msg)) (TelegramBot.accounts_json b),
       [TelegramBot.Reply
          ("🔍 <b>" +:+ TelegramBot._h (Str.strip msg) +:+ "</b>" +:+ nl +:+ nl +:+
           "How many posts? (sorted by highest views)")]).
Proof.
  intros He. unfold TelegramBot.handle_custom_comment. rewrite He. reflexivity.
Qed.

(** X23. After Edit is pressed on a stored post the next message is
    taken as the reviewer's own comment: its text, stripped, is stored as
    a comment of type custom with no issues (it is not validated, whatever
    its length), an approval naming that comment and carrying the text is
    filed, the post becomes approved and the edit mode ends. Pressing
    Edit alone changes nothing in the store; and after /cancel the same
    message leaves the store as it is and is taken as a search topic. *)
Theorem edit_then_message :
  forall int ts1 ts2 data m msg b post_id r,
    Str.split_once "|" data = Some ("edit", post_id) ->
    post_id <> EmptyString ->
    Database.get_post (TelegramBot.db b) post_id = Some r ->
    let b1 := fst (TelegramBot.button_callback int ts1 data m b) in
    let b2 := fst (TelegramBot.handle_custom_comment ts2 msg b1) in
    let b3 := fst (TelegramBot.handle_custom_comment ts2 msg
                     (fst (TelegramBot.cmd_cancel b1))) in
    TelegramBot.db b1 = TelegramBot.db b /\
    TelegramBot.editing_post_id b1 = Some post_id /\
    Database.comments (TelegramBot.db b2)
    = Database.comments (TelegramBot.db b)
      ++ [Database.mkCommentRow
            (Z.of_nat (length (Database.comments (TelegramBot.db b))) + 1)
            post_id "custom" (Str.strip msg) ts2 []] /\
    Database.approvals (TelegramBot.db b2)
    = Database.approvals (TelegramBot.db b)
      ++ [Database.mkApprovalRow
            (Z.of_nat (length (Database.approvals (TelegramBot.db b))) + 1)
            post_id (Z.of_nat (length (Database.comments (TelegramBot.db b))) + 1)
            "custom" (Some (Str.strip msg)) ts2 None] /\
    Database.get_post (TelegramBot.db b2) post_id
    = Some (Database.set_status Database.approved r) /\
    TelegramBot.editing_post_id b2 = None /\
    TelegramBot.db b3 = TelegramBot.db b /\
    TelegramBot.editing_post_id b3 = None /\
    (Str.strip msg <> EmptyString ->
     TelegramBot.pending_search_topic b3 = Some (Str.strip msg)).
Proof.
  intros int ts1 ts2 data m msg b post_id r Hsplit Hne Hpost b1 b2 b3.
  assert (E1 : b1 = TelegramBot.mkBot (TelegramBot.db b) (Some post_id)
                      (TelegramBot.pending_search_topic b) (TelegramBot.accounts_json b)).
  { subst b1.
    apply (button_callback_branch int ts1 data m b "edit" post_id r Hsplit);
      [discriminate|exact Hpost]. }
  assert (E2 : b2 = _)
    by (subst b2; apply (handle_custom_comment_edit ts2 msg b1 post_id r);
        rewrite ?E1; first [reflexivity|assumption]).
  assert (E3 : TelegramBot.handle_custom_comment ts2 msg
                 (fst (TelegramBot.cmd_cancel b1)) = _)
    by (apply handle_custom_comment_search; reflexivity).
  split; [rewrite E1; reflexivity|]. split; [rewrite E1; reflexivity|].
  split; [rewrite E2, E1; reflexivity|]. split; [rewrite E2, E1; reflexivity|].
  split.
  { rewrite E2, E1. unfold Database.get_post, Database.update_post_status.
    cbn [TelegramBot.db Database.posts]. rewrite lookup_alter_eq.
    unfold Database.get_post in Hpost. rewrite Hpost. reflexivity. }
  split; [rewrite E2; reflexivity|].
  subst b3. rewrite E3.
  destruct (String.eqb_spec (Str.strip msg) EmptyString) as [E|N]; cbn [fst].
  - rewrite E1. repeat split. intros H. contradiction.
  - rewrite E1. repeat split.
Qed.

Lemma edit_then_message_witness :
  Database.get_post
    (TelegramBot.db
       (fst (TelegramBot.handle_custom_comment 7200000007 "  my own words  "
               (fst (TelegramBot.button_callback no_int 7200000006 "edit|1" EmptyString
                       sample_bot)))))
    "1"
  = option_map (Database.set_status Database.approved)
      (Database.get_post (TelegramBot.db sample_bot) "1").
Proof.
  destruct (Database.get_post (TelegramBot.db sample_bot) "1") as [r|] eqn:Hr;
    [|vm_compute in Hr; discriminate].
  refine (proj1 (proj2 (proj2 (proj2 (proj2
            (edit_then_message no_int 7200000006 7200000007 "edit|1" EmptyString
               "  my own words  " sample_bot "1" r _ _ Hr)))))).
  - reflexivity.
  - discriminate.
Defined.

Lemma scount_press int ts data m b n count :
  Str.split_once "|" data = Some ("scount", n) ->
  int n = Some count ->
  TelegramBot.button_callback int ts data m b
  = match TelegramBot.pending_search_topic b with
    | None =>
        (TelegramBot.mkBot (TelegramBot.db b) (TelegramBot.editing_post_id b) None
           (TelegramBot.accounts_json b),
         [TelegramBot.Answer None;
          TelegramBot.Answer (Some "Search expired — type the topic again.")])
    | Some topic =>
        if String.eqb topic EmptyString then
          (TelegramBot.mkBot (TelegramBot.db b) (TelegramBot.editing_post_id b) None
             (TelegramBot.accounts_json b),
           [TelegramBot.Answer None;
            TelegramBot.Answer (Some "Search expired — type the topic again.")])
        else
          (TelegramBot.mkBot (TelegramBot.db b) (TelegramBot.editing_post_id b) None
             (TelegramBot.accounts_json b),
           [TelegramBot.Answer None;
            TelegramBot.EditMessage
              ("🔍 Searching <b>" +:+ TelegramBot._h topic +:+ "</b> — top " +:+
               TelegramBot.str_of_Z count +:+ " posts by views..." +:+ nl +:+ nl +:+
               "Opening browser...");
            TelegramBot.StartSearch topic count])
    end.
Proof.
  intros Hsplit Hint. unfold TelegramBot.button_callback. rewrite Hsplit.
  cbn [String.eqb Ascii.eqb Bool.eqb andb]. rewrite Hint. reflexivity.
Qed.

(** X24. A text message outside edit mode is a search topic: stripped
    and not empty, it is kept as the pending topic and the store is left
    as it is. The count button pressed next starts one search, for that
    topic and the count of the button, and clears the pending topic, so a
    count button pressed again starts no search and answers that the
    search expired; neither press touches the store or the edit mode. *)
Theorem search_starts_once :
  forall int ts ts1 ts2 msg m1 m2 data n count b,
    TelegramBot.editing_post_id b = None ->
    Str.strip msg <> EmptyString ->
    Str.split_once "|" data = Some ("scount", n) ->
    int n = Some count ->
    let b1 := fst (TelegramBot.handle_custom_comment ts msg b) in
    let b2 := fst (TelegramBot.button_callback int ts1 data m1 b1) in
    let b3 := fst (TelegramBot.button_callback int ts2 data m2 b2) in
    TelegramBot.db b1 = TelegramBot.db b /\
    TelegramBot.pending_search_topic b1 = Some (Str.strip msg) /\
    (exists text,
        snd (TelegramBot.button_callback int ts1 data m1 b1)
        = [TelegramBot.Answer None; TelegramBot.EditMessage text;
           TelegramBot.StartSearch (Str.strip msg) count]) /\
    TelegramBot.pending_search_topic b2 = None /\
    snd (TelegramBot.button_callback int ts2 data m2 b2)
    = [TelegramBot.Answer None;
       TelegramBot.Answer (Some "Search expired — type the topic again.")] /\
    TelegramBot.db b3 = TelegramBot.db b /\
    TelegramBot.editing_post_id b3 = None /\
    TelegramBot.accounts_json b3 = TelegramBot.accounts_json b.
Proof.
  intros int ts ts1 ts2 msg m1 m2 data n count b He Hne Hsplit Hint b1 b2 b3.
  assert (E1 : b1 = TelegramBot.mkBot (TelegramBot.db b) (TelegramBot.editing_post_id b)
                      (Some (Str.strip msg)) (TelegramBot.accounts_json b)).
  { subst b1. rewrite (handle_custom_comment_search ts msg b He).
    destruct (String.eqb_spec (Str.strip msg) EmptyString) as [E|_];
      [contradiction|reflexivity]. }
  pose proof (scount_press int ts1 data m1 b1 n count Hsplit Hint) as P1.
  rewrite E1 in P1 at 2. cbn [TelegramBot.pending_search_topic] in P1.
  destruct (String.eqb_spec (Str.strip msg) EmptyString) as [E|_]; [contradiction|].
  assert (E2 : b2 = TelegramBot.mkBot (TelegramBot.db b) (TelegramBot.editing_post_id b)
                      None (TelegramBot.accounts_json b)).
  { subst b2. rewrite P1, E1. reflexivity. }
  pose proof (scount_press int ts2 data m2 b2 n count Hsplit Hint) as P2.
  rewrite E2 in P2 at 2. cbn [TelegramBot.pending_search_topic] in P2.
  split; [rewrite E1; reflexivity|]. split; [rewrite E1; reflexivity|].
  split; [rewrite P1; eexists; reflexivity|]. split; [rewrite E2; reflexivity|].
  split; [rewrite P2; reflexivity|].
  subst b3. rewrite P2, E2. cbn. repeat split. exact He.
Qed.

Lemma search_starts_once_witness :
  TelegramBot.pending_search_topic
    (fst (TelegramBot.handle_custom_comment 7200000008 " mixture of experts "
            sample_bot))
  = Some (Str.strip " mixture of experts ").
Proof.
  refine (proj1 (proj2 (search_starts_once (fun _ => Some 3) 7200000008 7200000009
                          7200000010 " mixture of experts " EmptyString EmptyString
                          "scount|3" "3" 3 sample_bot _ _ _ _))).
  - reflexivity.
  - vm_compute. discriminate.
  - reflexivity.
  - reflexivity.
Defined.


(** ** Search on demand *)

Lemma candidates_loop_elem topic seen cutoff raw p :
  p ∈ OnDemand.candidates_loop topic seen cutoff raw ->
  exists q, q ∈ raw /\ p = set_source ("on_demand:" +:+ topic) q /\
            OnDemand.already_seen seen q = false /\
            OnDemand.before_cutoff cutoff q = false.
Proof.
  induction raw as [|q raw IH]; cbn [OnDemand.candidates_loop]; intros H;
    [now apply elem_of_nil in H|].
  destruct (OnDemand.already_seen seen q) eqn:Hs.
  { destruct (IH H) as (q' & Hin & Hq). exists q'. split; [now right|exact Hq]. }
  destruct (OnDemand.before_cutoff cutoff q) eqn:Hc.
  { destruct (IH H) as (q' & Hin & Hq). exists q'. split; [now right|exact Hq]. }
  apply elem_of_cons in H as [->|H].
  - exists q. split; [left|]. repeat split; assumption.
  - destruct (IH H) as (q' & Hin & Hq). exists q'. split; [now right|exact Hq].
Qed.

Lemma unique_loop_elem l :
  forall S p, p ∈ OnDemand.unique_loop S l -> p ∈ l /\ id p ∉ S.
Proof.
  induction l as [|q l IH]; intros S p H; cbn [OnDemand.unique_loop] in H;
    [now apply elem_of_nil in H|].
  destruct (decide (id q ∈ S)) as [Hq|Hq].
  - rewrite bool_decide_eq_true_2 in H by exact Hq.
    destruct (IH S p H) as [Hin Hn]. split; [now right|exact Hn].
  - rewrite bool_decide_eq_false_2 in H by exact Hq.
    apply elem_of_cons in H as [->|H]; [split; [left|exact Hq]|].
    destruct (IH _ p H) as [Hin Hn]. split; [now right|]. set_solver.
Qed.

Lemma unique_loop_nodup l :
  forall S, NoDup (List.map id (OnDemand.unique_loop S l)).
Proof.
  induction l as [|q l IH]; intros S; cbn [OnDemand.unique_loop]; [constructor|].
  destruct (bool_decide (id q ∈ S)); [apply IH|].
  cbn [List.map]. constructor; [|apply IH].
  intros Hin. apply list_elem_of_In, in_map_iff in Hin as (p & Hp & Hin).
  apply list_elem_of_In, unique_loop_elem in Hin as [_ Hn]. set_solver.
Qed.

Lemma insert_by_views_perm p l : OnDemand.insert_by_views p l ≡ₚ p :: l.
Proof.
  induction l as [|q l IH]; cbn [OnDemand.insert_by_views]; [reflexivity|].
  destruct (views q >? views p); [|reflexivity].
  rewrite IH. apply perm_swap.
Qed.

Lemma sort_by_views_perm l : OnDemand.sort_by_views l ≡ₚ l.
Proof.
  induction l as [|p l IH]; cbn; [reflexivity|].
  rewrite insert_by_views_perm. now constructor.
Qed.

Lemma insert_by_views_sorted p l :
  StronglySorted by_views_desc l ->
  StronglySorted by_views_desc (OnDemand.insert_by_views p l).
Proof.
  induction 1 as [|q l Hl IH Hq]; cbn [OnDemand.insert_by_views].
  - repeat constructor.
  - destruct (Z.gtb_spec (views q) (views p)) as [Hgt|Hle].
    + constructor; [exact IH|].
      apply Forall_forall. intros x Hx.
      rewrite insert_by_views_perm in Hx. apply elem_of_cons in Hx as [->|Hx].
      * unfold by_views_desc. lia.
      * rewrite Forall_forall in Hq. now apply Hq.
    + constructor; [now constructor|].
      constructor; [unfold by_views_desc; lia|].
      eapply Forall_impl; [exact Hq|]. unfold by_views_desc. intros x Hx. lia.
Qed.

Lemma sort_by_views_sorted l : StronglySorted by_views_desc (OnDemand.sort_by_views l).
Proof.
  induction l as [|p l IH]; cbn; [constructor|]. now apply insert_by_views_sorted.
Qed.

Lemma slice_to_take {A} n (l : list A) : exists k, Filter.slice_to n l = take k l.
Proof. unfold Filter.slice_to. destruct (n <? 0); eexists; reflexivity. Qed.

Lemma NoDup_map_take {A B} (f : A -> B) k (l : list A) :
  NoDup (List.map f l) -> NoDup (List.map f (take k l)).
Proof.
  revert k. induction l as [|x l IH]; intros [|k] H; cbn; try constructor.
  - cbn in H. apply NoDup_cons in H as [Hx _]. intros Hin. apply Hx.
    apply list_elem_of_In, in_map_iff in Hin as (y & Hy & Hin).
    apply list_elem_of_In, in_map_iff. exists y. split; [exact Hy|].
    apply list_elem_of_In in Hin. apply elem_of_take in Hin as (i & Hi & _).
    apply list_elem_of_In. eapply list_elem_of_lookup_2; eauto.
  - apply IH. cbn in H. now apply NoDup_cons in H as [_ H].
Qed.

Lemma send_loop_subseteq ct posts :
  forall k d, Database.posts d ⊆ Database.posts (OnDemand.send_loop ct k posts d).
Proof.
  induction posts as [|p rest IH]; intros k d; cbn [OnDemand.send_loop];
    [reflexivity|].
  etransitivity; [apply (insert_post_subseteq (ct k) p d)|apply IH].
Qed.

Lemma send_loop_kept ct posts :
  forall k d p pid,
    p ∈ posts -> id p = Some pid -> kept (OnDemand.send_loop ct k posts d) p.
Proof.
  induction posts as [|q rest IH]; intros k d p pid Hin Hid;
    [now apply elem_of_nil in Hin|].
  cbn [OnDemand.send_loop]. apply elem_of_cons in Hin as [->|Hin].
  - eapply kept_subseteq; [apply send_loop_subseteq|].
    now apply (insert_post_kept (ct k) q d pid).
  - now apply (IH (S k) _ p pid).
Qed.

Lemma send_loop_frame ct posts :
  forall k d,
    Database.comments (OnDemand.send_loop ct k posts d) = Database.comments d /\
    Database.approvals (OnDemand.send_loop ct k posts d) = Database.approvals d.
Proof.
  induction posts as [|p rest IH]; intros k d; cbn [OnDemand.send_loop];
    [split; reflexivity|].
  destruct (IH (S k) (Database.insert_post (ct k) p d)) as [-> ->].
  unfold Database.insert_post. destruct (id p) as [pid|]; [|split; reflexivity].
  destruct (Database.post_exists d pid || Database.url_exists d (url p));
    split; reflexivity.
Qed.

Lemma run_search_shape sk now ct topic count db :
  fst (OnDemand.run_search sk now ct topic count db)
  = OnDemand.send_loop ct O (snd (OnDemand.run_search sk now ct topic count db)) db /\
  (snd (OnDemand.run_search sk now ct topic count db) = [] \/
   exists raw,
     sk topic = Ok raw /\
     snd (OnDemand.run_search sk now ct topic count db)
     = Filter.slice_to count
         (OnDemand.sort_by_views
            (OnDemand.unique_loop ∅
               (OnDemand.candidates_loop topic (Database.get_already_seen_ids db)
                  (now - timedelta_hours 48) raw)))).
Proof.
  unfold OnDemand.run_search. destruct (sk topic) as [raw|e] eqn:Hs.
  - destruct raw as [|r0 raw]; [split; [reflexivity|now left]|].
    cbv zeta. destruct (Filter.slice_to count _) as [|t0 ts] eqn:Ht.
    + split; [reflexivity|now left].
    + split; [reflexivity|]. right. exists (r0 :: raw). split; [reflexivity|].
      cbn [snd]. symmetry. exact Ht.
  - split; [reflexivity|now left].
Qed.

(** X25. The posts an on-demand search sends are posts the search
    showed, each with its source set to [on_demand:] and the topic: none
    of them has an id that is already stored, none with a known creation
    time is older than 48 hours, no two share an id, they are ordered by
    views, highest first, and for a count that is not negative there are
    at most that many. Each one that has an id is in the store
    afterwards (or a row with its url is), and the search removes or
    changes no row of the store. No score is computed and no threshold on
    score, views or followers is applied. *)
Theorem on_demand_selection :
  forall sk now ct topic count db,
    (forall p,
        p ∈ snd (OnDemand.run_search sk now ct topic count db) ->
        source p = Some ("on_demand:" +:+ topic) /\
        OnDemand.already_seen (Database.get_already_seen_ids db) p = false /\
        (forall created,
            created_at p = Some created -> now - timedelta_hours 48 <= created) /\
        (exists raw q,
            sk topic = Ok raw /\ q ∈ raw /\
            p = set_source ("on_demand:" +:+ topic) q) /\
        (forall pid,
            id p = Some pid ->
            kept (fst (OnDemand.run_search sk now ct topic count db)) p)) /\
    StronglySorted by_views_desc (snd (OnDemand.run_search sk now ct topic count db)) /\
    NoDup (List.map id (snd (OnDemand.run_search sk now ct topic count db))) /\
    (0 <= count ->
     Z.of_nat (length (snd (OnDemand.run_search sk now ct topic count db))) <= count) /\
    Database.posts db
      ⊆ Database.posts (fst (OnDemand.run_search sk now ct topic count db)) /\
    Database.comments (fst (OnDemand.run_search sk now ct topic count db))
    = Database.comments db /\
    Database.approvals (fst (OnDemand.run_search sk now ct topic count db))
    = Database.approvals db.
Proof.
  intros sk now ct topic count db.
  destruct (run_search_shape sk now ct topic count db) as (Hfst & Hsnd).
  set (out := OnDemand.run_search sk now ct topic count db) in *.
  rewrite Hfst.
  split; [|split; [|split; [|split; [|split; [apply send_loop_subseteq
                                               |apply send_loop_frame]]]]].
  - intros p Hp.
    assert (Hk : forall pid, id p = Some pid ->
                             kept (OnDemand.send_loop ct 0 (snd out) db) p)
      by (intros pid Hid; now apply (send_loop_kept ct (snd out) O db p pid)).
    destruct Hsnd as [E|(raw & Hok & E)];
      [rewrite E in Hp; now apply elem_of_nil in Hp|].
    rewrite E in Hp.
    apply elem_of_slice_to in Hp. rewrite sort_by_views_perm in Hp.
    apply unique_loop_elem in Hp as [Hp _].
    apply candidates_loop_elem in Hp as (q & Hq & -> & Hs & Hc).
    split; [reflexivity|]. split; [exact Hs|]. split; [|split; [|exact Hk]].
    + intros created Hcr. unfold OnDemand.before_cutoff in Hc.
      cbn in Hcr. rewrite Hcr in Hc. apply Z.ltb_ge in Hc. exact Hc.
    + exists raw, q. repeat split; assumption.
  - destruct Hsnd as [->|(raw & Hok & ->)]; [constructor|].
    match goal with
    | |- context [Filter.slice_to count ?l] => destruct (slice_to_take count l) as [k ->]
    end.
    apply take_sorted, sort_by_views_sorted.
  - destruct Hsnd as [->|(raw & Hok & ->)]; [constructor|].
    match goal with
    | |- context [Filter.slice_to count ?l] => destruct (slice_to_take count l) as [k ->]
    end.
    apply NoDup_map_take.
    match goal with
    | |- context [OnDemand.sort_by_views ?l] =>
        assert (Hp : List.map id (OnDemand.sort_by_views l) ≡ₚ List.map id l)
          by apply Permutation_map, sort_by_views_perm
    end.
    rewrite Hp. apply unique_loop_nodup.
  - intros Hc. destruct Hsnd as [->|(raw & Hok & ->)]; [cbn; lia|].
    unfold Filter.slice_to. destruct (Z.ltb_spec count 0); [lia|].
    rewrite length_take. lia.
Qed.

Lemma on_demand_selection_witness :
  Z.of_nat (length (snd (OnDemand.run_search (three_hits 7200000000) 7200000000
                           (fun _ => 7200000001) "rlhf" 5 Database.empty)))
  <= 5.
Proof.
  apply (proj1 (proj2 (proj2 (proj2
           (on_demand_selection (three_hits 7200000000) 7200000000
              (fun _ => 7200000001) "rlhf" 5 Database.empty))))).
  lia.
Defined.
